(** * KontactShare server: a shallow embedding of [src/index.ts]

    The Express application is a set of route handlers over two tables of
    a hosted Postgres database (reached through the supabase client), plus
    an admin guard built on signed bearer tokens and a multer upload
    middleware.  Each handler is embedded as a function in a small state
    monad over the two tables; every call made through the supabase
    client is recorded in a journal, so that "before any database call"
    is a statement about the journal.

    External libraries (jsonwebtoken, bcryptjs, Node's [path], the list
    grammar of PostgREST) are taken through their contracts; the tables
    follow the schema shipped with the sources (NOT NULL and UNIQUE
    columns as the dump declares them, the width of [status] as the
    migration that adds it).

    Conventions of the model:
    - a body field is a JSON scalar or absent ([Js.Undefined]); only
      [uniqueCodes] may be an array; a number is kept as its decimal text;
    - a filter operand reaches the database as text, so [.eq] compares
      the column with the template-literal rendering of the operand;
    - the object given to [.update] is sent as JSON: a key whose value is
      [undefined] is not sent, [null] is SQL NULL, any other scalar is
      cast to the text column;
    - [.single()] succeeds on exactly one row;
    - a text is the sequence of its UTF-8 bytes;
    - [Date.now()] is an argument of each handler, in milliseconds, and
      the two timestamp columns hold such instants. *)

From Stdlib Require Import String Ascii List ZArith Lia Bool DecimalString.
Import ListNotations.
Local Open Scope list_scope.
Local Open Scope string_scope.

(** ** JSON scalars as the handlers see them *)

Module Js.

(** A field of a parsed JSON body.  [Undefined] is an absent key; a
    number is kept as the text JavaScript prints for it ([String(n)],
    which is also what [JSON.stringify] emits). *)
Inductive value : Type :=
| Undefined
| Null
| Boolean (b : bool)
| Number (lit : string)
| Text (s : string).

(** [!!v] *)
Definition truthy (v : value) : bool :=
  match v with
  | Undefined | Null => false
  | Boolean b => b
  | Number lit => negb (lit =? "0")
  | Text s => negb (s =? "")
  end.

(** The template literal [`${v}`], which is how the supabase client
    renders a filter operand. *)
Definition template (v : value) : string :=
  match v with
  | Undefined => "undefined"
  | Null => "null"
  | Boolean true => "true"
  | Boolean false => "false"
  | Number lit => lit
  | Text s => s
  end.

(** [a === b] *)
Definition strict_eq (a b : value) : bool :=
  match a, b with
  | Undefined, Undefined => true
  | Null, Null => true
  | Boolean x, Boolean y => Bool.eqb x y
  | Number x, Number y => x =? y
  | Text x, Text y => x =? y
  | _, _ => false
  end.

(** [x || fallback] on a nullable database text. *)
Definition or_default (x : option string) (fallback : string) : string :=
  match x with
  | Some s => if s =? "" then fallback else s
  | None => fallback
  end.

Definition is_digit (c : ascii) : bool :=
  let n := nat_of_ascii c in (48 <=? n)%nat && (n <=? 57)%nat.

(** [/^\d{5}$/.test(s)] *)
Definition five_digits (s : string) : bool :=
  match s with
  | String a (String b (String c (String d (String e EmptyString)))) =>
      is_digit a && is_digit b && is_digit c && is_digit d && is_digit e
  | _ => false
  end.

(** [typeof v === 'string' && /^\d{5}$/.test(v)] *)
Definition is_five_digit_string (v : value) : bool :=
  match v with
  | Text s => five_digits s
  | _ => false
  end.

(** [s.split(sep)] for a one-character separator. *)
Fixpoint split (sep : ascii) (s : string) : list string :=
  match s with
  | EmptyString => [EmptyString]
  | String c rest =>
      if Ascii.eqb c sep then EmptyString :: split sep rest
      else match split sep rest with
           | [] => [String c EmptyString]
           | w :: ws => String c w :: ws
           end
  end.

(** [xs[i]], with [undefined] out of range. *)
Definition index (xs : list string) (i : nat) : option string := nth_error xs i.

(** [String(n)] for an array length. *)
Definition of_nat (n : nat) : string := NilZero.string_of_uint (Nat.to_uint n).

End Js.

(** ** Text as the database stores it *)

(** Every character of [s] passes [p]. *)
Fixpoint all_chars (p : ascii -> bool) (s : string) : bool :=
  match s with
  | EmptyString => true
  | String c rest => p c && all_chars p rest
  end.

Module Postgres.

(** A byte that continues a character of a UTF-8 text. *)
Definition continuation (c : ascii) : bool :=
  let n := nat_of_ascii c in (128 <=? n)%nat && (n <? 192)%nat.

(** [char_length(s)]: the characters of [s], not its bytes. *)
Fixpoint char_length (s : string) : nat :=
  match s with
  | EmptyString => O
  | String c rest => if continuation c then char_length rest else S (char_length rest)
  end.

(** The first [n] characters of [s], and what follows them. *)
Fixpoint clip (n : nat) (s : string) {struct s} : string * string :=
  match s with
  | EmptyString => (EmptyString, EmptyString)
  | String c rest =>
      if continuation c
      then let (kept, excess) := clip n rest in (String c kept, excess)
      else match n with
           | O => (EmptyString, s)
           | S k => let (kept, excess) := clip k rest in (String c kept, excess)
           end
  end.

Definition blank (c : ascii) : bool := Ascii.eqb c " ".

(** Storing [s] in a [character varying(n)] column: a text of more than
    [n] characters is an error ("value too long"), unless all that
    exceeds them is spaces, which are then cut off. *)
Definition character_varying (n : nat) (s : string) : option string :=
  if (char_length s <=? n)%nat then Some s
  else let (kept, excess) := clip n s in
       if all_chars blank excess then Some kept else None.

End Postgres.

(** ** The [in] filter, from the client to PostgREST

    [.in(column, values)] does not reach the database as a list: the
    client writes the values into one query parameter, and PostgREST
    reads that text back into items by a grammar of its own.  The
    client's part is spelled out below; of the grammar, which is not in
    these sources, only what it documents is used. *)

Module Postgrest.

(** The double quote. *)
Definition dquote : ascii := "034"%char.

(** [/[,()]/]: the characters the client knows to be reserved. *)
Definition reserved (c : ascii) : bool :=
  Ascii.eqb c "," || Ascii.eqb c "(" || Ascii.eqb c ")".

(** Some character of [s] passes [p]. *)
Fixpoint any_char (p : ascii -> bool) (s : string) : bool :=
  match s with
  | EmptyString => false
  | String c rest => p c || any_char p rest
  end.

(** [xs.join(sep)] *)
Fixpoint join (sep : string) (xs : list string) : string :=
  match xs with
  | [] => EmptyString
  | x :: rest =>
      match rest with
      | [] => x
      | _ :: _ => x ++ sep ++ join sep rest
      end
  end.

(** [Array.from(new Set(values))]: each value once, at its first place
    (a [Set] tells JSON scalars apart as [===] does). *)
Fixpoint distinct_values (values : list Js.value) : list Js.value :=
  match values with
  | [] => []
  | v :: rest => v :: filter (fun w => negb (Js.strict_eq v w)) (distinct_values rest)
  end.

(** One value as the client writes it, [typeof s === 'string' &&
    /[,()]/.test(s)] deciding: a string holding a reserved character is
    put between double quotes, as it is, nothing in it being escaped;
    any other value is its template literal. *)
Definition cleaned (v : Js.value) : string :=
  match v with
  | Js.Text s =>
      if any_char reserved s then String dquote (s ++ String dquote EmptyString) else s
  | _ => Js.template v
  end.

(** The list the client sends after [in.]: the cleaned values, joined
    by commas, between parentheses. *)
Definition in_list (values : list Js.value) : string :=
  "(" ++ join "," (map cleaned (distinct_values values)) ++ ")".

(** PostgREST's reading of such a list: its items, or [None] when it
    rejects the request. *)
Class Grammar : Type := { items : string -> option (list string) }.

(** An item of a list, bare or between double quotes. *)
Inductive item : Type :=
| Bare (text : string)
| Quoted (text : string).


Definition written (i : item) : string :=
  match i with
  | Bare text => text
  | Quoted text => String dquote (text ++ String dquote EmptyString)
  end.

Definition content (i : item) : string :=
  match i with
  | Bare text | Quoted text => text
  end.

(** A letter, a digit, [-] or [_]. *)
Definition word_char (c : ascii) : bool :=
  let n := nat_of_ascii c in
  ((97 <=? n)%nat && (n <=? 122)%nat) || ((65 <=? n)%nat && (n <=? 90)%nat)
  || ((48 <=? n)%nat && (n <=? 57)%nat) || Ascii.eqb c "-" || Ascii.eqb c "_".

(** The items the contract speaks of: a bare word, or quoted text made
    of word characters, commas and parentheses. *)
Definition well_formed (i : item) : bool :=
  match i with
  | Bare text => negb (text =? "") && all_chars word_char text
  | Quoted text => all_chars (fun c => word_char c || reserved c) text
  end.

(** A value that goes through the client and the grammar as itself: a
    non-empty string of letters, digits, [-], [_], commas and
    parentheses. *)
Definition tame (v : Js.value) : bool :=
  match v with
  | Js.Text s => negb (s =? "") && all_chars (fun c => word_char c || reserved c) s
  | _ => false
  end.

(** What the grammar documents: items are separated by commas, and an
    item between double quotes stands for the text between them, commas
    and parentheses included. *)
Record Lawful (G : Grammar) : Prop := {
  reads_items :
    forall xs : list item,
      xs <> [] ->
      forallb well_formed xs = true ->
      items ("(" ++ join "," (map written xs) ++ ")") = Some (map content xs)
}.

End Postgrest.

(** ** The two tables *)

Module Admins.

(** [admins]: [id] uuid, [email] unique and not null, [password_hash]
    not null, [role] nullable with default ['admin']. *)
Record row : Type := {
  id : string;
  email : string;
  password_hash : string;
  role : option string
}.

End Admins.

Module Profiles.

(** [profiles]: [admin_id], [pin] and [unique_code] are NOT NULL (the
    first and the last also UNIQUE); every other text column is
    nullable; the two timestamps are kept as instants in milliseconds.
    The schema dump prints every [character varying] without its width;
    the one width the shipped migrations declare is that of [status]. *)
Record row : Type := {
  uuid : string;
  admin_id : string;
  pin : string;
  unique_code : string;
  profile_photo_url : option string;
  full_name : option string;
  email : option string;
  status : option string;
  job_title : option string;
  company_name : option string;
  mobile_primary : option string;
  landline_number : option string;
  address : option string;
  facebook_link : option string;
  instagram_link : option string;
  tiktok_link : option string;
  whatsapp_number : option string;
  website_link : option string;
  created_at : option Z;
  updated_at : option Z
}.

(** [ADD COLUMN IF NOT EXISTS status VARCHAR(20) DEFAULT 'active'] *)
Definition status_width : nat := 20.

(** The columns a handler writes through [update]. *)
Inductive column : Type :=
| Pin | Profile_photo_url | Full_name | Email | Status | Job_title
| Company_name | Mobile_primary | Landline_number | Address
| Facebook_link | Instagram_link | Tiktok_link | Whatsapp_number
| Website_link.

Definition set_pin (x : string) (r : row) : row :=
  {| uuid := uuid r; admin_id := admin_id r; pin := x;
     unique_code := unique_code r; profile_photo_url := profile_photo_url r;
     full_name := full_name r; email := email r; status := status r;
     job_title := job_title r; company_name := company_name r;
     mobile_primary := mobile_primary r; landline_number := landline_number r;
     address := address r; facebook_link := facebook_link r;
     instagram_link := instagram_link r; tiktok_link := tiktok_link r;
     whatsapp_number := whatsapp_number r; website_link := website_link r;
     created_at := created_at r; updated_at := updated_at r |}.

Definition set_updated_at (t : option Z) (r : row) : row :=
  {| uuid := uuid r; admin_id := admin_id r; pin := pin r;
     unique_code := unique_code r; profile_photo_url := profile_photo_url r;
     full_name := full_name r; email := email r; status := status r;
     job_title := job_title r; company_name := company_name r;
     mobile_primary := mobile_primary r; landline_number := landline_number r;
     address := address r; facebook_link := facebook_link r;
     instagram_link := instagram_link r; tiktok_link := tiktok_link r;
     whatsapp_number := whatsapp_number r; website_link := website_link r;
     created_at := created_at r; updated_at := t |}.

(** Writing a nullable text column. *)
Definition set_nullable (c : column) (x : option string) (r : row) : row :=
  let pick (c' : column) (old : option string) : option string :=
    match c, c' with
    | Profile_photo_url, Profile_photo_url | Full_name, Full_name
    | Email, Email | Status, Status | Job_title, Job_title
    | Company_name, Company_name | Mobile_primary, Mobile_primary
    | Landline_number, Landline_number | Address, Address
    | Facebook_link, Facebook_link | Instagram_link, Instagram_link
    | Tiktok_link, Tiktok_link | Whatsapp_number, Whatsapp_number
    | Website_link, Website_link => x
    | _, _ => old
    end in
  {| uuid := uuid r; admin_id := admin_id r; pin := pin r;
     unique_code := unique_code r;
     profile_photo_url := pick Profile_photo_url (profile_photo_url r);
     full_name := pick Full_name (full_name r);
     email := pick Email (email r);
     status := pick Status (status r);
     job_title := pick Job_title (job_title r);
     company_name := pick Company_name (company_name r);
     mobile_primary := pick Mobile_primary (mobile_primary r);
     landline_number := pick Landline_number (landline_number r);
     address := pick Address (address r);
     facebook_link := pick Facebook_link (facebook_link r);
     instagram_link := pick Instagram_link (instagram_link r);
     tiktok_link := pick Tiktok_link (tiktok_link r);
     whatsapp_number := pick Whatsapp_number (whatsapp_number r);
     website_link := pick Website_link (website_link r);
     created_at := created_at r; updated_at := updated_at r |}.

End Profiles.

(** ** The supabase client over the two tables *)

Module Supabase.

Inductive verb : Type := Select | Update | Delete.

(** One request sent to the database: table and verb. *)
Record call : Type := { table : string; op : verb }.

Record store : Type := {
  admins : list Admins.row;
  profiles : list Profiles.row;
  journal : list call
}.

(** Handlers are [async] functions that await one database call after
    the other: a state monad over the store. *)
Definition App (A : Type) : Type := store -> A * store.

Definition ret {A : Type} (a : A) : App A := fun s => (a, s).

Definition bind {A B : Type} (m : App A) (k : A -> App B) : App B :=
  fun s => let (a, s') := m s in k a s'.

(** The store once a call has been journalled. *)
Definition logged (t : string) (v : verb) (s : store) : store :=
  {| admins := admins s; profiles := profiles s;
     journal := (journal s ++ [{| table := t; op := v |}])%list |}.

(** The store with a new [profiles] table. *)
Definition with_profiles (rows : list Profiles.row) (s : store) : store :=
  {| admins := admins s; profiles := rows; journal := journal s |}.

Definition record (t : string) (v : verb) : App unit := fun s => (tt, logged t v s).

Definition read_admins : App (list Admins.row) := fun s => (admins s, s).

Definition read_profiles : App (list Profiles.row) := fun s => (profiles s, s).

Definition write_profiles (rows : list Profiles.row) : App unit :=
  fun s => (tt, with_profiles rows s).

(** [.single()]: the rows must be exactly one. *)
Definition single {A : Type} (rows : list A) : option A :=
  match rows with
  | [r] => Some r
  | _ => None
  end.

(** Filters: [.eq(column, operand)] compares the column with the operand
    as text; [.in(column, values)] selects the rows whose column is one
    of the items PostgREST reads in the list the client sent. *)
Definition eq_email (x : string) (a : Admins.row) : bool := Admins.email a =? x.

Definition eq_unique_code (x : string) (r : Profiles.row) : bool :=
  Profiles.unique_code r =? x.

Definition eq_admin_id (x : string) (r : Profiles.row) : bool :=
  Profiles.admin_id r =? x.

Definition eq_pin (x : string) (r : Profiles.row) : bool := Profiles.pin r =? x.

Definition in_unique_code {G : Postgrest.Grammar} (values : list Js.value)
    : option (Profiles.row -> bool) :=
  match Postgrest.items (Postgrest.in_list values) with
  | Some read => Some (fun r => existsb (String.eqb (Profiles.unique_code r)) read)
  | None => None
  end.

Definition both (f g : Profiles.row -> bool) (r : Profiles.row) : bool := f r && g r.

(** One key of the object literal handed to [.update(...)]. *)
Inductive entry : Type :=
| Col (c : Profiles.column) (v : Js.value)
| Updated_at (instant : Z).

(** What one key does to a matching row; [None] is an error of the
    database.  The request body is [JSON.stringify]'d, so a key whose
    value is [undefined] is not sent and its column is left alone; a
    JSON [null] is SQL NULL, refused by the NOT NULL [pin]; any other
    scalar is cast to the column's text type, which for [status] has a
    width. *)
Definition write (e : entry) (r : Profiles.row) : option Profiles.row :=
  match e with
  | Updated_at t => Some (Profiles.set_updated_at (Some t) r)
  | Col _ Js.Undefined => Some r
  | Col Profiles.Pin Js.Null => None
  | Col Profiles.Pin v => Some (Profiles.set_pin (Js.template v) r)
  | Col c Js.Null => Some (Profiles.set_nullable c None r)
  | Col Profiles.Status v =>
      match Postgres.character_varying Profiles.status_width (Js.template v) with
      | Some text => Some (Profiles.set_nullable Profiles.Status (Some text) r)
      | None => None
      end
  | Col c v => Some (Profiles.set_nullable c (Some (Js.template v)) r)
  end.

Fixpoint patch (p : list entry) (r : Profiles.row) : option Profiles.row :=
  match p with
  | [] => Some r
  | e :: p' =>
      match write e r with
      | Some r' => patch p' r'
      | None => None
      end
  end.

(** The UPDATE statement: the new table and the rows it changed, or
    [None] when a row violates a constraint (nothing is written). *)
Fixpoint update_rows (f : Profiles.row -> bool) (p : list entry)
    (rows : list Profiles.row) : option (list Profiles.row * list Profiles.row) :=
  match rows with
  | [] => Some ([], [])
  | r :: rest =>
      match update_rows f p rest with
      | None => None
      | Some (table', changed) =>
          if f r then
            match patch p r with
            | Some r' => Some (r' :: table', r' :: changed)
            | None => None
            end
          else Some (r :: table', changed)
      end
  end.

(** [from('admins').select(...).eq('email', x).single()] *)
Definition admins_select_single (f : Admins.row -> bool) : App (option Admins.row) :=
  bind (record "admins" Select) (fun _ =>
  bind read_admins (fun rows =>
  ret (single (filter f rows)))).

(** [from('profiles').select(...).eq(...).single()] *)
Definition select_single (f : Profiles.row -> bool) : App (option Profiles.row) :=
  bind (record "profiles" Select) (fun _ =>
  bind read_profiles (fun rows =>
  ret (single (filter f rows)))).

(** [from('profiles').update(p).eq(...).select().single()]: the request
    asks for one object back, so it fails, and changes nothing, unless
    exactly one row was updated. *)
Definition update_single (f : Profiles.row -> bool) (p : list entry)
    : App (option Profiles.row) :=
  bind (record "profiles" Update) (fun _ =>
  bind read_profiles (fun rows =>
  match update_rows f p rows with
  | Some (table', [r']) => bind (write_profiles table') (fun _ => ret (Some r'))
  | _ => ret None
  end)).

(** [from('profiles').update(p)] with a filter: [true] when no error
    came back. *)
Definition update_many (f : Profiles.row -> bool) (p : list entry) : App bool :=
  bind (record "profiles" Update) (fun _ =>
  bind read_profiles (fun rows =>
  match update_rows f p rows with
  | Some (table', _) => bind (write_profiles table') (fun _ => ret true)
  | None => ret false
  end)).

(** [from('profiles').delete()] with a filter. *)
Definition delete_many (f : Profiles.row -> bool) : App bool :=
  bind (record "profiles" Delete) (fun _ =>
  bind read_profiles (fun rows =>
  bind (write_profiles (filter (fun r => negb (f r)) rows)) (fun _ => ret true))).

(** A statement whose filter PostgREST rejects: an error comes back and
    nothing is run. *)
Definition rejected (v : verb) : App bool :=
  bind (record "profiles" v) (fun _ => ret false).

(** [from('profiles').update(p).in('unique_code', values)] *)
Definition update_in {G : Postgrest.Grammar} (values : list Js.value) (p : list entry)
    : App bool :=
  match in_unique_code values with
  | Some listed => update_many listed p
  | None => rejected Update
  end.

(** [from('profiles').delete().in('unique_code', values)] *)
Definition delete_in {G : Postgrest.Grammar} (values : list Js.value) : App bool :=
  match in_unique_code values with
  | Some listed => delete_many listed
  | None => rejected Delete
  end.

End Supabase.

Notation "x <- m ;; k" := (Supabase.bind m (fun x => k))
  (at level 61, m at next level, right associativity).

(** ** jsonwebtoken, through its contract *)

Module Jwt.

(** The claim set of a session token. *)
Record claims : Type := {
  sub : string;
  email : string;
  role : string;
  iat : Z;
  exp : option Z
}.

(** The compact serialisation: [encode c key] is
    [header.payload.signature] signed with [key] (HS256); [decode t key]
    checks the three-part shape and the signature of [t] under [key] and
    returns the payload. *)
Class Library : Type := {
  encode : claims -> string -> string;
  decode : string -> string -> option claims
}.

(** [lacks c s]: the character [c] does not occur in [s]. *)
Fixpoint lacks (c : ascii) (s : string) : bool :=
  match s with
  | EmptyString => true
  | String a rest => negb (Ascii.eqb a c) && lacks c rest
  end.

(** What the handlers rely on: a token decodes to what was signed; it is
    [body.signature] over an alphabet without dot (in the signature) or
    space; and under one key a body has at most one accepted signature,
    since verification recomputes it and compares. *)
Record Lawful (L : Library) : Prop := {
  decode_encode : forall c key, decode (encode c key) key = Some c;
  encode_compact : forall c key, exists body signature,
      encode c key = body ++ "." ++ signature /\ lacks "." signature = true;
  encode_no_space : forall c key, lacks " " (encode c key) = true;
  one_signature : forall body s1 s2 key,
      lacks "." s1 = true -> lacks "." s2 = true -> s1 <> s2 ->
      decode (body ++ "." ++ s1) key <> None ->
      decode (body ++ "." ++ s2) key = None
}.

(** [Math.floor(Date.now() / 1000)] *)
Definition seconds (now : Z) : Z := (now / 1000)%Z.

(** [jwt.sign({sub, email, role}, secret, {expiresIn})], [expiresIn] in
    seconds, at time [now] (milliseconds). *)
Definition sign {L : Library} (sub' email' role' : string) (secret : string)
    (expiresIn : Z) (now : Z) : string :=
  encode {| sub := sub'; email := email'; role := role';
            iat := seconds now; exp := Some (seconds now + expiresIn)%Z |} secret.

(** [jwt.verify(token, secret)] at time [now]: [None] stands for any of
    the errors it throws (malformed, bad signature, expired). *)
Definition verify {L : Library} (token secret : string) (now : Z) : option claims :=
  match decode token secret with
  | None => None
  | Some c =>
      match exp c with
      | Some e => if (e <=? seconds now)%Z then None else Some c
      | None => Some c
      end
  end.

End Jwt.

(** ** Requests and responses *)

Module Http.

(** The [Profile] interface: the JSON shape of a profile. *)
Record Profile : Type := {
  id : string;
  pin : string;
  uniqueCode : string;
  profilePhoto : option string;
  fullName : option string;
  email : option string;
  status : option string;
  jobTitle : option string;
  companyName : option string;
  mobilePrimary : option string;
  landlineNumber : option string;
  address : option string;
  facebookLink : option string;
  instagramLink : option string;
  tiktokLink : option string;
  whatsappNumber : option string;
  websiteLink : option string;
  createdAt : option Z;
  updatedAt : option Z
}.

(** The bodies the handlers send. *)
Inductive json : Type :=
| Error (error : string)                        (* { error } *)
| DatabaseError                                 (* { error: error.message } *)
| Token (token : string)                        (* { token } *)
| ProfileJson (profile : Profile)
| Success (message : string)                    (* { success: true, message } *)
| Verified (message : string) (uniqueCode' : string)
| StatusJson (status' : option string)          (* { success: true, status } *)
| Bulk (message : string) (count : nat).        (* { success: true, message, count } *)

Record response : Type := { code : nat; body : json }.

Definition respond (c : nat) (b : json) : response := {| code := c; body := b |}.

(** A request: the [Authorization] header, the [:uniqueCode] path
    parameter (empty on routes without one) and the parsed body. *)
Record request (B : Type) : Type := {
  authorization : option string;
  uniqueCode_param : string;
  payload : B
}.

Arguments authorization {B} _.
Arguments uniqueCode_param {B} _.
Arguments payload {B} _.

(** [{ email, password }] *)
Record login_body : Type := { login_email : Js.value; login_password : Js.value }.

(** [{ id, pin }] *)
Record verify_body : Type := { verify_id : Js.value; verify_pin : Js.value }.

(** [{ newPin, currentPin }] *)
Record pin_body : Type := { newPin : Js.value; currentPin : Js.value }.

(** The body of an owner update. *)
Record update_body : Type := {
  u_profilePhoto : Js.value;
  u_fullName : Js.value;
  u_email : Js.value;
  u_status : Js.value;
  u_jobTitle : Js.value;
  u_companyName : Js.value;
  u_mobilePrimary : Js.value;
  u_landlineNumber : Js.value;
  u_address : Js.value;
  u_facebookLink : Js.value;
  u_instagramLink : Js.value;
  u_tiktokLink : Js.value;
  u_whatsappNumber : Js.value;
  u_websiteLink : Js.value;
  u_pin : Js.value
}.

(** [uniqueCodes]: an array of scalars, or something that is not an array. *)
Inductive codes : Type :=
| NotArray (v : Js.value)
| ArrayOf (items : list Js.value).

(** [{ action, uniqueCodes }] *)
Record bulk_body : Type := { action : Js.value; uniqueCodes : codes }.

End Http.

(** ** multer *)

Module Multer.

(** The file part of a multipart request, with the size of its content. *)
Record part : Type := {
  fieldname : string;
  originalname : string;
  mimetype : string;
  size : Z
}.

(** What reaches the error-handling middleware through [next(err)]. *)
Inductive error : Type :=
| MulterError (code : string)
| PlainError (message : string).

(** [req.file] as the disk storage leaves it. *)
Record file : Type := { filename : string; source : part }.

(** [limits.fileSize] *)
Definition fileSize : Z := (5 * 1024 * 1024)%Z.

(** [fileFilter]: accept only image files. *)
Definition fileFilter (p : part) : option error :=
  if String.prefix "image/" (mimetype p) then None
  else Some (PlainError "Only image files are allowed!").

End Multer.

(** ** The application *)

(** A middleware either calls [next()] or answers the request itself. *)
Inductive guard : Type :=
| Next (admin : Jwt.claims)
| Halt (r : Http.response).

(** The field mapping from a database row to the [Profile] shape. *)
Definition profile_of_row (data : Profiles.row) : Http.Profile :=
  {| Http.id := Profiles.admin_id data;
     Http.pin := Profiles.pin data;
     Http.uniqueCode := Profiles.unique_code data;
     Http.profilePhoto := Profiles.profile_photo_url data;
     Http.fullName := Profiles.full_name data;
     Http.email := Profiles.email data;
     Http.status := Profiles.status data;
     Http.jobTitle := Profiles.job_title data;
     Http.companyName := Profiles.company_name data;
     Http.mobilePrimary := Profiles.mobile_primary data;
     Http.landlineNumber := Profiles.landline_number data;
     Http.address := Profiles.address data;
     Http.facebookLink := Profiles.facebook_link data;
     Http.instagramLink := Profiles.instagram_link data;
     Http.tiktokLink := Profiles.tiktok_link data;
     Http.whatsappNumber := Profiles.whatsapp_number data;
     Http.websiteLink := Profiles.website_link data;
     Http.createdAt := Profiles.created_at data;
     Http.updatedAt := Profiles.updated_at data |}.

(** The error-handling middleware at the end of the chain. *)
Definition error_handler (error : Multer.error) : Http.response :=
  match error with
  | Multer.MulterError code =>
      if code =? "LIMIT_FILE_SIZE"
      then Http.respond 400 (Http.Error "File too large. Maximum size is 5MB.")
      else Http.respond 500 (Http.Error "Internal server error")
  | Multer.PlainError _ => Http.respond 500 (Http.Error "Internal server error")
  end.

(** The decimal text of an integer ([Date.now()], a rounded random draw). *)
Definition decimal (z : Z) : string := NilZero.string_of_int (Z.to_int z).

(** [expiresIn: '8h'], in seconds. *)
Definition eight_hours : Z := (8 * 60 * 60)%Z.

(** [data.status === 'banned'] *)
Definition banned (data : Profiles.row) : bool :=
  match Profiles.status data with
  | Some s => s =? "banned"
  | None => false
  end.

Section Server.

Context {L : Jwt.Library} {G : Postgrest.Grammar}.

(** [process.env.JWT_SECRET] *)
Variable env_JWT_SECRET : option string.

(** [bcrypt.compare(password, hash)] on two strings. *)
Variable bcrypt_compare : string -> string -> bool.

(** [path.extname] *)
Variable path_extname : string -> string.

(** Whether a file of exactly [limits.fileSize] bytes already counts as
    reaching the limit: the releases of multer differ on it (1.4.5-lts
    and 2.x refuse such a file, earlier ones let it through), and the
    sources pin none. *)
Variable limit_at_cap : bool.

Definition JWT_SECRET : string := Js.or_default env_JWT_SECRET "dev-secret-change-me".

Definition requireAdmin (authHeader : option string) (now : Z) : guard :=
  match authHeader with
  | None => Halt (Http.respond 401 (Http.Error "Missing or invalid Authorization header"))
  | Some h =>
      if (h =? "") || negb (String.prefix "Bearer " h)
      then Halt (Http.respond 401 (Http.Error "Missing or invalid Authorization header"))
      else
        match Js.index (Js.split " " h) 1 with
        | None => Halt (Http.respond 401 (Http.Error "Invalid token"))
        | Some token =>
            match Jwt.verify token JWT_SECRET now with
            | Some decoded => Next decoded
            | None => Halt (Http.respond 401 (Http.Error "Invalid token"))
            end
        end
  end.

(** A route behind [requireAdmin]. *)
Definition admin_only {B : Type} (handler : Http.request B -> Z -> Supabase.App Http.response)
    (req : Http.request B) (now : Z) : Supabase.App Http.response :=
  match requireAdmin (Http.authorization req) now with
  | Halt r => Supabase.ret r
  | Next _ => handler req now
  end.

(** [POST /api/admin/login] *)
Definition post_admin_login (req : Http.request Http.login_body) (now : Z)
    : Supabase.App Http.response :=
  let email := Http.login_email (Http.payload req) in
  let password := Http.login_password (Http.payload req) in
  if negb (Js.truthy email) || negb (Js.truthy password)
  then Supabase.ret (Http.respond 400 (Http.Error "Email and password are required"))
  else
    found <- Supabase.admins_select_single (Supabase.eq_email (Js.template email)) ;;
    match found with
    | None => Supabase.ret (Http.respond 401 (Http.Error "Invalid credentials"))
    | Some admin =>
        match password with
        | Js.Text pw =>
            if bcrypt_compare pw (Admins.password_hash admin)
            then
              let token :=
                Jwt.sign (Admins.id admin) (Admins.email admin)
                         (Js.or_default (Admins.role admin) "admin")
                         JWT_SECRET eight_hours now in
              Supabase.ret (Http.respond 200 (Http.Token token))
            else Supabase.ret (Http.respond 401 (Http.Error "Invalid credentials"))
        | _ =>
            (* bcrypt.compare throws on a non-string: the catch block *)
            Supabase.ret (Http.respond 500 (Http.Error "Server error"))
        end
    end.

(** [GET /api/profiles/:uniqueCode] *)
Definition get_profile (req : Http.request unit) (now : Z) : Supabase.App Http.response :=
  found <- Supabase.select_single (Supabase.eq_unique_code (Http.uniqueCode_param req)) ;;
  match found with
  | None => Supabase.ret (Http.respond 404 (Http.Error "Profile not found"))
  | Some data => Supabase.ret (Http.respond 200 (Http.ProfileJson (profile_of_row data)))
  end.

(** The object [dbUpdateData] of an owner update, with the optional
    five-digit PIN. *)
Definition dbUpdateData (updateData : Http.update_body) (now : Z) : list Supabase.entry :=
  [ Supabase.Col Profiles.Profile_photo_url (Http.u_profilePhoto updateData);
    Supabase.Col Profiles.Full_name (Http.u_fullName updateData);
    Supabase.Col Profiles.Email (Http.u_email updateData);
    Supabase.Col Profiles.Status (Http.u_status updateData);
    Supabase.Col Profiles.Job_title (Http.u_jobTitle updateData);
    Supabase.Col Profiles.Company_name (Http.u_companyName updateData);
    Supabase.Col Profiles.Mobile_primary (Http.u_mobilePrimary updateData);
    Supabase.Col Profiles.Landline_number (Http.u_landlineNumber updateData);
    Supabase.Col Profiles.Address (Http.u_address updateData);
    Supabase.Col Profiles.Facebook_link (Http.u_facebookLink updateData);
    Supabase.Col Profiles.Instagram_link (Http.u_instagramLink updateData);
    Supabase.Col Profiles.Tiktok_link (Http.u_tiktokLink updateData);
    Supabase.Col Profiles.Whatsapp_number (Http.u_whatsappNumber updateData);
    Supabase.Col Profiles.Website_link (Http.u_websiteLink updateData);
    Supabase.Updated_at now ]
  ++ (if Js.is_five_digit_string (Http.u_pin updateData)
      then [ Supabase.Col Profiles.Pin (Http.u_pin updateData) ]
      else [])%list.

(** [PUT /api/profiles/:uniqueCode] *)
Definition put_profile (req : Http.request Http.update_body) (now : Z)
    : Supabase.App Http.response :=
  updated <- Supabase.update_single
               (Supabase.eq_unique_code (Http.uniqueCode_param req))
               (dbUpdateData (Http.payload req) now) ;;
  match updated with
  | None => Supabase.ret (Http.respond 400 Http.DatabaseError)
  | Some data => Supabase.ret (Http.respond 200 (Http.ProfileJson (profile_of_row data)))
  end.

(** The [filename] callback of the disk storage; [named] is its own
    [Date.now()], read while the file arrives, and [rand] is
    [Math.round(Math.random() * 1E9)]. *)
Definition storage_filename (p : Multer.part) (named rand : Z) : string :=
  Multer.fieldname p ++ "-" ++ (decimal named ++ "-" ++ decimal rand)
    ++ path_extname (Multer.originalname p).

(** The content does not fit in [limits.fileSize]. *)
Definition over_limit (size : Z) : bool :=
  (Multer.fileSize <? size)%Z || (limit_at_cap && (size =? Multer.fileSize)%Z).

(** [upload.single(field)]: the field must be the expected one, the
    file filter must accept the part, and its content must fit in
    [limits.fileSize]. *)
Definition upload_single (field : string) (incoming : option Multer.part)
    (named rand : Z) : Multer.error + option Multer.file :=
  match incoming with
  | None => inr None
  | Some p =>
      if negb (Multer.fieldname p =? field)
      then inl (Multer.MulterError "LIMIT_UNEXPECTED_FILE")
      else
        match Multer.fileFilter p with
        | Some e => inl e
        | None =>
            if over_limit (Multer.size p)
            then inl (Multer.MulterError "LIMIT_FILE_SIZE")
            else inr (Some {| Multer.filename := storage_filename p named rand;
                              Multer.source := p |})
        end
  end.

(** The handler of [POST /api/profiles/:uniqueCode/upload], once multer
    has set [req.file]; [now] is the handler's own [new Date()]. *)
Definition upload_photo (uniqueCode : string) (file : option Multer.file) (now : Z)
    : Supabase.App Http.response :=
  match file with
  | None => Supabase.ret (Http.respond 400 (Http.Error "No file uploaded"))
  | Some f =>
      let fileUrl := "/uploads/" ++ Multer.filename f in
      updated <- Supabase.update_single (Supabase.eq_unique_code uniqueCode)
                   [ Supabase.Col Profiles.Profile_photo_url (Js.Text fileUrl);
                     Supabase.Updated_at now ] ;;
      match updated with
      | None => Supabase.ret (Http.respond 400 Http.DatabaseError)
      | Some data => Supabase.ret (Http.respond 200 (Http.ProfileJson (profile_of_row data)))
      end
  end.

(** [POST /api/profiles/:uniqueCode/upload]: multer, then the handler,
    with the error-handling middleware behind them. *)
Definition post_upload (req : Http.request (option Multer.part)) (named rand now : Z)
    : Supabase.App Http.response :=
  match upload_single "photo" (Http.payload req) named rand with
  | inl error => Supabase.ret (error_handler error)
  | inr file => upload_photo (Http.uniqueCode_param req) file now
  end.

(** [POST /api/profiles/:uniqueCode/verify] (scoped by the public code) *)
Definition post_verify_scoped (req : Http.request Http.verify_body) (now : Z)
    : Supabase.App Http.response :=
  let id := Http.verify_id (Http.payload req) in
  let pin := Http.verify_pin (Http.payload req) in
  found <- Supabase.select_single
             (Supabase.both (Supabase.eq_unique_code (Http.uniqueCode_param req))
               (Supabase.both (Supabase.eq_admin_id (Js.template id))
                              (Supabase.eq_pin (Js.template pin)))) ;;
  match found with
  | None => Supabase.ret (Http.respond 401 (Http.Error "Invalid credentials"))
  | Some _ => Supabase.ret (Http.respond 200 (Http.Success "Credentials verified"))
  end.

(** [POST /api/profiles/verify] (by id only) *)
Definition post_verify (req : Http.request Http.verify_body) (now : Z)
    : Supabase.App Http.response :=
  let id := Http.verify_id (Http.payload req) in
  let pin := Http.verify_pin (Http.payload req) in
  if negb (Js.truthy id) || negb (Js.truthy pin)
  then Supabase.ret (Http.respond 400 (Http.Error "id and pin are required"))
  else
    found <- Supabase.select_single (Supabase.eq_admin_id (Js.template id)) ;;
    match found with
    | None => Supabase.ret (Http.respond 404 (Http.Error "Profile not found"))
    | Some data =>
        if banned data
        then Supabase.ret (Http.respond 403 (Http.Error "Account is banned"))
        else if negb (Js.strict_eq (Js.Text (Profiles.pin data)) pin)
        then Supabase.ret (Http.respond 401 (Http.Error "Invalid credentials"))
        else Supabase.ret (Http.respond 200
               (Http.Verified "Credentials verified" (Profiles.unique_code data)))
    end.

(** [PUT /api/profiles/:uniqueCode/pin] *)
Definition put_pin (req : Http.request Http.pin_body) (now : Z)
    : Supabase.App Http.response :=
  let uniqueCode := Http.uniqueCode_param req in
  let newPin := Http.newPin (Http.payload req) in
  let currentPin := Http.currentPin (Http.payload req) in
  profile <- Supabase.select_single (Supabase.eq_unique_code uniqueCode) ;;
  match profile with
  | None => Supabase.ret (Http.respond 404 (Http.Error "Profile not found"))
  | Some profile =>
      if negb (Js.strict_eq (Js.Text (Profiles.pin profile)) currentPin)
      then Supabase.ret (Http.respond 401 (Http.Error "Current PIN is incorrect"))
      else
        updated <- Supabase.update_single (Supabase.eq_unique_code uniqueCode)
                     [ Supabase.Col Profiles.Pin newPin; Supabase.Updated_at now ] ;;
        match updated with
        | None => Supabase.ret (Http.respond 400 Http.DatabaseError)
        | Some _ => Supabase.ret (Http.respond 200 (Http.Success "PIN updated successfully"))
        end
  end.

(** The handler shared by the ban and unban routes. *)
Definition set_status (status : string) (req : Http.request unit) (now : Z)
    : Supabase.App Http.response :=
  updated <- Supabase.update_single (Supabase.eq_unique_code (Http.uniqueCode_param req))
               [ Supabase.Col Profiles.Status (Js.Text status); Supabase.Updated_at now ] ;;
  match updated with
  | None => Supabase.ret (Http.respond 400 Http.DatabaseError)
  | Some data => Supabase.ret (Http.respond 200 (Http.StatusJson (Profiles.status data)))
  end.

(** [POST /api/admin/profiles/:uniqueCode/ban] *)
Definition post_ban : Http.request unit -> Z -> Supabase.App Http.response :=
  admin_only (set_status "banned").

(** [POST /api/admin/profiles/:uniqueCode/unban] *)
Definition post_unban : Http.request unit -> Z -> Supabase.App Http.response :=
  admin_only (set_status "active").

(** The handler of [POST /api/admin/profiles/bulk]. *)
Definition bulk_operation (req : Http.request Http.bulk_body) (now : Z)
    : Supabase.App Http.response :=
  let action := Http.action (Http.payload req) in
  match Http.uniqueCodes (Http.payload req) with
  | Http.NotArray _ =>
      Supabase.ret (Http.respond 400 (Http.Error "Invalid bulk operation parameters"))
  | Http.ArrayOf uniqueCodes =>
      if negb (Js.truthy action) || (length uniqueCodes =? 0)%nat
      then Supabase.ret (Http.respond 400 (Http.Error "Invalid bulk operation parameters"))
      else
        let batch (status operation : string) : Supabase.App Http.response :=
          ok <- Supabase.update_in uniqueCodes
                  [ Supabase.Col Profiles.Status (Js.Text status); Supabase.Updated_at now ] ;;
          if ok
          then Supabase.ret (Http.respond 200 (Http.Bulk
                 (Js.of_nat (length uniqueCodes) ++ " profiles " ++ operation ++ " successfully")
                 (length uniqueCodes)))
          else Supabase.ret (Http.respond 400 Http.DatabaseError) in
        if Js.strict_eq action (Js.Text "ban") then batch "banned" "banned"
        else if Js.strict_eq action (Js.Text "unban") then batch "active" "unbanned"
        else if Js.strict_eq action (Js.Text "delete") then
          ok <- Supabase.delete_in uniqueCodes ;;
          if ok
          then Supabase.ret (Http.respond 200 (Http.Bulk
                 (Js.of_nat (length uniqueCodes) ++ " profiles deleted successfully")
                 (length uniqueCodes)))
          else Supabase.ret (Http.respond 400 Http.DatabaseError)
        else Supabase.ret (Http.respond 400 (Http.Error "Invalid action"))
  end.

(** [POST /api/admin/profiles/bulk] *)
Definition post_bulk : Http.request Http.bulk_body -> Z -> Supabase.App Http.response :=
  admin_only bulk_operation.

End Server.

(** ** Schema invariants and reading the result of a handler *)

(** The UNIQUE constraints of the schema. *)
Definition keys_unique (s : Supabase.store) : Prop :=
  NoDup (map Profiles.unique_code (Supabase.profiles s))
  /\ NoDup (map Profiles.admin_id (Supabase.profiles s))
  /\ NoDup (map Admins.email (Supabase.admins s)).

(** The timestamp [a] lies strictly before [b]. *)
Definition earlier (a b : option Z) : Prop :=
  match a, b with
  | Some x, Some y => (x < y)%Z
  | _, _ => False
  end.

(** ** The remaining routes: creation, deletion, dashboard counts *)

(** [s.charAt(i)]: the character at [i], or the empty string. *)
Definition charAt (s : string) (i : Z) : string :=
  if (i <? 0)%Z then EmptyString
  else match String.get (Z.to_nat i) s with
       | Some c => String c EmptyString
       | None => EmptyString
       end.

(** [s.padStart(n, '0')] *)
Fixpoint zeros (n : nat) : string :=
  match n with
  | O => EmptyString
  | S k => String "0" (zeros k)
  end.

Definition padStart (n : nat) (s : string) : string :=
  zeros (n - String.length s) ++ s.

(** [a || b] on a body field with a string fallback. *)
Definition or_else (v : Js.value) (fallback : string) : Js.value :=
  if Js.truthy v then v else Js.Text fallback.

(** What a request draws from [Math.random()] and reads from the clock:
    [code_draw i] is [Math.floor(Math.random() * chars.length)] at the
    [i]-th turn of the code loop, [id_draw] is
    [Math.floor(Math.random() * 10000)], [pin_draw] is
    [Math.floor(10000 + Math.random() * 90000)], and the three date
    fields are [getFullYear()], [getMonth()] and [getDate()]. *)
Record chance : Type := {
  code_draw : nat -> Z;
  id_draw : Z;
  pin_draw : Z;
  fullYear : Z;
  month : Z;
  date : Z
}.

Definition chars : string := "abcdefghijklmnopqrstuvwxyz0123456789".

(** The [for] loop of [generateUniqueCode], [steps] turns from turn [i]. *)
Fixpoint code_loop (steps i : nat) (draw : nat -> Z) (result : string) : string :=
  match steps with
  | O => result
  | S k => code_loop k (S i) draw (result ++ charAt chars (draw i))
  end.

Definition generateUniqueCode (c : chance) : string :=
  code_loop 16 0 (code_draw c) EmptyString.

Definition generateIdCard (c : chance) : string :=
  let year := decimal (fullYear c) in
  let month := padStart 2 (decimal (month c + 1)) in
  let day := padStart 2 (decimal (date c)) in
  let random := padStart 4 (decimal (id_draw c)) in
  year ++ month ++ day ++ "-0000-" ++ random.

Definition generatePin (c : chance) : string := decimal (pin_draw c).

(** The body of [POST /api/profiles]. *)
Record create_body : Type := {
  c_uniqueCode : Js.value;
  c_id : Js.value;
  c_pin : Js.value;
  c_profilePhoto : Js.value;
  c_fullName : Js.value;
  c_email : Js.value;
  c_jobTitle : Js.value;
  c_companyName : Js.value;
  c_mobilePrimary : Js.value;
  c_landlineNumber : Js.value;
  c_address : Js.value;
  c_facebookLink : Js.value;
  c_instagramLink : Js.value;
  c_tiktokLink : Js.value;
  c_whatsappNumber : Js.value;
  c_websiteLink : Js.value
}.

(** The answers of the routes below that the earlier ones do not give. *)
Inductive reply : Type :=
| Plain (r : Http.response)
| Created (profile : Http.Profile) (profileLink : string)      (* 201 *)
| Statistics (totalProfiles activeProfiles bannedProfiles
              todayProfiles weekProfiles : nat).                (* 200 *)

Definition reply_code (r : reply) : nat :=
  match r with
  | Plain r => Http.code r
  | Created _ _ => 201
  | Statistics _ _ _ _ _ => 200
  end.

(** The store with the INSERT statements sent so far, by table. *)
Module Inserting.

Record store : Type := {
  tables : Supabase.store;
  inserts : list string
}.

Definition App (A : Type) : Type := store -> A * store.

(** [from('profiles').insert([row]).select().single()]: the row is
    refused when its primary key, its [admin_id] or its [unique_code]
    is already taken; otherwise it joins the table and comes back. *)
Definition insert_single (row : Profiles.row) : App (option Profiles.row) :=
  fun w =>
    let rows := Supabase.profiles (tables w) in
    let sent := (inserts w ++ ["profiles"])%list in
    if existsb (fun r => Profiles.uuid r =? Profiles.uuid row) rows
       || existsb (Supabase.eq_admin_id (Profiles.admin_id row)) rows
       || existsb (Supabase.eq_unique_code (Profiles.unique_code row)) rows
    then (None, {| tables := tables w; inserts := sent |})
    else (Some row,
          {| tables := Supabase.with_profiles (rows ++ [row])%list (tables w);
             inserts := sent |}).

End Inserting.

(** [.eq('status', x)] and [.gte('created_at', t)]; a NULL column
    satisfies neither. *)
Definition eq_status (x : string) (r : Profiles.row) : bool :=
  match Profiles.status r with
  | Some s => s =? x
  | None => false
  end.

Definition gte_created_at (t : Z) (r : Profiles.row) : bool :=
  match Profiles.created_at r with
  | Some c => (t <=? c)%Z
  | None => false
  end.

(** [select('*', { count: 'exact', head: true })] with a filter. *)
Definition count_where (f : Profiles.row -> bool) : Supabase.App nat :=
  Supabase.bind (Supabase.record "profiles" Supabase.Select) (fun _ =>
  Supabase.bind Supabase.read_profiles (fun rows =>
  Supabase.ret (length (filter f rows)))).

(** One day, in milliseconds. *)
Definition day_ms : Z := (24 * 60 * 60 * 1000)%Z.

(** [`${new Date().toISOString().split('T')[0]}T00:00:00`]: the start of
    the UTC day of [now]. *)
Definition start_of_day (now : Z) : Z := (now - now mod day_ms)%Z.

(** [weekAgo.setDate(weekAgo.getDate() - 7)]: seven days back on the
    server's local calendar; [shift] is the change of that zone's offset
    between the two dates (zero without a clock change). *)
Definition week_ago (now shift : Z) : Z := (now - 7 * day_ms + shift)%Z.

Section Backoffice.

Context {L : Jwt.Library}.

Variable env_JWT_SECRET : option string.

(** The row the database stores for [dbProfile]: the sixteen keys cast
    to text, and the defaults of the schema for the rest ([uuid] is the
    generated primary key, [stamp] the database's [now()]). *)
Definition inserted_row (profileData : create_body) (c : chance)
    (uuid : string) (stamp : Z) : Profiles.row :=
  let uniqueCode := or_else (c_uniqueCode profileData) (generateUniqueCode c) in
  let idCard := or_else (c_id profileData) (generateIdCard c) in
  let pin := or_else (c_pin profileData) (generatePin c) in
  let profilePhoto := or_else (c_profilePhoto profileData) "/uploads/kontacksharelogo.png" in
  let text (v : Js.value) (fallback : string) := Some (Js.template (or_else v fallback)) in
  {| Profiles.uuid := uuid;
     Profiles.admin_id := Js.template idCard;
     Profiles.pin := Js.template pin;
     Profiles.unique_code := Js.template uniqueCode;
     Profiles.profile_photo_url := Some (Js.template profilePhoto);
     Profiles.full_name := text (c_fullName profileData) "Default Name";
     Profiles.email := text (c_email profileData) "default@example.com";
     Profiles.status := Some "active";
     Profiles.job_title := text (c_jobTitle profileData) "Default Job Title";
     Profiles.company_name := text (c_companyName profileData) "Default Company";
     Profiles.mobile_primary := text (c_mobilePrimary profileData) "000-000-0000";
     Profiles.landline_number := text (c_landlineNumber profileData) "000-000-0000";
     Profiles.address := text (c_address profileData) "Default Address";
     Profiles.facebook_link := text (c_facebookLink profileData) "Update your Facebook Link";
     Profiles.instagram_link := text (c_instagramLink profileData) "Update your Instagram Link";
     Profiles.tiktok_link := text (c_tiktokLink profileData) "Update your TikTok Link";
     Profiles.whatsapp_number := text (c_whatsappNumber profileData) "Update your WhatsApp Number";
     Profiles.website_link := text (c_websiteLink profileData) "Update your web link";
     Profiles.created_at := Some stamp;
     Profiles.updated_at := Some stamp |}.

(** The handler of [POST /api/profiles]. *)
Definition create_profile (req : Http.request create_body) (c : chance)
    (uuid : string) (stamp : Z) : Inserting.App reply :=
  fun w =>
    let profileData := Http.payload req in
    let uniqueCode := or_else (c_uniqueCode profileData) (generateUniqueCode c) in
    let (inserted, w') := Inserting.insert_single (inserted_row profileData c uuid stamp) w in
    match inserted with
    | None => (Plain (Http.respond 400 Http.DatabaseError), w')
    | Some data =>
        let profileLink := "http://localhost:5173/myprofile/" ++ Js.template uniqueCode in
        (Created (profile_of_row data) profileLink, w')
    end.

(** [POST /api/profiles] *)
Definition post_profiles (req : Http.request create_body) (now : Z) (c : chance)
    (uuid : string) (stamp : Z) : Inserting.App reply :=
  match requireAdmin env_JWT_SECRET (Http.authorization req) now with
  | Halt r => fun w => (Plain r, w)
  | Next _ => create_profile req c uuid stamp
  end.

(** The handler of [DELETE /api/profiles/:uniqueCode]. *)
Definition delete_profile (req : Http.request unit) (now : Z)
    : Supabase.App Http.response :=
  ok <- Supabase.delete_many (Supabase.eq_unique_code (Http.uniqueCode_param req)) ;;
  if ok
  then Supabase.ret (Http.respond 200 (Http.Success "Profile deleted successfully"))
  else Supabase.ret (Http.respond 400 Http.DatabaseError).

(** [DELETE /api/profiles/:uniqueCode] *)
Definition delete_profile_route : Http.request unit -> Z -> Supabase.App Http.response :=
  admin_only env_JWT_SECRET delete_profile.

(** The handler of [GET /api/admin/stats]. *)
Definition dashboard_stats (req : Http.request unit) (now shift : Z)
    : Supabase.App reply :=
  totalProfiles <- count_where (fun _ => true) ;;
  activeProfiles <- count_where (eq_status "active") ;;
  bannedProfiles <- count_where (eq_status "banned") ;;
  todayProfiles <- count_where (gte_created_at (start_of_day now)) ;;
  weekProfiles <- count_where (gte_created_at (week_ago now shift)) ;;
  Supabase.ret (Statistics totalProfiles activeProfiles bannedProfiles
                           todayProfiles weekProfiles).

(** [GET /api/admin/stats] *)
Definition get_stats (req : Http.request unit) (now shift : Z) : Supabase.App reply :=
  match requireAdmin env_JWT_SECRET (Http.authorization req) now with
  | Halt r => Supabase.ret (Plain r)
  | Next _ => dashboard_stats req now shift
  end.

End Backoffice.

(** A [POST /api/profiles] request. *)
Definition create_request (authorization : option string) (b : create_body)
    : Http.request create_body :=
  {| Http.authorization := authorization;
     Http.uniqueCode_param := "";
     Http.payload := b |}.

(** A body with no field at all. *)
Definition empty_body : create_body :=
  {| c_uniqueCode := Js.Undefined; c_id := Js.Undefined; c_pin := Js.Undefined;
     c_profilePhoto := Js.Undefined; c_fullName := Js.Undefined;
     c_email := Js.Undefined; c_jobTitle := Js.Undefined;
     c_companyName := Js.Undefined; c_mobilePrimary := Js.Undefined;
     c_landlineNumber := Js.Undefined; c_address := Js.Undefined;
     c_facebookLink := Js.Undefined; c_instagramLink := Js.Undefined;
     c_tiktokLink := Js.Undefined; c_whatsappNumber := Js.Undefined;
     c_websiteLink := Js.Undefined |}.

(** A lower-case letter or a digit. *)
Definition url_safe (c : ascii) : bool :=
  let n := nat_of_ascii c in
  ((97 <=? n)%nat && (n <=? 122)%nat) || Js.is_digit c.

(** ** Reference implementations of the external libraries

    Small executable stand-ins, used to run the model on concrete
    requests: a self-delimiting token codec with a keyed tag, a password
    check, an extension function and a reader of [in] lists. *)

Module Reference.

Definition bit (b : bool) : ascii := if b then "1"%char else "0"%char.

Definition unbit (a : ascii) : bool := Ascii.eqb a "1"%char.

(** A string, character by character: ["c"] and eight bits for each,
    then ["e"]. *)
Fixpoint enc_string (s : string) : string :=
  match s with
  | EmptyString => "e"
  | String (Ascii b0 b1 b2 b3 b4 b5 b6 b7) rest =>
      String "c" (String (bit b0) (String (bit b1) (String (bit b2) (String (bit b3)
        (String (bit b4) (String (bit b5) (String (bit b6) (String (bit b7)
          (enc_string rest)))))))))
  end.

Fixpoint dec_string (t : string) : option (string * string) :=
  match t with
  | String "e" rest => Some (EmptyString, rest)
  | String "c" (String a0 (String a1 (String a2 (String a3
      (String a4 (String a5 (String a6 (String a7 rest)))))))) =>
      match dec_string rest with
      | Some (s, rest') =>
          Some (String (Ascii (unbit a0) (unbit a1) (unbit a2) (unbit a3)
                              (unbit a4) (unbit a5) (unbit a6) (unbit a7)) s, rest')
      | None => None
      end
  | _ => None
  end.

Fixpoint enc_positive (p : positive) : string :=
  match p with
  | xH => "e"
  | xO q => String "0" (enc_positive q)
  | xI q => String "1" (enc_positive q)
  end.

Fixpoint dec_positive (t : string) : option (positive * string) :=
  match t with
  | String "e" rest => Some (xH, rest)
  | String "0" rest =>
      match dec_positive rest with
      | Some (q, rest') => Some (xO q, rest')
      | None => None
      end
  | String "1" rest =>
      match dec_positive rest with
      | Some (q, rest') => Some (xI q, rest')
      | None => None
      end
  | _ => None
  end.

Definition enc_Z (z : Z) : string :=
  match z with
  | Z0 => "z"
  | Zpos p => String "p" (enc_positive p)
  | Zneg p => String "n" (enc_positive p)
  end.

Definition dec_Z (t : string) : option (Z * string) :=
  match t with
  | String "z" rest => Some (Z0, rest)
  | String "p" rest =>
      match dec_positive rest with
      | Some (p, rest') => Some (Zpos p, rest')
      | None => None
      end
  | String "n" rest =>
      match dec_positive rest with
      | Some (p, rest') => Some (Zneg p, rest')
      | None => None
      end
  | _ => None
  end.

Definition enc_exp (e : option Z) : string :=
  match e with
  | None => "N"
  | Some z => String "S" (enc_Z z)
  end.

Definition dec_exp (t : string) : option (option Z * string) :=
  match t with
  | String "N" rest => Some (None, rest)
  | String "S" rest =>
      match dec_Z rest with
      | Some (z, rest') => Some (Some z, rest')
      | None => None
      end
  | _ => None
  end.

(** The token body: the five claims one after the other. *)
Definition enc_claims (c : Jwt.claims) : string :=
  enc_string (Jwt.sub c) ++ enc_string (Jwt.email c) ++ enc_string (Jwt.role c)
    ++ enc_Z (Jwt.iat c) ++ enc_exp (Jwt.exp c).

Definition dec_claims (t : string) : option (Jwt.claims * string) :=
  match dec_string t with
  | None => None
  | Some (sub, t1) =>
  match dec_string t1 with
  | None => None
  | Some (email, t2) =>
  match dec_string t2 with
  | None => None
  | Some (role, t3) =>
  match dec_Z t3 with
  | None => None
  | Some (iat, t4) =>
  match dec_exp t4 with
  | None => None
  | Some (exp, rest) =>
      Some ({| Jwt.sub := sub; Jwt.email := email; Jwt.role := role;
               Jwt.iat := iat; Jwt.exp := exp |}, rest)
  end end end end end.

(** The tag of a body under a key. *)
Definition tag (key : string) (c : Jwt.claims) : string :=
  enc_string (key ++ enc_claims c).

Definition encode (c : Jwt.claims) (key : string) : string :=
  enc_claims c ++ "." ++ tag key c.

(** Verification reads the claims, signs them again and compares. *)
Definition decode (t key : string) : option Jwt.claims :=
  match dec_claims t with
  | Some (c, _) => if t =? encode c key then Some c else None
  | None => None
  end.

Definition tokens : Jwt.Library := {| Jwt.encode := encode; Jwt.decode := decode |}.

(** A password check: the stored hash is the password behind a marker. *)
Definition compare (password hash : string) : bool := hash =? "$ref$" ++ password.

(** An extension function: everything from the last dot on. *)
Fixpoint extname (name : string) : string :=
  match name with
  | EmptyString => EmptyString
  | String c rest =>
      match extname rest with
      | EmptyString => if Ascii.eqb c "."%char then name else EmptyString
      | ext => ext
      end
  end.

(** A list reader in the manner of PostgREST: items separated by
    commas up to the closing parenthesis; an item that opens with a
    double quote runs to the next one.  It knows neither escapes nor
    what is done with blanks around an item, and refuses the lists
    that would need them. *)
Inductive mode : Type := Start | Word | Inside | Closed.

Definition push (c : ascii) (read : option (list string)) : option (list string) :=
  match read with
  | Some (x :: xs) => Some (String c x :: xs)
  | _ => None
  end.

Definition next (read : option (list string)) : option (list string) :=
  match read with
  | Some xs => Some (EmptyString :: xs)
  | None => None
  end.


Fixpoint scan (m : mode) (s : string) : option (list string) :=
  match s with
  | EmptyString => None
  | String c rest =>
      let closing (otherwise : option (list string)) :=
        if Ascii.eqb c "," then next (scan Start rest)
        else if Ascii.eqb c ")"
             then (if rest =? "" then Some [EmptyString] else None)
             else otherwise in
      match m with
      | Start =>
          if Ascii.eqb c Postgrest.dquote then scan Inside rest
          else if Ascii.eqb c " " || Ascii.eqb c "009" then None
          else closing (push c (scan Word rest))
      | Word => closing (push c (scan Word rest))
      | Inside =>
          if Ascii.eqb c Postgrest.dquote then scan Closed rest
          else if Ascii.eqb c "092" then None
          else push c (scan Inside rest)
      | Closed => closing None
      end
  end.

Definition read_list (s : string) : option (list string) :=
  match s with
  | String "(" rest => scan Start rest
  | _ => None
  end.

Definition grammar : Postgrest.Grammar := {| Postgrest.items := read_list |}.

End Reference.

(** ** Reading an UPDATE *)

(** The row a patch leaves behind (the row itself when the patch is refused). *)
Definition patched (p : list Supabase.entry) (r : Profiles.row) : Profiles.row :=
  match Supabase.patch p r with
  | Some r' => r'
  | None => r
  end.

(** The table after every row selected by [f] has been patched. *)
Definition rewrite_rows (f : Profiles.row -> bool) (p : list Supabase.entry)
    (rows : list Profiles.row) : list Profiles.row :=
  map (fun x => if f x then patched p x else x) rows.

(** The two keys of the object a ban or unban sends. *)
Definition status_patch (status : string) (now : Z) : list Supabase.entry :=
  [ Supabase.Col Profiles.Status (Js.Text status); Supabase.Updated_at now ].

(** The two keys of the object a PIN change sends. *)
Definition pin_patch (newPin : Js.value) (now : Z) : list Supabase.entry :=
  [ Supabase.Col Profiles.Pin newPin; Supabase.Updated_at now ].

(** The value a nullable column takes when the key carries [v]. *)
Definition assign (v : Js.value) (old : option string) : option string :=
  match v with
  | Js.Undefined => old
  | Js.Null => None
  | _ => Some (Js.template v)
  end.

(** A text the [status] column holds as it is. *)
Definition fits (text : string) : bool :=
  (Postgres.char_length text <=? Profiles.status_width)%nat.

(** A body field that the [status] column refuses: a text too long for
    it, other than by spaces. *)
Definition refused (v : Js.value) : bool :=
  match v with
  | Js.Undefined | Js.Null => false
  | _ =>
      match Postgres.character_varying Profiles.status_width (Js.template v) with
      | Some _ => false
      | None => true
      end
  end.

(** The value [status] takes when the key carries [v]. *)
Definition assign_status (v : Js.value) (old : option string) : option string :=
  match v with
  | Js.Undefined => old
  | Js.Null => None
  | _ =>
      match Postgres.character_varying Profiles.status_width (Js.template v) with
      | Some text => Some text
      | None => old
      end
  end.

(** Reading a column as nullable text. *)
Definition get (c : Profiles.column) (r : Profiles.row) : option string :=
  match c with
  | Profiles.Pin => Some (Profiles.pin r)
  | Profiles.Profile_photo_url => Profiles.profile_photo_url r
  | Profiles.Full_name => Profiles.full_name r
  | Profiles.Email => Profiles.email r
  | Profiles.Status => Profiles.status r
  | Profiles.Job_title => Profiles.job_title r
  | Profiles.Company_name => Profiles.company_name r
  | Profiles.Mobile_primary => Profiles.mobile_primary r
  | Profiles.Landline_number => Profiles.landline_number r
  | Profiles.Address => Profiles.address r
  | Profiles.Facebook_link => Profiles.facebook_link r
  | Profiles.Instagram_link => Profiles.instagram_link r
  | Profiles.Tiktok_link => Profiles.tiktok_link r
  | Profiles.Whatsapp_number => Profiles.whatsapp_number r
  | Profiles.Website_link => Profiles.website_link r
  end.

(** The row an owner update leaves behind, when the database takes it. *)
Definition owner_update_row (b : Http.update_body) (now : Z) (r : Profiles.row)
    : Profiles.row :=
  {| Profiles.uuid := Profiles.uuid r;
     Profiles.admin_id := Profiles.admin_id r;
     Profiles.pin :=
       if Js.is_five_digit_string (Http.u_pin b)
       then Js.template (Http.u_pin b) else Profiles.pin r;
     Profiles.unique_code := Profiles.unique_code r;
     Profiles.profile_photo_url := assign (Http.u_profilePhoto b) (Profiles.profile_photo_url r);
     Profiles.full_name := assign (Http.u_fullName b) (Profiles.full_name r);
     Profiles.email := assign (Http.u_email b) (Profiles.email r);
     Profiles.status := assign_status (Http.u_status b) (Profiles.status r);
     Profiles.job_title := assign (Http.u_jobTitle b) (Profiles.job_title r);
     Profiles.company_name := assign (Http.u_companyName b) (Profiles.company_name r);
     Profiles.mobile_primary := assign (Http.u_mobilePrimary b) (Profiles.mobile_primary r);
     Profiles.landline_number := assign (Http.u_landlineNumber b) (Profiles.landline_number r);
     Profiles.address := assign (Http.u_address b) (Profiles.address r);
     Profiles.facebook_link := assign (Http.u_facebookLink b) (Profiles.facebook_link r);
     Profiles.instagram_link := assign (Http.u_instagramLink b) (Profiles.instagram_link r);
     Profiles.tiktok_link := assign (Http.u_tiktokLink b) (Profiles.tiktok_link r);
     Profiles.whatsapp_number := assign (Http.u_whatsappNumber b) (Profiles.whatsapp_number r);
     Profiles.website_link := assign (Http.u_websiteLink b) (Profiles.website_link r);
     Profiles.created_at := Profiles.created_at r;
     Profiles.updated_at := Some now |}.

(** The row with a new pin, stamped. *)
Definition repin (pin : string) (now : Z) (r : Profiles.row) : Profiles.row :=
  Profiles.set_updated_at (Some now) (Profiles.set_pin pin r).

(** The row with only its stamp renewed. *)
Definition touch (now : Z) (r : Profiles.row) : Profiles.row :=
  Profiles.set_updated_at (Some now) r.

(** The row with a new status, stamped. *)
Definition mark (status : string) (now : Z) (r : Profiles.row) : Profiles.row :=
  Profiles.set_updated_at (Some now)
    (Profiles.set_nullable Profiles.Status (Some status) r).

(** ** Requests *)

(** A [POST /api/profiles/verify] request. *)
Definition verify_request (authorization : option string) (uniqueCode : string)
    (id pin : Js.value) : Http.request Http.verify_body :=
  {| Http.authorization := authorization;
     Http.uniqueCode_param := uniqueCode;
     Http.payload := {| Http.verify_id := id; Http.verify_pin := pin |} |}.

(** A request without a body. *)
Definition plain_request (authorization : option string) (uniqueCode : string)
    : Http.request unit :=
  {| Http.authorization := authorization;
     Http.uniqueCode_param := uniqueCode;
     Http.payload := tt |}.

(** A [PUT /api/profiles/:uniqueCode/pin] request. *)
Definition pin_request (authorization : option string) (uniqueCode : string)
    (newPin currentPin : Js.value) : Http.request Http.pin_body :=
  {| Http.authorization := authorization;
     Http.uniqueCode_param := uniqueCode;
     Http.payload := {| Http.newPin := newPin; Http.currentPin := currentPin |} |}.

(** A [PUT /api/profiles/:uniqueCode] request. *)
Definition update_request (authorization : option string) (uniqueCode : string)
    (b : Http.update_body) : Http.request Http.update_body :=
  {| Http.authorization := authorization;
     Http.uniqueCode_param := uniqueCode;
     Http.payload := b |}.

(** A [POST /api/admin/login] request. *)
Definition login_request (authorization : option string) (email password : Js.value)
    : Http.request Http.login_body :=
  {| Http.authorization := authorization;
     Http.uniqueCode_param := "";
     Http.payload := {| Http.login_email := email; Http.login_password := password |} |}.

(** A [POST /api/admin/profiles/bulk] request. *)
Definition bulk_request (authorization : option string) (action : Js.value)
    (uniqueCodes : Http.codes) : Http.request Http.bulk_body :=
  {| Http.authorization := authorization;
     Http.uniqueCode_param := "";
     Http.payload := {| Http.action := action; Http.uniqueCodes := uniqueCodes |} |}.

(** A [POST /api/profiles/:uniqueCode/upload] request. *)
Definition upload_request (authorization : option string) (uniqueCode : string)
    (incoming : option Multer.part) : Http.request (option Multer.part) :=
  {| Http.authorization := authorization;
     Http.uniqueCode_param := uniqueCode;
     Http.payload := incoming |}.

(** The pin stored for [code] after a run, when exactly one row has it. *)
Definition stored_pin (code : string) (s : Supabase.store) : option string :=
  match Supabase.single (filter (Supabase.eq_unique_code code) (Supabase.profiles s)) with
  | Some r => Some (Profiles.pin r)
  | None => None
  end.

(** A list of keys without repetition, as a test. *)
Fixpoint distinct (keys : list string) : bool :=
  match keys with
  | [] => true
  | k :: rest => negb (existsb (String.eqb k) rest) && distinct rest
  end.

(** [keys_unique], as a test. *)
Definition keys_unique_test (s : Supabase.store) : bool :=
  distinct (map Profiles.unique_code (Supabase.profiles s))
  && distinct (map Profiles.admin_id (Supabase.profiles s))
  && distinct (map Admins.email (Supabase.admins s)).

(** ** A small database to run the handlers on *)

Module Sample.

Definition row (uuid admin_id pin unique_code : string) (status : option string)
    : Profiles.row :=
  {| Profiles.uuid := uuid; Profiles.admin_id := admin_id; Profiles.pin := pin;
     Profiles.unique_code := unique_code;
     Profiles.profile_photo_url := Some "/uploads/kontacksharelogo.png";
     Profiles.full_name := Some "Default Name";
     Profiles.email := Some "default@example.com";
     Profiles.status := status;
     Profiles.job_title := None; Profiles.company_name := None;
     Profiles.mobile_primary := None; Profiles.landline_number := None;
     Profiles.address := None; Profiles.facebook_link := None;
     Profiles.instagram_link := None; Profiles.tiktok_link := None;
     Profiles.whatsapp_number := None; Profiles.website_link := None;
     Profiles.created_at := Some 1000%Z; Profiles.updated_at := Some 1000%Z |}.

(** An active profile and a banned one. *)
Definition ann : Profiles.row :=
  row "u-1" "20251001-0000-0001" "12345" "annannannannann1" (Some "active").

Definition bob : Profiles.row :=
  row "u-2" "20251001-0000-0002" "54321" "bobbobbobbobbob2" (Some "banned").

Definition root : Admins.row :=
  {| Admins.id := "a1"; Admins.email := "a@k.io";
     Admins.password_hash := "$ref$Admin@123"; Admins.role := None |}.

Definition store : Supabase.store :=
  {| Supabase.admins := [root]; Supabase.profiles := [ann; bob];
     Supabase.journal := [] |}.

(** The token the login route issues to [root] at time 0, under the
    reference library and the default secret. *)
Definition token : string :=
  Eval vm_compute in
    @Jwt.sign Reference.tokens "a1" "a@k.io" "admin" "dev-secret-change-me" eight_hours 0.

(** The claim set that token carries. *)
Definition session : Jwt.claims :=
  {| Jwt.sub := "a1"; Jwt.email := "a@k.io"; Jwt.role := "admin";
     Jwt.iat := 0%Z; Jwt.exp := Some 28800%Z |}.

(** The codes of the two profiles and one that no profile has. *)
Definition three_codes : list Js.value :=
  [ Js.Text "annannannannann1"; Js.Text "bobbobbobbobbob2"; Js.Text "nobody0000000000" ].


(** A code that no profile has and that holds a comma between two
    double quotes: [x","annannannannann1]. *)
Definition splitting_code : string :=
  "x" ++ String Postgrest.dquote ("," ++ String Postgrest.dquote "annannannannann1").



(** A body that only renames the profile. *)
Definition rename (name : string) : Http.update_body :=
  {| Http.u_profilePhoto := Js.Undefined; Http.u_fullName := Js.Text name;
     Http.u_email := Js.Undefined; Http.u_status := Js.Undefined;
     Http.u_jobTitle := Js.Undefined; Http.u_companyName := Js.Undefined;
     Http.u_mobilePrimary := Js.Undefined; Http.u_landlineNumber := Js.Undefined;
     Http.u_address := Js.Undefined; Http.u_facebookLink := Js.Undefined;
     Http.u_instagramLink := Js.Undefined; Http.u_tiktokLink := Js.Undefined;
     Http.u_whatsappNumber := Js.Undefined; Http.u_websiteLink := Js.Undefined;
     Http.u_pin := Js.Undefined |}.

(** A body that sets the status and nothing else. *)
Definition with_status (status : string) : Http.update_body :=
  {| Http.u_profilePhoto := Js.Undefined; Http.u_fullName := Js.Undefined;
     Http.u_email := Js.Undefined; Http.u_status := Js.Text status;
     Http.u_jobTitle := Js.Undefined; Http.u_companyName := Js.Undefined;
     Http.u_mobilePrimary := Js.Undefined; Http.u_landlineNumber := Js.Undefined;
     Http.u_address := Js.Undefined; Http.u_facebookLink := Js.Undefined;
     Http.u_instagramLink := Js.Undefined; Http.u_tiktokLink := Js.Undefined;
     Http.u_whatsappNumber := Js.Undefined; Http.u_websiteLink := Js.Undefined;
     Http.u_pin := Js.Undefined |}.


Definition long_status : Http.update_body := with_status "twenty-one-characters".

(** A PNG of six megabytes and a PDF of one kilobyte. *)
Definition big_image : Multer.part :=
  {| Multer.fieldname := "photo"; Multer.originalname := "me.png";
     Multer.mimetype := "image/png"; Multer.size := (6 * 1024 * 1024)%Z |}.

Definition document : Multer.part :=
  {| Multer.fieldname := "photo"; Multer.originalname := "cv.pdf";
     Multer.mimetype := "application/pdf"; Multer.size := 1024%Z |}.

End Sample.

(** * Properties *)

(** ** Lists, [single] and [filter] *)


Section Tables.

Context {A : Type}.

Lemma filter_none (f : A -> bool) (rows : list A) :
  (forall x, In x rows -> f x = false) -> filter f rows = [].
Proof.
  induction rows as [|x rows IH]; intros Hall; simpl.
  - reflexivity.
  - rewrite (Hall x (or_introl eq_refl)).
    apply IH. intros y Hy. apply Hall. now right.
Qed.

Lemma single_inv (rows : list A) (r : A) :
  Supabase.single rows = Some r -> rows = [r].
Proof.
  destruct rows as [|x [|y rows]]; simpl; intros H; try discriminate.
  now inversion H.
Qed.

Lemma single_none (f : A -> bool) (rows : list A) :
  (forall x, In x rows -> f x = false) -> Supabase.single (filter f rows) = None.
Proof.
  intros Hall. now rewrite (filter_none f rows Hall).
Qed.

Lemma single_some_in (f : A -> bool) (rows : list A) (r : A) :
  Supabase.single (filter f rows) = Some r -> In r rows /\ f r = true.
Proof.
  intros H. apply single_inv in H.
  apply filter_In. rewrite H. now left.
Qed.

(** A filter that can only select rows sharing the key of [r], over a
    table where that key is unique, selects [r] alone. *)
Lemma single_unique (key : A -> string) (f : A -> bool) (rows : list A) (r : A) :
  NoDup (map key rows) ->
  In r rows ->
  f r = true ->
  (forall x, In x rows -> f x = true -> key x = key r) ->
  Supabase.single (filter f rows) = Some r.
Proof.
  induction rows as [|x rows IH]; intros Hnd Hin Hr Hkey.
  - contradiction.
  - simpl in Hnd. apply NoDup_cons_iff in Hnd. destruct Hnd as [Hx Hnd].
    destruct Hin as [-> | Hin].
    + simpl. rewrite Hr.
      rewrite filter_none; [reflexivity|].
      intros y Hy. destruct (f y) eqn:Hfy; [|reflexivity].
      exfalso. apply Hx.
      rewrite <- (Hkey y (or_intror Hy) Hfy).
      now apply in_map.
    + assert (Hfx : f x = false).
      { destruct (f x) eqn:Hfx; [|reflexivity].
        exfalso. apply Hx.
        rewrite (Hkey x (or_introl eq_refl) Hfx).
        now apply in_map. }
      simpl. rewrite Hfx.
      apply IH; auto.
      intros y Hy. apply Hkey. now right.
Qed.

End Tables.

Lemma single_by_code (s : Supabase.store) (r : Profiles.row) :
  keys_unique s ->
  In r (Supabase.profiles s) ->
  Supabase.single
    (filter (Supabase.eq_unique_code (Profiles.unique_code r)) (Supabase.profiles s))
  = Some r.
Proof.
  intros [Hcode _] Hin.
  apply (single_unique Profiles.unique_code); auto.
  - apply String.eqb_refl.
  - intros x _ Hx. now apply String.eqb_eq in Hx.
Qed.

Lemma single_by_admin_id (s : Supabase.store) (r : Profiles.row) :
  keys_unique s ->
  In r (Supabase.profiles s) ->
  Supabase.single
    (filter (Supabase.eq_admin_id (Profiles.admin_id r)) (Supabase.profiles s))
  = Some r.
Proof.
  intros (_ & Hid & _) Hin.
  apply (single_unique Profiles.admin_id); auto.
  - apply String.eqb_refl.
  - intros x _ Hx. now apply String.eqb_eq in Hx.
Qed.

Lemma single_by_email (s : Supabase.store) (a : Admins.row) :
  keys_unique s ->
  In a (Supabase.admins s) ->
  Supabase.single
    (filter (Supabase.eq_email (Admins.email a)) (Supabase.admins s))
  = Some a.
Proof.
  intros (_ & _ & Hmail) Hin.
  apply (single_unique Admins.email); auto.
  - apply String.eqb_refl.
  - intros x _ Hx. now apply String.eqb_eq in Hx.
Qed.

(** ** The UPDATE statement *)

Lemma patched_some (p : list Supabase.entry) (x r : Profiles.row) :
  Supabase.patch p x = Some r -> patched p x = r.
Proof. unfold patched. now intros ->. Qed.

Lemma update_rows_total (f : Profiles.row -> bool) (p : list Supabase.entry)
    (rows : list Profiles.row) :
  (forall x, In x rows -> f x = true -> Supabase.patch p x <> None) ->
  Supabase.update_rows f p rows
  = Some (rewrite_rows f p rows, map (patched p) (filter f rows)).
Proof.
  induction rows as [|x rows IH]; intros Hok; simpl.
  - reflexivity.
  - rewrite IH by (intros y Hy; apply Hok; now right).
    unfold rewrite_rows. simpl.
    destruct (f x) eqn:Hfx.
    + destruct (Supabase.patch p x) eqn:Hp.
      * simpl. now rewrite (patched_some p x r Hp).
      * exfalso. now apply (Hok x (or_introl eq_refl) Hfx).
    + reflexivity.
Qed.

Lemma update_rows_refused (f : Profiles.row -> bool) (p : list Supabase.entry)
    (rows : list Profiles.row) (x : Profiles.row) :
  In x rows -> f x = true -> Supabase.patch p x = None ->
  Supabase.update_rows f p rows = None.
Proof.
  induction rows as [|y rows IH]; intros Hin Hfx Hp.
  - contradiction.
  - simpl. destruct Hin as [-> | Hin].
    + destruct (Supabase.update_rows f p rows) as [[t c]|]; [|reflexivity].
      now rewrite Hfx, Hp.
    + now rewrite (IH Hin Hfx Hp).
Qed.

Lemma character_varying_fits (text : string) :
  fits text = true ->
  Postgres.character_varying Profiles.status_width text = Some text.
Proof.
  unfold fits, Postgres.character_varying. now intros ->.
Qed.

(** The width counts characters, not bytes, and spares trailing
    spaces: three letters and three two-byte characters fit in a width
    of three, four of either do not, and spaces beyond the third
    character are cut off. *)
Lemma character_varying_by_characters :
  let e := String "195" (String "169" EmptyString) in
  Postgres.character_varying 3 "abc" = Some "abc"
  /\ Postgres.character_varying 3 "abcd" = None
  /\ Postgres.character_varying 3 "abc  " = Some "abc"
  /\ Postgres.character_varying 3 (e ++ e ++ e) = Some (e ++ e ++ e)
  /\ Postgres.character_varying 3 (e ++ e ++ e ++ e) = None
  /\ Postgres.character_varying 3 (e ++ e ++ e ++ " ") = Some (e ++ e ++ e).
Proof. repeat split. Qed.

Lemma status_patch_accepted (status : string) (now : Z) (x : Profiles.row) :
  fits status = true ->
  Supabase.patch (status_patch status now) x = Some (mark status now x).
Proof.
  intros Hfits. unfold status_patch. cbn [Supabase.patch Supabase.write Js.template].
  now rewrite (character_varying_fits status Hfits).
Qed.

Lemma rewrite_rows_ext (f : Profiles.row -> bool) (p : list Supabase.entry)
    (g : Profiles.row -> Profiles.row) (rows : list Profiles.row) :
  (forall x, patched p x = g x) ->
  rewrite_rows f p rows = map (fun x => if f x then g x else x) rows.
Proof.
  intros Hg. unfold rewrite_rows. apply map_ext.
  intros x. now rewrite Hg.
Qed.

(** Writing a nullable column without a width never fails. *)
Lemma write_nullable (c : Profiles.column) (v : Js.value) (r : Profiles.row) :
  c <> Profiles.Pin ->
  c <> Profiles.Status ->
  Supabase.write (Supabase.Col c v) r
  = Some (Profiles.set_nullable c (assign v (get c r)) r).
Proof.
  intros Hc Hs.
  destruct c; try contradiction;
    destruct v as [| |[|]| |]; destruct r; reflexivity.
Qed.

(** Writing [status] fails exactly on a refused value. *)
Lemma write_status (v : Js.value) (r : Profiles.row) :
  Supabase.write (Supabase.Col Profiles.Status v) r
  = if refused v then None
    else Some (Profiles.set_nullable Profiles.Status
                 (assign_status v (Profiles.status r)) r).
Proof.
  unfold refused, assign_status.
  destruct v as [| |flag|lit|text]; cbn [Supabase.write];
    try (destruct r; reflexivity);
    now destruct (Postgres.character_varying _ _).
Qed.

(** The owner update is accepted unless its [status] is refused, and
    then leaves [owner_update_row]. *)
Lemma owner_patch_accepted (b : Http.update_body) (now : Z) (r : Profiles.row) :
  refused (Http.u_status b) = false ->
  Supabase.patch (dbUpdateData b now) r = Some (owner_update_row b now r).
Proof.
  intros Hstatus.
  unfold dbUpdateData. cbn [app Supabase.patch].
  repeat (rewrite write_nullable by discriminate).
  rewrite write_status, Hstatus.
  repeat (rewrite write_nullable by discriminate).
  cbn [Supabase.write].
  unfold owner_update_row.
  destruct (Js.is_five_digit_string (Http.u_pin b)) eqn:Hpin.
  - destruct (Http.u_pin b) as [| | | |digits]; try discriminate.
    destruct r; reflexivity.
  - destruct r; reflexivity.
Qed.

Lemma owner_patch_refused (b : Http.update_body) (now : Z) (r : Profiles.row) :
  refused (Http.u_status b) = true ->
  Supabase.patch (dbUpdateData b now) r = None.
Proof.
  intros Hstatus.
  unfold dbUpdateData. cbn [app Supabase.patch].
  repeat (rewrite write_nullable by discriminate).
  now rewrite write_status, Hstatus.
Qed.

(** ** The database calls, run on a store *)

Lemma select_single_run (f : Profiles.row -> bool) (s : Supabase.store) :
  Supabase.select_single f s
  = (Supabase.single (filter f (Supabase.profiles s)),
     Supabase.logged "profiles" Supabase.Select s).
Proof. reflexivity. Qed.

Lemma admins_select_single_run (f : Admins.row -> bool) (s : Supabase.store) :
  Supabase.admins_select_single f s
  = (Supabase.single (filter f (Supabase.admins s)),
     Supabase.logged "admins" Supabase.Select s).
Proof. reflexivity. Qed.

(** Unfolding a request down to the fields a handler reads. *)
Ltac open_request :=
  unfold verify_request, plain_request, pin_request, update_request,
    login_request, bulk_request, upload_request;
  cbn [Http.authorization Http.uniqueCode_param Http.payload
       Http.verify_id Http.verify_pin Http.newPin Http.currentPin
       Http.login_email Http.login_password Http.action Http.uniqueCodes].

(** Running the first database call of a handler. *)
Ltac first_select :=
  unfold Supabase.bind; rewrite ?select_single_run, ?admins_select_single_run.

Lemma filter_by_code (s : Supabase.store) (r : Profiles.row) :
  keys_unique s ->
  In r (Supabase.profiles s) ->
  filter (Supabase.eq_unique_code (Profiles.unique_code r)) (Supabase.profiles s) = [r].
Proof.
  intros Hu Hin. apply single_inv. now apply single_by_code.
Qed.

(** Over unique codes, an update addressed to the code of a stored row
    patches that row and returns it. *)
Lemma update_single_by_code (s : Supabase.store) (r r' : Profiles.row)
    (p : list Supabase.entry) :
  keys_unique s ->
  In r (Supabase.profiles s) ->
  Supabase.patch p r = Some r' ->
  Supabase.update_single (Supabase.eq_unique_code (Profiles.unique_code r)) p s
  = (Some r',
     Supabase.with_profiles
       (rewrite_rows (Supabase.eq_unique_code (Profiles.unique_code r)) p
          (Supabase.profiles s))
       (Supabase.logged "profiles" Supabase.Update s)).
Proof.
  intros Hu Hin Hp.
  pose proof (filter_by_code s r Hu Hin) as Hf.
  unfold Supabase.update_single, Supabase.bind, Supabase.record,
    Supabase.read_profiles, Supabase.write_profiles, Supabase.ret.
  cbn [Supabase.profiles Supabase.logged].
  rewrite update_rows_total.
  - rewrite Hf. cbn [map]. now rewrite (patched_some p r r' Hp).
  - intros x Hx Hfx.
    assert (Hxr : In x [r]) by (rewrite <- Hf; now apply filter_In).
    destruct Hxr as [<- | []]. now rewrite Hp.
Qed.

(** A patch the database refuses changes nothing. *)
Lemma update_single_refused (s : Supabase.store) (r : Profiles.row)
    (p : list Supabase.entry) :
  In r (Supabase.profiles s) ->
  Supabase.patch p r = None ->
  Supabase.update_single (Supabase.eq_unique_code (Profiles.unique_code r)) p s
  = (None, Supabase.logged "profiles" Supabase.Update s).
Proof.
  intros Hin Hp.
  unfold Supabase.update_single, Supabase.bind, Supabase.record,
    Supabase.read_profiles, Supabase.ret.
  cbn [Supabase.profiles Supabase.logged].
  rewrite (update_rows_refused _ p _ r Hin); auto.
  apply String.eqb_refl.
Qed.

(** A rewrite of the table that keeps both keys of every row keeps the
    schema invariant. *)
Lemma keys_unique_rewritten (s : Supabase.store) (f : Profiles.row -> bool)
    (g : Profiles.row -> Profiles.row) (t : string) (v : Supabase.verb) :
  (forall x, Profiles.unique_code (g x) = Profiles.unique_code x) ->
  (forall x, Profiles.admin_id (g x) = Profiles.admin_id x) ->
  keys_unique s ->
  keys_unique
    (Supabase.with_profiles (map (fun x => if f x then g x else x) (Supabase.profiles s))
       (Supabase.logged t v s)).
Proof.
  intros Hcode Hid (H1 & H2 & H3).
  unfold keys_unique. cbn [Supabase.with_profiles Supabase.profiles Supabase.admins
                           Supabase.logged].
  rewrite !map_map.
  rewrite (map_ext (fun x => Profiles.unique_code (if f x then g x else x))
                   Profiles.unique_code)
    by (intros x; destruct (f x); auto).
  rewrite (map_ext (fun x => Profiles.admin_id (if f x then g x else x))
                   Profiles.admin_id)
    by (intros x; destruct (f x); auto).
  auto.
Qed.

(** The table after a rewrite of the record with the code of [r]. *)
Lemma rewritten_facts (s : Supabase.store) (r : Profiles.row)
    (g : Profiles.row -> Profiles.row) (t : string) (v : Supabase.verb) :
  (forall x, Profiles.unique_code (g x) = Profiles.unique_code x) ->
  (forall x, Profiles.admin_id (g x) = Profiles.admin_id x) ->
  keys_unique s ->
  In r (Supabase.profiles s) ->
  let s' := Supabase.with_profiles
              (map (fun x => if Supabase.eq_unique_code (Profiles.unique_code r) x
                             then g x else x) (Supabase.profiles s))
              (Supabase.logged t v s) in
  keys_unique s' /\ In (g r) (Supabase.profiles s').
Proof.
  intros Hcode Hid Hu Hin s'. split.
  - now apply keys_unique_rewritten.
  - subst s'. cbn [Supabase.with_profiles Supabase.profiles].
    apply in_map_iff. exists r. split; [|assumption].
    unfold Supabase.eq_unique_code. now rewrite String.eqb_refl.
Qed.

(** The pin stored under the code of a stored record. *)
Lemma stored_pin_found (s : Supabase.store) (r : Profiles.row) :
  keys_unique s ->
  In r (Supabase.profiles s) ->
  stored_pin (Profiles.unique_code r) s = Some (Profiles.pin r).
Proof.
  intros Hu Hin. unfold stored_pin. now rewrite (filter_by_code s r Hu Hin).
Qed.

(** The pin stored under that code after a rewrite of its record. *)
Lemma stored_pin_rewritten (s : Supabase.store) (r : Profiles.row)
    (g : Profiles.row -> Profiles.row) (t : string) (v : Supabase.verb) :
  (forall x, Profiles.unique_code (g x) = Profiles.unique_code x) ->
  (forall x, Profiles.admin_id (g x) = Profiles.admin_id x) ->
  keys_unique s ->
  In r (Supabase.profiles s) ->
  stored_pin (Profiles.unique_code r)
    (Supabase.with_profiles
       (map (fun x => if Supabase.eq_unique_code (Profiles.unique_code r) x
                      then g x else x) (Supabase.profiles s))
       (Supabase.logged t v s))
  = Some (Profiles.pin (g r)).
Proof.
  intros Hcode Hid Hu Hin.
  destruct (rewritten_facts s r g t v Hcode Hid Hu Hin) as [Hu1 Hin1].
  pose proof (stored_pin_found _ (g r) Hu1 Hin1) as H.
  rewrite (Hcode r) in H. exact H.
Qed.

(** ** Credential verification by id (variant B) *)

(** C1.  Variant B ([POST /api/profiles/verify] with both [id] and [pin]
    supplied, that is, passing the handler's required-field check): when
    no stored record has the external id the answer is 404; when the
    record with that id is banned the answer is 403 whatever the pin,
    the correct one included, because the ban test comes before the PIN
    comparison; when it is not banned and the pin differs the answer is
    401; and on success the answer carries the record's public code. *)
Theorem verify_by_id_outcomes :
  forall (s : Supabase.store) (authorization : option string)
         (id pin : Js.value) (now : Z),
    keys_unique s ->
    Js.truthy id = true ->
    Js.truthy pin = true ->
    let answer := fst (post_verify (verify_request authorization "" id pin) now s) in
    ((forall r, In r (Supabase.profiles s) -> Profiles.admin_id r <> Js.template id) ->
       answer = Http.respond 404 (Http.Error "Profile not found"))
    /\ (forall r, In r (Supabase.profiles s) ->
          Profiles.admin_id r = Js.template id ->
          (banned r = true ->
             answer = Http.respond 403 (Http.Error "Account is banned"))
          /\ (banned r = false ->
              Js.strict_eq (Js.Text (Profiles.pin r)) pin = false ->
                answer = Http.respond 401 (Http.Error "Invalid credentials"))
          /\ (banned r = false ->
              Js.strict_eq (Js.Text (Profiles.pin r)) pin = true ->
                answer = Http.respond 200
                  (Http.Verified "Credentials verified" (Profiles.unique_code r)))).
Proof.
  intros s authorization id pin now Hu Hid Hpin answer.
  subst answer. unfold post_verify. open_request.
  rewrite Hid, Hpin. cbn [negb orb].
  unfold Supabase.bind. rewrite select_single_run.
  split.
  - intros Hnone.
    rewrite single_none; [reflexivity|].
    intros x Hx. apply String.eqb_neq. now apply Hnone.
  - intros r Hin Hr. rewrite <- Hr.
    rewrite (single_by_admin_id s r Hu Hin).
    repeat split; intros Hb.
    + now rewrite Hb.
    + intros Hp. now rewrite Hb, Hp.
    + intros Hp. now rewrite Hb, Hp.
Qed.

(** Without an id or without a pin the by-id verification stops at its
    required-field check: 400, and no database call. *)
Lemma post_verify_requires_both (s : Supabase.store) (authorization : option string)
    (id pin : Js.value) (now : Z) :
  Js.truthy id = false \/ Js.truthy pin = false ->
  post_verify (verify_request authorization "" id pin) now s
  = (Http.respond 400 (Http.Error "id and pin are required"), s).
Proof.
  unfold post_verify. open_request.
  intros [H | H]; rewrite H; cbn [negb orb]; [reflexivity|].
  now rewrite orb_true_r.
Qed.

(** ** Credential verification scoped by the public code (variant A) *)

(** The three-way filter of variant A selects a row exactly when the
    code, the external id and the pin all agree with the request. *)
Lemma scoped_filter_spec (code : string) (id pin : Js.value) (x : Profiles.row) :
  Supabase.both (Supabase.eq_unique_code code)
    (Supabase.both (Supabase.eq_admin_id (Js.template id))
                   (Supabase.eq_pin (Js.template pin))) x = true
  <-> Profiles.unique_code x = code
      /\ Profiles.admin_id x = Js.template id
      /\ Profiles.pin x = Js.template pin.
Proof.
  unfold Supabase.both, Supabase.eq_unique_code, Supabase.eq_admin_id, Supabase.eq_pin.
  rewrite !andb_true_iff, !String.eqb_eq. tauto.
Qed.

(** C4.  Variant A ([POST /api/profiles/:uniqueCode/verify]): whenever no
    stored record agrees with the request on public code, external id
    and pin together (no such record at all included) the answer is 401;
    and the status of the record is never looked at: a record, banned or
    not, with the right code and id and a wrong pin gives 401, and with
    all three right gives success. *)
Theorem verify_scoped_outcomes :
  forall (s : Supabase.store) (authorization : option string) (code : string)
         (id pin : Js.value) (now : Z),
    keys_unique s ->
    let answer :=
      fst (post_verify_scoped (verify_request authorization code id pin) now s) in
    ((forall r, In r (Supabase.profiles s) ->
        ~ (Profiles.unique_code r = code
           /\ Profiles.admin_id r = Js.template id
           /\ Profiles.pin r = Js.template pin)) ->
       answer = Http.respond 401 (Http.Error "Invalid credentials"))
    /\ (forall r, In r (Supabase.profiles s) ->
          Profiles.unique_code r = code ->
          Profiles.admin_id r = Js.template id ->
          (Profiles.pin r <> Js.template pin ->
             answer = Http.respond 401 (Http.Error "Invalid credentials"))
          /\ (Profiles.pin r = Js.template pin ->
              answer = Http.respond 200 (Http.Success "Credentials verified"))).
Proof.
  intros s authorization code id pin now Hu answer.
  assert (Hnone :
    (forall r, In r (Supabase.profiles s) ->
        ~ (Profiles.unique_code r = code
           /\ Profiles.admin_id r = Js.template id
           /\ Profiles.pin r = Js.template pin)) ->
    answer = Http.respond 401 (Http.Error "Invalid credentials")).
  { intros Hno. subst answer.
    unfold post_verify_scoped. open_request. first_select.
    rewrite single_none; [reflexivity|].
    intros x Hx.
    destruct (Supabase.both _ _ x) eqn:Hf; [|reflexivity].
    apply scoped_filter_spec in Hf. now destruct (Hno x Hx). }
  split; [exact Hnone|].
  intros r Hin Hcode Hid. split.
  - intros Hpin. apply Hnone.
    intros x Hx (Hxc & _ & Hxp).
    assert (Hxr : In x [r]).
    { rewrite <- (filter_by_code s r Hu Hin). apply filter_In. split; [assumption|].
      unfold Supabase.eq_unique_code. apply String.eqb_eq. congruence. }
    destruct Hxr as [<- | []]. contradiction.
  - intros Hpin. subst answer.
    unfold post_verify_scoped. open_request. first_select.
    rewrite (single_unique Profiles.unique_code _ _ r); [reflexivity| | | |].
    + apply Hu.
    + assumption.
    + apply scoped_filter_spec. auto.
    + intros x _ Hx. apply scoped_filter_spec in Hx. destruct Hx as [Hx _]. congruence.
Qed.

(** ** The public profile fetch *)

(** C9.  For every stored record, [GET /api/profiles/:uniqueCode], sent
    with any [Authorization] header or none, answers 200 with a body
    whose [pin] field is the record's stored PIN: the public code alone
    gives the PIN away. *)
Theorem public_fetch_discloses_pin :
  forall (s : Supabase.store) (r : Profiles.row)
         (authorization : option string) (now : Z),
    keys_unique s ->
    In r (Supabase.profiles s) ->
    exists profile,
      fst (get_profile (plain_request authorization (Profiles.unique_code r)) now s)
      = Http.respond 200 (Http.ProfileJson profile)
      /\ Http.pin profile = Profiles.pin r.
Proof.
  intros s r authorization now Hu Hin.
  exists (profile_of_row r).
  unfold get_profile. open_request. first_select.
  rewrite (single_by_code s r Hu Hin).
  split; reflexivity.
Qed.

(** ** Changing the PIN *)

Lemma pin_patch_text (pin : string) (now : Z) (x : Profiles.row) :
  patched (pin_patch (Js.Text pin) now) x = repin pin now x.
Proof. reflexivity. Qed.

Lemma pin_patch_undefined (now : Z) (x : Profiles.row) :
  patched (pin_patch Js.Undefined now) x = touch now x.
Proof. reflexivity. Qed.

(** The PIN-change handler up to its update, for a stored record and a
    matching [currentPin]. *)
Lemma put_pin_reaches_update (s : Supabase.store) (r : Profiles.row)
    (authorization : option string) (newPin currentPin : Js.value) (now : Z) :
  keys_unique s ->
  In r (Supabase.profiles s) ->
  Js.strict_eq (Js.Text (Profiles.pin r)) currentPin = true ->
  put_pin (pin_request authorization (Profiles.unique_code r) newPin currentPin) now s
  = (let (updated, s') :=
       Supabase.update_single (Supabase.eq_unique_code (Profiles.unique_code r))
         (pin_patch newPin now) (Supabase.logged "profiles" Supabase.Select s) in
     match updated with
     | None => (Http.respond 400 Http.DatabaseError, s')
     | Some _ => (Http.respond 200 (Http.Success "PIN updated successfully"), s')
     end).
Proof.
  intros Hu Hin Hcur.
  unfold put_pin, pin_request.
  cbn [Http.payload Http.newPin Http.currentPin Http.uniqueCode_param].
  unfold Supabase.bind at 1. rewrite select_single_run.
  rewrite (single_by_code s r Hu Hin). rewrite Hcur. cbn [negb].
  unfold Supabase.bind, pin_patch.
  destruct (Supabase.update_single _ _ _) as [[updated|] s']; reflexivity.
Qed.

(** C6.  [PUT /api/profiles/:uniqueCode/pin]: when no record has the
    public code the answer is 404; when [currentPin] is not the stored
    pin the answer is 401 and the table is left exactly as it was; when
    [currentPin] matches and the new PIN is a string of five digits, the
    record's pin becomes the new value and its [updated_at] becomes the
    time of the request, later than the stamp it had whenever the clock
    has moved on since; every other row and column stays as it was. *)
Theorem pin_change_outcomes :
  forall (s : Supabase.store) (authorization : option string) (code : string)
         (newPin currentPin : Js.value) (now : Z),
    keys_unique s ->
    let run := put_pin (pin_request authorization code newPin currentPin) now s in
    ((forall r, In r (Supabase.profiles s) -> Profiles.unique_code r <> code) ->
       fst run = Http.respond 404 (Http.Error "Profile not found")
       /\ Supabase.profiles (snd run) = Supabase.profiles s)
    /\ (forall r, In r (Supabase.profiles s) -> Profiles.unique_code r = code ->
          (Js.strict_eq (Js.Text (Profiles.pin r)) currentPin = false ->
             fst run = Http.respond 401 (Http.Error "Current PIN is incorrect")
             /\ Supabase.profiles (snd run) = Supabase.profiles s)
          /\ (Js.strict_eq (Js.Text (Profiles.pin r)) currentPin = true ->
              forall digits, newPin = Js.Text digits -> Js.five_digits digits = true ->
                fst run = Http.respond 200 (Http.Success "PIN updated successfully")
                /\ Supabase.profiles (snd run)
                   = map (fun x => if Supabase.eq_unique_code code x
                                   then repin digits now x else x)
                         (Supabase.profiles s)
                /\ In (repin digits now r) (Supabase.profiles (snd run))
                /\ Profiles.pin (repin digits now r) = digits
                /\ Profiles.updated_at (repin digits now r) = Some now
                /\ (earlier (Profiles.updated_at r) (Some now) ->
                    earlier (Profiles.updated_at r)
                            (Profiles.updated_at (repin digits now r))))).
Proof.
  intros s authorization code newPin currentPin now Hu run.
  split.
  - intros Hnone. subst run.
    unfold put_pin. open_request. first_select.
    rewrite single_none.
    + split; reflexivity.
    + intros x Hx. apply String.eqb_neq. now apply Hnone.
  - intros r Hin Hcode. subst code. split.
    + intros Hcur. subst run.
      unfold put_pin. open_request. first_select.
      rewrite (single_by_code s r Hu Hin). rewrite Hcur.
      split; reflexivity.
    + intros Hcur digits Hnew Hdigits. subst run newPin.
      rewrite (put_pin_reaches_update s r authorization _ _ now Hu Hin Hcur).
      rewrite (update_single_by_code _ r (repin digits now r)); auto.
      cbn [fst snd Supabase.with_profiles Supabase.profiles Supabase.logged].
      rewrite (rewrite_rows_ext _ _ (repin digits now)) by apply pin_patch_text.
      repeat split; auto.
      apply in_map_iff. exists r. split; [|assumption].
      unfold Supabase.eq_unique_code. now rewrite String.eqb_refl.
Qed.

(** X8.  A JSON [null] as the new PIN is refused by the NOT NULL
    column: the answer is 400 and the table stays as it was. *)
Lemma pin_change_null_refused (s : Supabase.store) (r : Profiles.row)
    (authorization : option string) (currentPin : Js.value) (now : Z) :
  keys_unique s ->
  In r (Supabase.profiles s) ->
  Js.strict_eq (Js.Text (Profiles.pin r)) currentPin = true ->
  let run := put_pin (pin_request authorization (Profiles.unique_code r) Js.Null currentPin)
               now s in
  fst run = Http.respond 400 Http.DatabaseError
  /\ Supabase.profiles (snd run) = Supabase.profiles s.
Proof.
  intros Hu Hin Hcur run. subst run.
  rewrite (put_pin_reaches_update s r authorization _ _ now Hu Hin Hcur).
  rewrite update_single_refused; [split; reflexivity|exact Hin|reflexivity].
Qed.

(** ** The owner update *)



Lemma put_profile_run (s : Supabase.store) (r : Profiles.row)
    (authorization : option string) (b : Http.update_body) (now : Z) :
  keys_unique s ->
  In r (Supabase.profiles s) ->
  refused (Http.u_status b) = false ->
  put_profile (update_request authorization (Profiles.unique_code r) b) now s
  = (Http.respond 200 (Http.ProfileJson (profile_of_row (owner_update_row b now r))),
     Supabase.with_profiles
       (map (fun x => if Supabase.eq_unique_code (Profiles.unique_code r) x
                      then owner_update_row b now x else x)
            (Supabase.profiles s))
       (Supabase.logged "profiles" Supabase.Update s)).
Proof.
  intros Hu Hin Hstatus.
  unfold put_profile. open_request.
  unfold Supabase.bind.
  rewrite (update_single_by_code s r (owner_update_row b now r)); auto.
  - rewrite (rewrite_rows_ext _ _ (owner_update_row b now)); [reflexivity|].
    intros x. now apply patched_some, owner_patch_accepted.
  - now apply owner_patch_accepted.
Qed.

(** An owner update whose [status] the column refuses is answered 400
    and writes nothing. *)
Lemma put_profile_refused (s : Supabase.store) (r : Profiles.row)
    (authorization : option string) (b : Http.update_body) (now : Z) :
  In r (Supabase.profiles s) ->
  refused (Http.u_status b) = true ->
  put_profile (update_request authorization (Profiles.unique_code r) b) now s
  = (Http.respond 400 Http.DatabaseError, Supabase.logged "profiles" Supabase.Update s).
Proof.
  intros Hin Hstatus.
  unfold put_profile. open_request.
  unfold Supabase.bind.
  rewrite (update_single_refused s r); [reflexivity|exact Hin|].
  now apply owner_patch_refused.
Qed.


(** ** No validation of the new PIN *)

(** The PIN change of a stored record with its current PIN, for a new
    PIN that the [pin] column takes. *)
Lemma put_pin_run (s : Supabase.store) (r r' : Profiles.row)
    (authorization : option string) (newPin currentPin : Js.value) (now : Z) :
  keys_unique s ->
  In r (Supabase.profiles s) ->
  Js.strict_eq (Js.Text (Profiles.pin r)) currentPin = true ->
  Supabase.patch (pin_patch newPin now) r = Some r' ->
  put_pin (pin_request authorization (Profiles.unique_code r) newPin currentPin) now s
  = (Http.respond 200 (Http.Success "PIN updated successfully"),
     Supabase.with_profiles
       (rewrite_rows (Supabase.eq_unique_code (Profiles.unique_code r))
          (pin_patch newPin now) (Supabase.profiles s))
       (Supabase.logged "profiles" Supabase.Update
          (Supabase.logged "profiles" Supabase.Select s))).
Proof.
  intros Hu Hin Hcur Hp.
  rewrite (put_pin_reaches_update s r authorization _ _ now Hu Hin Hcur).
  rewrite (update_single_by_code _ r r');
    [reflexivity | exact Hu | exact Hin | exact Hp].
Qed.

(** Any value but an absent key and [null] is stored as its text. *)
Lemma pin_patch_value (v : Js.value) (now : Z) (x : Profiles.row) :
  v <> Js.Undefined -> v <> Js.Null ->
  Supabase.patch (pin_patch v now) x = Some (repin (Js.template v) now x).
Proof.
  intros Hu Hn. destruct v as [| |[|]| |]; try contradiction; reflexivity.
Qed.

(** C10, as amended.  The PIN change applies no format check to the new
    PIN: for every stored record and correct [currentPin], whatever
    value [newPin] carries, a string of any content (non-numeric and
    empty included), a number or a boolean, its text becomes the stored
    pin.  The two values that are not stored are the absent one and
    [null]: a request without [newPin] is answered with the same success
    while the stored pin stays as it was (only the stamp moves), and a
    [null] is refused with 400 and changes nothing.  The owner update,
    in contrast, takes a pin from the body only when it is a string of
    exactly five digits: any other pin leaves the stored pin as it was,
    and a five-digit one is stored whenever the update itself is
    accepted. *)
Theorem pin_change_applies_no_format_check :
  forall (s : Supabase.store) (r : Profiles.row) (authorization : option string)
         (currentPin : Js.value) (now : Z),
    keys_unique s ->
    In r (Supabase.profiles s) ->
    Js.strict_eq (Js.Text (Profiles.pin r)) currentPin = true ->
    let code := Profiles.unique_code r in
    let change newPin := put_pin (pin_request authorization code newPin currentPin) now s in
    (forall newPin, newPin <> Js.Undefined -> newPin <> Js.Null ->
        fst (change newPin)
        = Http.respond 200 (Http.Success "PIN updated successfully")
        /\ Supabase.profiles (snd (change newPin))
           = map (fun x => if Supabase.eq_unique_code code x
                           then repin (Js.template newPin) now x else x)
                 (Supabase.profiles s)
        /\ stored_pin code (snd (change newPin)) = Some (Js.template newPin))
    /\ (fst (change Js.Undefined)
        = Http.respond 200 (Http.Success "PIN updated successfully")
        /\ Supabase.profiles (snd (change Js.Undefined))
           = map (fun x => if Supabase.eq_unique_code code x then touch now x else x)
                 (Supabase.profiles s)
        /\ stored_pin code (snd (change Js.Undefined)) = Some (Profiles.pin r))
    /\ (fst (change Js.Null) = Http.respond 400 Http.DatabaseError
        /\ Supabase.profiles (snd (change Js.Null)) = Supabase.profiles s)
    /\ (forall b,
          let after := snd (put_profile (update_request authorization code b) now s) in
          (Js.is_five_digit_string (Http.u_pin b) = false ->
             stored_pin code after = Some (Profiles.pin r))
          /\ (Js.is_five_digit_string (Http.u_pin b) = true ->
              refused (Http.u_status b) = false ->
              stored_pin code after = Some (Js.template (Http.u_pin b)))).
Proof.
  intros s r authorization currentPin now Hu Hin Hcur code change.
  subst change code. cbv beta.
  assert (Hu0 : keys_unique (Supabase.logged "profiles" Supabase.Select s)) by exact Hu.
  split; [|split; [|split]].
  - intros newPin Hdefined Hnotnull.
    rewrite (put_pin_run s r (repin (Js.template newPin) now r) authorization _ _ now
               Hu Hin Hcur (pin_patch_value newPin now r Hdefined Hnotnull)).
    cbn [fst snd].
    rewrite (rewrite_rows_ext _ _ (repin (Js.template newPin) now))
      by (intros x; apply patched_some; now apply pin_patch_value).
    split; [reflexivity|]. split; [reflexivity|].
    exact (stored_pin_rewritten _ r (repin (Js.template newPin) now) "profiles"
             Supabase.Update (fun _ => eq_refl) (fun _ => eq_refl) Hu0 Hin).
  - rewrite (put_pin_run s r (touch now r) authorization Js.Undefined _ now
               Hu Hin Hcur eq_refl).
    cbn [fst snd].
    rewrite (rewrite_rows_ext _ _ (touch now)) by apply pin_patch_undefined.
    split; [reflexivity|]. split; [reflexivity|].
    exact (stored_pin_rewritten _ r (touch now) "profiles"
             Supabase.Update (fun _ => eq_refl) (fun _ => eq_refl) Hu0 Hin).
  - rewrite (put_pin_reaches_update s r authorization _ _ now Hu Hin Hcur).
    rewrite update_single_refused; [split; reflexivity|exact Hin|reflexivity].
  - intros b after. subst after.
    destruct (refused (Http.u_status b)) eqn:Hstatus.
    + rewrite (put_profile_refused s r _ b now Hin Hstatus). cbn [snd].
      split.
      * intros _. now apply (stored_pin_found (Supabase.logged _ _ s)).
      * intros _ Hno. discriminate.
    + rewrite (put_profile_run s r _ b now Hu Hin Hstatus). cbn [snd].
      rewrite (stored_pin_rewritten s r (owner_update_row b now) "profiles"
                 Supabase.Update (fun _ => eq_refl) (fun _ => eq_refl) Hu Hin).
      cbn [owner_update_row Profiles.pin].
      split; intros Hpin; [|intros _]; now rewrite Hpin.
Qed.

(** ** Bulk moderation *)









(** Over a lawful grammar, the one code [x","annannannannann1] selects
    the rows whose code is [x] or [annannannannann1]: between the double
    quotes the client adds, its own two quotes close one item and open
    another. *)
Lemma splitting_code_selects (G : Postgrest.Grammar) :
  Postgrest.Lawful G ->
  exists listed,
    Supabase.in_unique_code [Js.Text Sample.splitting_code] = Some listed
    /\ forall x, listed x
                 = existsb (String.eqb (Profiles.unique_code x)) ["x"; "annannannannann1"].
Proof.
  intros Hlaw. unfold Supabase.in_unique_code.
  change (Postgrest.in_list [Js.Text Sample.splitting_code])
    with ("(" ++ Postgrest.join ","
                   (map Postgrest.written
                      [Postgrest.Quoted "x"; Postgrest.Quoted "annannannannann1"])
              ++ ")").
  rewrite (Postgrest.reads_items G Hlaw);
    [eexists; split; reflexivity | discriminate | reflexivity].
Qed.


Lemma delete_many_run (f : Profiles.row -> bool) (s : Supabase.store) :
  Supabase.delete_many f s
  = (true,
     Supabase.with_profiles (filter (fun x => negb (f x)) (Supabase.profiles s))
       (Supabase.logged "profiles" Supabase.Delete s)).
Proof. reflexivity. Qed.

Lemma length_nonzero {A : Type} (xs : list A) :
  xs <> [] -> (length xs =? 0)%nat = false.
Proof.
  destruct xs; [contradiction|reflexivity].
Qed.



(** ** Uploads *)

(** C7, as amended.  An upload whose file exceeds the 5 MB cap is
    rejected without any call to the database, so without any change to
    a record; sent as an image in the [photo] field it is answered 400
    ("File too large"), by the explicit branch of the error-handling
    middleware, not 500.  An upload that is not an image is rejected
    with 500 before any database call. *)
Theorem upload_rejections :
  forall (path_extname : string -> string) (limit_at_cap : bool) (s : Supabase.store)
         (authorization : option string) (code : string) (part : Multer.part)
         (named rand now : Z),
    let run :=
      post_upload path_extname limit_at_cap
        (upload_request authorization code (Some part)) named rand now s in
    ((Multer.fileSize < Multer.size part)%Z ->
       snd run = s
       /\ Http.code (fst run) <> 200
       /\ (Multer.fieldname part = "photo" ->
           String.prefix "image/" (Multer.mimetype part) = true ->
           fst run = Http.respond 400 (Http.Error "File too large. Maximum size is 5MB.")))
    /\ (String.prefix "image/" (Multer.mimetype part) = false ->
        run = (Http.respond 500 (Http.Error "Internal server error"), s)).
Proof.
  intros path_extname limit_at_cap s authorization code part named rand now run.
  subst run.
  unfold post_upload, upload_request, upload_single, over_limit, Multer.fileFilter.
  cbn [Http.payload Http.uniqueCode_param].
  split.
  - intros Hsize. apply Z.ltb_lt in Hsize. rewrite Hsize. cbn [orb].
    destruct (Multer.fieldname part =? "photo") eqn:Hfield; cbn [negb].
    + destruct (String.prefix "image/" (Multer.mimetype part)) eqn:Himage.
      * repeat split; cbn; try discriminate.
      * repeat split; cbn; try discriminate.
    + apply String.eqb_neq in Hfield.
      repeat split; cbn; try discriminate. intros Hphoto. contradiction.
  - intros Himage. rewrite Himage.
    destruct (Multer.fieldname part =? "photo"); reflexivity.
Qed.

(** ** Admin login *)

(** C3.  [POST /api/admin/login]: with the email or the password
    missing the answer is 400 and the store, journal included, is left
    as it was, so no database call was made; for an email and a
    password that match no stored admin, whether no admin has the email
    or the hash comparison fails, the answer is the one generic 401
    "Invalid credentials", which carries no token. *)
Theorem login_rejections :
  forall (L : Jwt.Library) (env : option string)
         (bcrypt_compare : string -> string -> bool)
         (s : Supabase.store) (authorization : option string)
         (email password : Js.value) (now : Z),
    let run := post_admin_login env bcrypt_compare
                 (login_request authorization email password) now s in
    (Js.truthy email = false \/ Js.truthy password = false ->
       run = (Http.respond 400 (Http.Error "Email and password are required"), s))
    /\ (forall e p,
          email = Js.Text e -> password = Js.Text p -> e <> "" -> p <> "" ->
          (forall a, In a (Supabase.admins s) -> Admins.email a = e ->
                     bcrypt_compare p (Admins.password_hash a) = false) ->
          fst run = Http.respond 401 (Http.Error "Invalid credentials")
          /\ (forall token, Http.body (fst run) <> Http.Token token)
          /\ Supabase.profiles (snd run) = Supabase.profiles s
          /\ Supabase.admins (snd run) = Supabase.admins s).
Proof.
  intros L env bcrypt_compare s authorization email password now run.
  subst run. unfold post_admin_login. open_request.
  split.
  - intros [H | H]; rewrite H; cbn [negb orb]; [reflexivity|].
    now rewrite orb_true_r.
  - intros e p -> -> He Hp Hno.
    apply String.eqb_neq in He, Hp.
    cbn [Js.truthy Js.template]. rewrite He, Hp. cbn [negb orb].
    unfold Supabase.bind. rewrite admins_select_single_run.
    destruct (Supabase.single _) as [a|] eqn:Hfound.
    + apply single_some_in in Hfound. destruct Hfound as [Hin Hmail].
      apply String.eqb_eq in Hmail.
      rewrite (Hno a Hin Hmail).
      repeat split. intros token. discriminate.
    + repeat split. intros token. discriminate.
Qed.

(** ** Strings *)

Lemma append_assoc (a b c : string) : (a ++ b) ++ c = a ++ (b ++ c).
Proof.
  induction a as [|x a IH]; simpl; [reflexivity|now rewrite IH].
Qed.

Lemma append_inj_l (a x y : string) : a ++ x = a ++ y -> x = y.
Proof.
  induction a as [|c a IH]; simpl; intros H; [assumption|].
  injection H as H. now apply IH.
Qed.

Lemma lacks_app (c : ascii) (a b : string) :
  Jwt.lacks c (a ++ b) = Jwt.lacks c a && Jwt.lacks c b.
Proof.
  induction a as [|x a IH]; simpl; [reflexivity|].
  rewrite IH. now rewrite andb_assoc.
Qed.

(** The text after the last dot determines the text before it. *)
Lemma last_dot_unique (a a' b b' : string) :
  Jwt.lacks "." b = true -> Jwt.lacks "." b' = true ->
  a ++ "." ++ b = a' ++ "." ++ b' ->
  a = a' /\ b = b'.
Proof.
  revert a'. induction a as [|x a IH]; intros [|x' a'] Hb Hb' H; simpl in H.
  - injection H as H. now split.
  - injection H as Hx H. subst x'.
    rewrite H in Hb. rewrite lacks_app in Hb. simpl in Hb.
    rewrite andb_false_r in Hb. discriminate.
  - injection H as Hx H. subst x.
    rewrite <- H in Hb'. rewrite lacks_app in Hb'. simpl in Hb'.
    rewrite andb_false_r in Hb'. discriminate.
  - injection H as Hx H. subst x'.
    destruct (IH a' Hb Hb' H) as [-> ->]. now split.
Qed.

(** A string without a space is the only piece [split] finds. *)
Lemma split_no_space (t : string) :
  Jwt.lacks " " t = true -> Js.split " " t = [t].
Proof.
  induction t as [|c t IH]; simpl; intros H; [reflexivity|].
  apply andb_true_iff in H. destruct H as [Hc Ht].
  apply negb_true_iff in Hc. rewrite Hc.
  now rewrite (IH Ht).
Qed.

(** ** The reference token library obeys the contract *)

Lemma unbit_bit (b : bool) : Reference.unbit (Reference.bit b) = b.
Proof. now destruct b. Qed.

Lemma dec_string_enc (s rest : string) :
  Reference.dec_string (Reference.enc_string s ++ rest) = Some (s, rest).
Proof.
  induction s as [|[b0 b1 b2 b3 b4 b5 b6 b7] s IH]; simpl; [reflexivity|].
  rewrite IH. now rewrite !unbit_bit.
Qed.

Lemma dec_positive_enc (p : positive) (rest : string) :
  Reference.dec_positive (Reference.enc_positive p ++ rest) = Some (p, rest).
Proof.
  induction p as [p IH|p IH|]; simpl; [now rewrite IH|now rewrite IH|reflexivity].
Qed.

Lemma dec_Z_enc (z : Z) (rest : string) :
  Reference.dec_Z (Reference.enc_Z z ++ rest) = Some (z, rest).
Proof.
  destruct z; simpl; [reflexivity| |]; now rewrite dec_positive_enc.
Qed.

Lemma dec_exp_enc (e : option Z) (rest : string) :
  Reference.dec_exp (Reference.enc_exp e ++ rest) = Some (e, rest).
Proof.
  destruct e; simpl; [now rewrite dec_Z_enc|reflexivity].
Qed.

Lemma dec_claims_enc (c : Jwt.claims) (rest : string) :
  Reference.dec_claims (Reference.enc_claims c ++ rest) = Some (c, rest).
Proof.
  unfold Reference.dec_claims, Reference.enc_claims.
  rewrite !append_assoc.
  rewrite !dec_string_enc, dec_Z_enc, dec_exp_enc.
  now destruct c.
Qed.

Lemma differs (a c : ascii) : c <> a -> negb (Ascii.eqb a c) = true.
Proof.
  intros H. apply negb_true_iff, Ascii.eqb_neq. congruence.
Qed.

Lemma enc_string_alphabet (c : ascii) (s : string) :
  c <> "c"%char -> c <> "e"%char -> c <> "0"%char -> c <> "1"%char ->
  Jwt.lacks c (Reference.enc_string s) = true.
Proof.
  intros Hc He H0 H1.
  assert (Hbit : forall b, negb (Ascii.eqb (Reference.bit b) c) = true).
  { intros [|]; apply differs; assumption. }
  induction s as [|[b0 b1 b2 b3 b4 b5 b6 b7] s IH];
    cbn [Jwt.lacks Reference.enc_string].
  - now rewrite (differs "e" c He).
  - now rewrite !Hbit, IH, (differs "c" c Hc).
Qed.

Lemma enc_positive_alphabet (c : ascii) (p : positive) :
  c <> "e"%char -> c <> "0"%char -> c <> "1"%char ->
  Jwt.lacks c (Reference.enc_positive p) = true.
Proof.
  intros He H0 H1.
  induction p as [p IH|p IH|]; cbn [Jwt.lacks Reference.enc_positive].
  - now rewrite IH, (differs "1" c H1).
  - now rewrite IH, (differs "0" c H0).
  - now rewrite (differs "e" c He).
Qed.

Lemma enc_claims_no_space (c : Jwt.claims) :
  Jwt.lacks " " (Reference.enc_claims c) = true.
Proof.
  unfold Reference.enc_claims.
  rewrite !lacks_app.
  rewrite !enc_string_alphabet by discriminate.
  destruct (Jwt.iat c), (Jwt.exp c) as [[| |]|]; simpl;
    rewrite ?enc_positive_alphabet by discriminate; reflexivity.
Qed.

Lemma reference_lawful : Jwt.Lawful Reference.tokens.
Proof.
  constructor; cbn [Jwt.encode Jwt.decode Reference.tokens].
  - intros c key. unfold Reference.decode.
    unfold Reference.encode at 1. rewrite dec_claims_enc.
    now rewrite String.eqb_refl.
  - intros c key. exists (Reference.enc_claims c), (Reference.tag key c).
    split; [reflexivity|].
    apply enc_string_alphabet; discriminate.
  - intros c key. unfold Reference.encode, Reference.tag.
    rewrite !lacks_app, enc_claims_no_space.
    rewrite enc_string_alphabet by discriminate. reflexivity.
  - intros body s1 s2 key H1 H2 Hne Hok.
    unfold Reference.decode in *.
    destruct (Reference.dec_claims (body ++ "." ++ s1)) as [[c rest]|] eqn:Hdec;
      [|contradiction].
    destruct (String.eqb_spec (body ++ "." ++ s1) (Reference.encode c key)) as [Heq|];
      [|contradiction].
    unfold Reference.encode in Heq.
    apply last_dot_unique in Heq; auto;
      [|apply enc_string_alphabet; discriminate].
    destruct Heq as [-> ->].
    rewrite dec_claims_enc.
    destruct (String.eqb_spec (Reference.enc_claims c ++ "." ++ s2)
                              (Reference.encode c key)) as [Heq|]; [|reflexivity].
    unfold Reference.encode in Heq. apply append_inj_l in Heq.
    injection Heq as Heq. congruence.
Qed.

(** ** The reference list reader obeys the grammar's contract *)










(** ** The admin guard and the tokens of the login route *)

(** On a header [Bearer <token>] with a token free of spaces, the guard
    is [jwt.verify] on that token. *)
Lemma guard_on_bearer (L : Jwt.Library) (env : option string) (token : string) (now : Z) :
  Jwt.lacks " " token = true ->
  requireAdmin env (Some ("Bearer " ++ token)) now
  = match Jwt.verify token (JWT_SECRET env) now with
    | Some decoded => Next decoded
    | None => Halt (Http.respond 401 (Http.Error "Invalid token"))
    end.
Proof.
  intros Hspace.
  assert (Hprefix : String.prefix "Bearer " ("Bearer " ++ token) = true)
    by (cbn; now destruct token).
  unfold requireAdmin. rewrite Hprefix.
  change ("Bearer " ++ token =? "") with false. cbn [negb orb].
  change (Js.split " " ("Bearer " ++ token)) with ("Bearer" :: Js.split " " token).
  rewrite (split_no_space token Hspace). reflexivity.
Qed.

(** C2.  For every stored admin and a password its hash accepts, login
    answers 200 with a token such that, presented as [Bearer <token>]:
    while fewer than eight hours have passed since it was issued the
    guard lets the request through, and the claim set it attaches has
    the admin's id as subject and the role the token was issued with;
    from the eight-hour expiry on the guard answers 401; and with the
    signature replaced by any other one the guard answers 401. *)
Theorem login_token_round_trip :
  forall (L : Jwt.Library) (env : option string)
         (bcrypt_compare : string -> string -> bool)
         (s : Supabase.store) (authorization : option string)
         (a : Admins.row) (password : string) (now : Z),
    Jwt.Lawful L ->
    keys_unique s ->
    In a (Supabase.admins s) ->
    Admins.email a <> "" ->
    password <> "" ->
    bcrypt_compare password (Admins.password_hash a) = true ->
    exists token,
      fst (post_admin_login env bcrypt_compare
             (login_request authorization (Js.Text (Admins.email a)) (Js.Text password))
             now s)
      = Http.respond 200 (Http.Token token)
      /\ (forall later, (Jwt.seconds later < Jwt.seconds now + eight_hours)%Z ->
            exists admin,
              requireAdmin env (Some ("Bearer " ++ token)) later = Next admin
              /\ Jwt.sub admin = Admins.id a
              /\ Jwt.role admin = Js.or_default (Admins.role a) "admin")
      /\ (forall later, (Jwt.seconds now + eight_hours <= Jwt.seconds later)%Z ->
            requireAdmin env (Some ("Bearer " ++ token)) later
            = Halt (Http.respond 401 (Http.Error "Invalid token")))
      /\ (exists body signature,
            token = body ++ "." ++ signature /\ Jwt.lacks "." signature = true)
      /\ (forall body signature forged later,
            token = body ++ "." ++ signature ->
            Jwt.lacks "." signature = true ->
            Jwt.lacks "." forged = true ->
            Jwt.lacks " " forged = true ->
            forged <> signature ->
            requireAdmin env (Some ("Bearer " ++ body ++ "." ++ forged)) later
            = Halt (Http.respond 401 (Http.Error "Invalid token"))).
Proof.
  intros L env bcrypt_compare s authorization a password now HL Hu Hin Hmail Hpw Hok.
  set (issued := {| Jwt.sub := Admins.id a; Jwt.email := Admins.email a;
                    Jwt.role := Js.or_default (Admins.role a) "admin";
                    Jwt.iat := Jwt.seconds now;
                    Jwt.exp := Some (Jwt.seconds now + eight_hours)%Z |}).
  exists (Jwt.encode issued (JWT_SECRET env)).
  pose proof (Jwt.encode_no_space L HL issued (JWT_SECRET env)) as Hspace.
  pose proof (Jwt.decode_encode L HL issued (JWT_SECRET env)) as Hdec.
  split; [|split; [|split; [|split]]].
  - unfold post_admin_login, login_request.
    cbn [Http.payload Http.login_email Http.login_password Js.truthy Js.template].
    apply String.eqb_neq in Hmail, Hpw. rewrite Hmail, Hpw. cbn [negb orb].
    unfold Supabase.bind. rewrite admins_select_single_run.
    rewrite (single_by_email s a Hu Hin). now rewrite Hok.
  - intros later Hlater. exists issued.
    rewrite (guard_on_bearer L env _ later Hspace).
    unfold Jwt.verify. rewrite Hdec. cbn [Jwt.exp issued].
    apply Z.leb_gt in Hlater. rewrite Hlater. repeat split.
  - intros later Hlater.
    rewrite (guard_on_bearer L env _ later Hspace).
    unfold Jwt.verify. rewrite Hdec. cbn [Jwt.exp issued].
    apply Z.leb_le in Hlater. now rewrite Hlater.
  - apply (Jwt.encode_compact L HL).
  - intros body signature forged later Htoken Hsig Hforged Hclean Hne.
    rewrite Htoken in Hspace, Hdec.
    rewrite !lacks_app in Hspace. apply andb_true_iff in Hspace.
    destruct Hspace as [Hbody _].
    rewrite guard_on_bearer by (rewrite !lacks_app, Hbody, Hclean; reflexivity).
    unfold Jwt.verify.
    rewrite (Jwt.one_signature L HL body signature forged (JWT_SECRET env));
      auto.
    now rewrite Hdec.
Qed.

(** ** Checking the schema invariant on a concrete store *)

Lemma distinct_NoDup (keys : list string) : distinct keys = true -> NoDup keys.
Proof.
  induction keys as [|k keys IH]; simpl; intros H.
  - constructor.
  - apply andb_true_iff in H. destruct H as [Hk Hrest].
    constructor; [|now apply IH].
    intros Hin. apply negb_true_iff in Hk.
    assert (Hex : existsb (String.eqb k) keys = true).
    { apply existsb_exists. exists k. split; [assumption|apply String.eqb_refl]. }
    congruence.
Qed.

Lemma keys_unique_checked (s : Supabase.store) :
  keys_unique_test s = true -> keys_unique s.
Proof.
  unfold keys_unique_test, keys_unique. intros H.
  apply andb_true_iff in H. destruct H as [H Hmail].
  apply andb_true_iff in H. destruct H as [Hcode Hid].
  repeat split; now apply distinct_NoDup.
Qed.

(** ** Banning, then verifying *)

Lemma set_status_run (s : Supabase.store) (r : Profiles.row)
    (authorization : option string) (status : string) (now : Z) :
  keys_unique s ->
  In r (Supabase.profiles s) ->
  fits status = true ->
  set_status status (plain_request authorization (Profiles.unique_code r)) now s
  = (Http.respond 200 (Http.StatusJson (Some status)),
     Supabase.with_profiles
       (map (fun x => if Supabase.eq_unique_code (Profiles.unique_code r) x
                      then mark status now x else x)
            (Supabase.profiles s))
       (Supabase.logged "profiles" Supabase.Update s)).
Proof.
  intros Hu Hin Hfits.
  unfold set_status. open_request.
  unfold Supabase.bind.
  rewrite (update_single_by_code s r (mark status now r));
    [|exact Hu|exact Hin|now apply status_patch_accepted].
  rewrite (rewrite_rows_ext _ _ (mark status now)); [reflexivity|].
  intros x. now apply patched_some, status_patch_accepted.
Qed.

(** The by-id verification of a stored record, for a request carrying
    its external id and a pin of any kind that passes the required-field
    check. *)
Lemma post_verify_value (s : Supabase.store) (r : Profiles.row)
    (authorization : option string) (pin : Js.value) (now : Z) :
  keys_unique s ->
  In r (Supabase.profiles s) ->
  Profiles.admin_id r <> "" ->
  Js.truthy pin = true ->
  fst (post_verify
         (verify_request authorization "" (Js.Text (Profiles.admin_id r)) pin) now s)
  = if banned r then Http.respond 403 (Http.Error "Account is banned")
    else if Js.strict_eq (Js.Text (Profiles.pin r)) pin
         then Http.respond 200
                (Http.Verified "Credentials verified" (Profiles.unique_code r))
         else Http.respond 401 (Http.Error "Invalid credentials").
Proof.
  intros Hu Hin Hid Hpin.
  apply String.eqb_neq in Hid.
  unfold post_verify, verify_request.
  cbn [Http.payload Http.verify_id Http.verify_pin].
  rewrite Hpin. cbn [Js.truthy Js.template]. rewrite Hid. cbn [negb orb].
  unfold Supabase.bind. rewrite select_single_run.
  rewrite (single_by_admin_id s r Hu Hin).
  destruct (banned r); [reflexivity|].
  now destruct (Js.strict_eq (Js.Text (Profiles.pin r)) pin).
Qed.

(** The same, for a pin sent as a non-empty string. *)
Lemma post_verify_found (s : Supabase.store) (r : Profiles.row)
    (authorization : option string) (pin : string) (now : Z) :
  keys_unique s ->
  In r (Supabase.profiles s) ->
  Profiles.admin_id r <> "" ->
  pin <> "" ->
  fst (post_verify
         (verify_request authorization "" (Js.Text (Profiles.admin_id r)) (Js.Text pin))
         now s)
  = if banned r then Http.respond 403 (Http.Error "Account is banned")
    else if Profiles.pin r =? pin
         then Http.respond 200
                (Http.Verified "Credentials verified" (Profiles.unique_code r))
         else Http.respond 401 (Http.Error "Invalid credentials").
Proof.
  intros Hu Hin Hid Hpin.
  apply String.eqb_neq in Hpin.
  apply (post_verify_value s r authorization (Js.Text pin) now Hu Hin Hid).
  cbn. now rewrite Hpin.
Qed.

(** X3.  Once a record is banned, verification by id with its correct
    PIN is answered 403; once it is unbanned again, the same request
    succeeds. *)
Lemma ban_blocks_verification_until_unban :
  forall (s : Supabase.store) (r : Profiles.row) (t1 t2 t3 t4 : Z),
    keys_unique s ->
    In r (Supabase.profiles s) ->
    Profiles.admin_id r <> "" ->
    Profiles.pin r <> "" ->
    let code := Profiles.unique_code r in
    let verify now s' :=
      fst (post_verify
             (verify_request None "" (Js.Text (Profiles.admin_id r))
                (Js.Text (Profiles.pin r))) now s') in
    let s1 := snd (set_status "banned" (plain_request None code) t1 s) in
    let s2 := snd (set_status "active" (plain_request None code) t3 s1) in
    verify t2 s1 = Http.respond 403 (Http.Error "Account is banned")
    /\ verify t4 s2 = Http.respond 200 (Http.Verified "Credentials verified" code).
Proof.
  intros s r t1 t2 t3 t4 Hu Hin Hid Hpin code verify s1 s2.
  assert (Hs1 : s1 = Supabase.with_profiles
                  (map (fun x => if Supabase.eq_unique_code code x
                                 then mark "banned" t1 x else x)
                       (Supabase.profiles s))
                  (Supabase.logged "profiles" Supabase.Update s)).
  { subst s1 code. now rewrite (set_status_run s r None "banned" t1 Hu Hin eq_refl). }
  assert (Hu1 : keys_unique s1).
  { rewrite Hs1. now apply keys_unique_rewritten. }
  assert (Hin1 : In (mark "banned" t1 r) (Supabase.profiles s1)).
  { rewrite Hs1. cbn [Supabase.with_profiles Supabase.profiles].
    apply in_map_iff. exists r. split; [|assumption].
    subst code. unfold Supabase.eq_unique_code. now rewrite String.eqb_refl. }
  assert (Hs2 : s2 = Supabase.with_profiles
                  (map (fun x => if Supabase.eq_unique_code code x
                                 then mark "active" t3 x else x)
                       (Supabase.profiles s1))
                  (Supabase.logged "profiles" Supabase.Update s1)).
  { pose proof (set_status_run s1 (mark "banned" t1 r) None "active" t3 Hu1 Hin1 eq_refl)
      as H.
    change (Profiles.unique_code (mark "banned" t1 r)) with code in H.
    subst s2. now rewrite H. }
  assert (Hu2 : keys_unique s2).
  { rewrite Hs2. now apply keys_unique_rewritten. }
  assert (Hin2 : In (mark "active" t3 (mark "banned" t1 r)) (Supabase.profiles s2)).
  { rewrite Hs2. cbn [Supabase.with_profiles Supabase.profiles].
    apply in_map_iff. exists (mark "banned" t1 r). split; [|assumption].
    subst code. unfold Supabase.eq_unique_code. cbn. now rewrite String.eqb_refl. }
  subst verify. cbv beta. split.
  - pose proof (post_verify_found s1 (mark "banned" t1 r) None (Profiles.pin r) t2
                  Hu1 Hin1 Hid Hpin) as H.
    exact H.
  - pose proof (post_verify_found s2 (mark "active" t3 (mark "banned" t1 r)) None
                  (Profiles.pin r) t4 Hu2 Hin2 Hid Hpin) as H.
    cbn [banned mark Profiles.status Profiles.set_updated_at Profiles.set_nullable
         Profiles.pin Profiles.unique_code Profiles.admin_id] in H.
    change ("active" =? "banned") with false in H.
    rewrite String.eqb_refl in H. exact H.
Qed.

(** * Concrete runs *)

Lemma sample_keys_unique : keys_unique Sample.store.
Proof. apply keys_unique_checked. reflexivity. Qed.

Lemma sample_token_accepted :
  @requireAdmin Reference.tokens None (Some ("Bearer " ++ Sample.token)) 1000
  = Next Sample.session.
Proof. vm_compute. reflexivity. Qed.

(** C1 on the sample: the banned profile, asked with its correct PIN,
    is answered 403. *)
Lemma verify_by_id_outcomes_witness :
  keys_unique Sample.store
  /\ fst (post_verify
            (verify_request None "" (Js.Text "20251001-0000-0002") (Js.Text "54321"))
            0 Sample.store)
     = Http.respond 403 (Http.Error "Account is banned").
Proof.
  split; [exact sample_keys_unique|].
  pose proof (verify_by_id_outcomes Sample.store None (Js.Text "20251001-0000-0002")
                (Js.Text "54321") 0 sample_keys_unique eq_refl eq_refl) as H.
  cbv zeta in H. destruct H as [_ H].
  destruct (H Sample.bob (or_intror (or_introl eq_refl)) eq_refl) as [Hbanned _].
  exact (Hbanned eq_refl).
Defined.

(** C2 on the sample: the token issued at time 0 passes the guard one
    hour later, with the admin's id as subject, and is refused after
    eight hours. *)
Lemma login_token_round_trip_witness :
  exists token,
    fst (@post_admin_login Reference.tokens None Reference.compare
           (login_request None (Js.Text "a@k.io") (Js.Text "Admin@123")) 0 Sample.store)
    = Http.respond 200 (Http.Token token)
    /\ (exists admin,
          @requireAdmin Reference.tokens None (Some ("Bearer " ++ token)) 3600000
          = Next admin
          /\ Jwt.sub admin = "a1" /\ Jwt.role admin = "admin")
    /\ @requireAdmin Reference.tokens None (Some ("Bearer " ++ token)) 28800000
       = Halt (Http.respond 401 (Http.Error "Invalid token")).
Proof.
  destruct (login_token_round_trip Reference.tokens None Reference.compare
              Sample.store None Sample.root "Admin@123" 0
              reference_lawful sample_keys_unique (or_introl eq_refl)
              ltac:(discriminate) ltac:(discriminate) eq_refl)
    as (token & Hlogin & Hfresh & Hstale & _).
  exists token. split; [exact Hlogin|]. split.
  - destruct (Hfresh 3600000%Z ltac:(vm_compute; reflexivity))
      as (admin & Hguard & Hsub & Hrole).
    exists admin. repeat split; assumption.
  - apply Hstale. vm_compute. discriminate.
Defined.

(** C3 on the sample: no password gives 400 and an untouched store; a
    wrong password gives the generic 401. *)
Lemma login_rejections_witness :
  @post_admin_login Reference.tokens None Reference.compare
    (login_request None (Js.Text "a@k.io") Js.Undefined) 0 Sample.store
  = (Http.respond 400 (Http.Error "Email and password are required"), Sample.store)
  /\ fst (@post_admin_login Reference.tokens None Reference.compare
            (login_request None (Js.Text "a@k.io") (Js.Text "guess")) 0 Sample.store)
     = Http.respond 401 (Http.Error "Invalid credentials").
Proof.
  split.
  - exact (proj1 (login_rejections Reference.tokens None Reference.compare Sample.store
                    None (Js.Text "a@k.io") Js.Undefined 0) (or_intror eq_refl)).
  - refine (proj1 (proj2 (login_rejections Reference.tokens None Reference.compare
                            Sample.store None (Js.Text "a@k.io") (Js.Text "guess") 0)
                     "a@k.io" "guess" eq_refl eq_refl _ _ _)).
    + discriminate.
    + discriminate.
    + intros a [<- | []] _. reflexivity.
Defined.

(** C4 on the sample: the banned profile with a wrong pin is answered
    401, and with code, id and pin all right it is answered success. *)
Lemma verify_scoped_outcomes_witness :
  keys_unique Sample.store
  /\ fst (post_verify_scoped
            (verify_request None "bobbobbobbobbob2" (Js.Text "20251001-0000-0002")
               (Js.Text "00000")) 0 Sample.store)
     = Http.respond 401 (Http.Error "Invalid credentials")
  /\ fst (post_verify_scoped
            (verify_request None "bobbobbobbobbob2" (Js.Text "20251001-0000-0002")
               (Js.Text "54321")) 0 Sample.store)
     = Http.respond 200 (Http.Success "Credentials verified").
Proof.
  split; [exact sample_keys_unique|]. split.
  - pose proof (verify_scoped_outcomes Sample.store None "bobbobbobbobbob2"
                  (Js.Text "20251001-0000-0002") (Js.Text "00000") 0
                  sample_keys_unique) as H.
    cbv zeta in H. destruct H as [_ H].
    destruct (H Sample.bob (or_intror (or_introl eq_refl)) eq_refl eq_refl) as [Hwrong _].
    apply Hwrong. discriminate.
  - pose proof (verify_scoped_outcomes Sample.store None "bobbobbobbobbob2"
                  (Js.Text "20251001-0000-0002") (Js.Text "54321") 0
                  sample_keys_unique) as H.
    cbv zeta in H. destruct H as [_ H].
    destruct (H Sample.bob (or_intror (or_introl eq_refl)) eq_refl eq_refl) as [_ Hright].
    apply Hright. reflexivity.
Defined.



(** C6 on the sample: with the right current PIN and a new five-digit
    PIN the stored pin is the new one and the stamp is the request's. *)
Lemma pin_change_outcomes_witness :
  keys_unique Sample.store
  /\ fst (put_pin (pin_request None "annannannannann1" (Js.Text "24680") (Js.Text "12345"))
            2000 Sample.store)
     = Http.respond 200 (Http.Success "PIN updated successfully")
  /\ In (repin "24680" 2000 Sample.ann)
        (Supabase.profiles
           (snd (put_pin (pin_request None "annannannannann1" (Js.Text "24680")
                            (Js.Text "12345")) 2000 Sample.store)))
  /\ earlier (Profiles.updated_at Sample.ann)
             (Profiles.updated_at (repin "24680" 2000 Sample.ann)).
Proof.
  split; [exact sample_keys_unique|].
  pose proof (pin_change_outcomes Sample.store None "annannannannann1"
                (Js.Text "24680") (Js.Text "12345") 2000 sample_keys_unique) as H.
  cbv zeta in H. destruct H as [_ H].
  destruct (H Sample.ann (or_introl eq_refl) eq_refl) as [_ Hmatch].
  destruct (Hmatch eq_refl "24680" eq_refl eq_refl)
    as (Hanswer & _ & Hin & _ & _ & Hlater).
  split; [exact Hanswer|]. split; [exact Hin|].
  apply Hlater. vm_compute. reflexivity.
Defined.

(** C7 on the sample: the six-megabyte image is answered 400 and the
    PDF 500, the store being left as it was both times. *)
Lemma upload_rejections_witness :
  post_upload Reference.extname true
    (upload_request None "annannannannann1" (Some Sample.big_image)) 0 0 0 Sample.store
  = (Http.respond 400 (Http.Error "File too large. Maximum size is 5MB."), Sample.store)
  /\ post_upload Reference.extname true
       (upload_request None "annannannannann1" (Some Sample.document)) 0 0 0 Sample.store
     = (Http.respond 500 (Http.Error "Internal server error"), Sample.store).
Proof.
  split.
  - pose proof (upload_rejections Reference.extname true Sample.store None
                  "annannannannann1" Sample.big_image 0 0 0) as H.
    cbv zeta in H. destruct H as [H _].
    destruct (H ltac:(vm_compute; reflexivity)) as (Hstore & _ & Hanswer).
    rewrite (surjective_pairing (post_upload _ _ _ _ _ _ _)).
    now rewrite Hstore, (Hanswer eq_refl eq_refl).
  - pose proof (upload_rejections Reference.extname true Sample.store None
                  "annannannannann1" Sample.document 0 0 0) as H.
    cbv zeta in H. destruct H as [_ H].
    exact (H eq_refl).
Defined.

(** The claim of C7 as worded fails on the six-megabyte image: the answer
    is the 400 of the explicit size branch, not an internal error. *)
Lemma oversized_upload_is_not_internal_error :
  Http.code (fst (post_upload Reference.extname true
                    (upload_request None "annannannannann1" (Some Sample.big_image))
                    0 0 0 Sample.store)) = 400
  /\ Http.code (fst (post_upload Reference.extname true
                       (upload_request None "annannannannann1" (Some Sample.big_image))
                       0 0 0 Sample.store)) <> 500.
Proof.
  split; [reflexivity|discriminate].
Qed.


(** C9 on the sample: fetching the profile by its code shows its PIN. *)
Lemma public_fetch_discloses_pin_witness :
  keys_unique Sample.store
  /\ exists profile,
       fst (get_profile (plain_request None "annannannannann1") 0 Sample.store)
       = Http.respond 200 (Http.ProfileJson profile)
       /\ Http.pin profile = "12345".
Proof.
  split; [exact sample_keys_unique|].
  exact (public_fetch_discloses_pin Sample.store Sample.ann None 0
           sample_keys_unique (or_introl eq_refl)).
Defined.

(** C10 on the sample: a new PIN that is no PIN at all is stored, a
    number is stored as its text, a change without a new PIN succeeds
    and leaves the stored pin, and an owner update carrying a pin of
    four digits leaves it too. *)
Lemma pin_change_applies_no_format_check_witness :
  keys_unique Sample.store
  /\ stored_pin "annannannannann1"
       (snd (put_pin (pin_request None "annannannannann1" (Js.Text "not a pin")
                        (Js.Text "12345")) 2000 Sample.store))
     = Some "not a pin"
  /\ stored_pin "annannannannann1"
       (snd (put_pin (pin_request None "annannannannann1" (Js.Number "7")
                        (Js.Text "12345")) 2000 Sample.store))
     = Some "7"
  /\ stored_pin "annannannannann1"
       (snd (put_pin (pin_request None "annannannannann1" Js.Undefined
                        (Js.Text "12345")) 2000 Sample.store))
     = Some "12345"
  /\ stored_pin "annannannannann1"
       (snd (put_profile (update_request None "annannannannann1" Sample.long_status)
               2000 Sample.store))
     = Some "12345".
Proof.
  split; [exact sample_keys_unique|].
  pose proof (pin_change_applies_no_format_check Sample.store Sample.ann None
                (Js.Text "12345") 2000 sample_keys_unique (or_introl eq_refl) eq_refl) as H.
  cbv zeta in H. destruct H as (Hvalue & (_ & _ & Hundefined) & _ & Howner).
  destruct (Hvalue (Js.Text "not a pin") ltac:(discriminate) ltac:(discriminate))
    as (_ & _ & Htext).
  destruct (Hvalue (Js.Number "7") ltac:(discriminate) ltac:(discriminate))
    as (_ & _ & Hnumber).
  destruct (Howner Sample.long_status) as (Hkept & _).
  change (Profiles.unique_code Sample.ann) with "annannannannann1"
    in Htext, Hnumber, Hundefined, Hkept.
  split; [exact Htext|]. split; [exact Hnumber|]. split; [exact Hundefined|].
  exact (Hkept eq_refl).
Defined.

(** The claim of C10 as worded fails for a request without [newPin]: the
    answer is the success message, and the stored pin is the old one,
    not what the request carried. *)
Lemma pin_change_without_new_pin_keeps_pin :
  fst (put_pin (pin_request None "annannannannann1" Js.Undefined (Js.Text "12345"))
         2000 Sample.store)
  = Http.respond 200 (Http.Success "PIN updated successfully")
  /\ stored_pin "annannannannann1"
       (snd (put_pin (pin_request None "annannannannann1" Js.Undefined (Js.Text "12345"))
               2000 Sample.store))
     = stored_pin "annannannannann1" Sample.store
  /\ stored_pin "annannannannann1" Sample.store = Some "12345"
  /\ Js.strict_eq (Js.Text "12345") Js.Undefined = false
  /\ "12345" <> Js.template Js.Undefined.
Proof.
  repeat split. discriminate.
Qed.

(** * Further properties of the routes *)

(** ** What an UPDATE, a DELETE and an INSERT do to the keys *)

Lemma write_keeps_keys (e : Supabase.entry) (r r' : Profiles.row) :
  Supabase.write e r = Some r' ->
  Profiles.unique_code r' = Profiles.unique_code r
  /\ Profiles.admin_id r' = Profiles.admin_id r
  /\ Profiles.uuid r' = Profiles.uuid r.
Proof.
  destruct e as [c v|t]; [|intros H; injection H as <-; now repeat split].
  destruct c, v as [| |[|]| |]; cbn [Supabase.write]; intros H;
    try discriminate;
    try (destruct (Postgres.character_varying _ _); [|discriminate]);
    injection H as <-; now repeat split.
Qed.

Lemma patch_keeps_keys (p : list Supabase.entry) (r r' : Profiles.row) :
  Supabase.patch p r = Some r' ->
  Profiles.unique_code r' = Profiles.unique_code r
  /\ Profiles.admin_id r' = Profiles.admin_id r
  /\ Profiles.uuid r' = Profiles.uuid r.
Proof.
  revert r. induction p as [|e p IH]; intros r H; cbn in H.
  - injection H as <-. now repeat split.
  - destruct (Supabase.write e r) as [r1|] eqn:He; [|discriminate].
    destruct (write_keeps_keys e r r1 He) as (H1 & H2 & H3).
    destruct (IH r1 H) as (H4 & H5 & H6).
    repeat split; congruence.
Qed.

Lemma update_rows_keeps_keys (f : Profiles.row -> bool) (p : list Supabase.entry)
    (rows table' changed : list Profiles.row) :
  Supabase.update_rows f p rows = Some (table', changed) ->
  map Profiles.unique_code table' = map Profiles.unique_code rows
  /\ map Profiles.admin_id table' = map Profiles.admin_id rows.
Proof.
  revert table' changed.
  induction rows as [|x rows IH]; intros table' changed H; cbn in H.
  - injection H as <- <-. now split.
  - destruct (Supabase.update_rows f p rows) as [[t c]|] eqn:Hrest; [|discriminate].
    destruct (IH t c eq_refl) as [H1 H2].
    destruct (f x).
    + destruct (Supabase.patch p x) as [x'|] eqn:Hp; [|discriminate].
      injection H as <- <-.
      destruct (patch_keeps_keys p x x' Hp) as (H3 & H4 & _).
      cbn. split; congruence.
    + injection H as <- <-. cbn. split; congruence.
Qed.

(** An UPDATE that selects no row changes nothing and returns nothing. *)
Lemma update_rows_none_selected (f : Profiles.row -> bool) (p : list Supabase.entry)
    (rows : list Profiles.row) :
  (forall x, In x rows -> f x = false) ->
  Supabase.update_rows f p rows = Some (rows, []).
Proof.
  induction rows as [|x rows IH]; intros Hno; cbn.
  - reflexivity.
  - rewrite IH by (intros y Hy; apply Hno; now right).
    now rewrite (Hno x (or_introl eq_refl)).
Qed.

Lemma update_single_none_selected (f : Profiles.row -> bool) (p : list Supabase.entry)
    (s : Supabase.store) :
  (forall x, In x (Supabase.profiles s) -> f x = false) ->
  Supabase.update_single f p s = (None, Supabase.logged "profiles" Supabase.Update s).
Proof.
  intros Hno.
  unfold Supabase.update_single, Supabase.bind, Supabase.record,
    Supabase.read_profiles, Supabase.ret.
  cbn [Supabase.profiles Supabase.logged].
  now rewrite (update_rows_none_selected f p _ Hno).
Qed.

Lemma NoDup_map_filter {A : Type} (key : A -> string) (f : A -> bool) (rows : list A) :
  NoDup (map key rows) -> NoDup (map key (filter f rows)).
Proof.
  induction rows as [|x rows IH]; cbn; intros H; [constructor|].
  apply NoDup_cons_iff in H. destruct H as [Hx H].
  destruct (f x); cbn; [|now apply IH].
  constructor; [|now apply IH].
  intros Hin. apply Hx.
  apply in_map_iff in Hin. destruct Hin as (y & Hy & Hin).
  apply filter_In in Hin. rewrite <- Hy. apply in_map. tauto.
Qed.

Lemma NoDup_snoc {B : Type} (l : list B) (a : B) :
  NoDup l -> ~ In a l -> NoDup (l ++ [a]).
Proof.
  induction l as [|x l IH]; cbn; intros Hnd Hout.
  - constructor; [intros []|constructor].
  - apply NoDup_cons_iff in Hnd. destruct Hnd as [Hx Hnd].
    constructor.
    + intros Hin. apply in_app_or in Hin. destruct Hin as [Hin|[<-|[]]].
      * contradiction.
      * apply Hout. now left.
    + apply IH; [assumption|]. intros Hin. apply Hout. now right.
Qed.

Lemma NoDup_map_snoc {A : Type} (key : A -> string) (rows : list A) (x : A) :
  NoDup (map key rows) ->
  existsb (fun r => key r =? key x) rows = false ->
  NoDup (map key (rows ++ [x])).
Proof.
  intros Hnd Hfresh.
  rewrite map_app. cbn.
  apply NoDup_snoc; [assumption|].
  intros Hin. apply in_map_iff in Hin. destruct Hin as (y & Hy & Hin).
  assert (Hex : existsb (fun r => key r =? key x) rows = true).
  { apply existsb_exists. exists y. split; [assumption|]. now apply String.eqb_eq. }
  congruence.
Qed.

(** ** The schema invariant along a handler *)

(** A computation that never breaks the UNIQUE constraints. *)
Definition keeps {A : Type} (m : Supabase.App A) : Prop :=
  forall s, keys_unique s -> keys_unique (snd (m s)).

Lemma keys_unique_same_keys (s s' : Supabase.store) :
  map Profiles.unique_code (Supabase.profiles s')
  = map Profiles.unique_code (Supabase.profiles s) ->
  map Profiles.admin_id (Supabase.profiles s')
  = map Profiles.admin_id (Supabase.profiles s) ->
  Supabase.admins s' = Supabase.admins s ->
  keys_unique s -> keys_unique s'.
Proof.
  unfold keys_unique. intros -> -> ->. tauto.
Qed.

Lemma keeps_ret {A : Type} (a : A) : keeps (Supabase.ret a).
Proof. intros s H. exact H. Qed.

Lemma keeps_bind {A B : Type} (m : Supabase.App A) (k : A -> Supabase.App B) :
  keeps m -> (forall a, keeps (k a)) -> keeps (Supabase.bind m k).
Proof.
  intros Hm Hk s H. unfold Supabase.bind.
  specialize (Hm s H). destruct (m s) as [a s1]. now apply Hk.
Qed.

Lemma keeps_select_single (f : Profiles.row -> bool) : keeps (Supabase.select_single f).
Proof. intros s H. exact H. Qed.

Lemma keeps_admins_select_single (f : Admins.row -> bool) :
  keeps (Supabase.admins_select_single f).
Proof. intros s H. exact H. Qed.

Lemma keeps_count_where (f : Profiles.row -> bool) : keeps (count_where f).
Proof. intros s H. exact H. Qed.

Lemma keeps_update_single (f : Profiles.row -> bool) (p : list Supabase.entry) :
  keeps (Supabase.update_single f p).
Proof.
  intros s H.
  unfold Supabase.update_single, Supabase.bind, Supabase.record,
    Supabase.read_profiles, Supabase.write_profiles, Supabase.ret.
  cbn [Supabase.profiles Supabase.logged].
  destruct (Supabase.update_rows f p (Supabase.profiles s)) as [[t c]|] eqn:Hup;
    [|exact H].
  destruct (update_rows_keeps_keys f p _ t c Hup) as [H1 H2].
  destruct c as [|r' [|r'' c]]; try exact H.
  now apply (keys_unique_same_keys s).
Qed.

Lemma keeps_update_many (f : Profiles.row -> bool) (p : list Supabase.entry) :
  keeps (Supabase.update_many f p).
Proof.
  intros s H.
  unfold Supabase.update_many, Supabase.bind, Supabase.record,
    Supabase.read_profiles, Supabase.write_profiles, Supabase.ret.
  cbn [Supabase.profiles Supabase.logged].
  destruct (Supabase.update_rows f p (Supabase.profiles s)) as [[t c]|] eqn:Hup;
    [|exact H].
  destruct (update_rows_keeps_keys f p _ t c Hup) as [H1 H2].
  now apply (keys_unique_same_keys s).
Qed.

Lemma keeps_delete_many (f : Profiles.row -> bool) : keeps (Supabase.delete_many f).
Proof.
  intros s (H1 & H2 & H3). unfold keys_unique. cbn.
  repeat split; try assumption; now apply NoDup_map_filter.
Qed.

Lemma keeps_update_in (G : Postgrest.Grammar) (values : list Js.value)
    (p : list Supabase.entry) :
  keeps (Supabase.update_in values p).
Proof.
  unfold Supabase.update_in.
  destruct (Supabase.in_unique_code values);
    [apply keeps_update_many|intros s H; exact H].
Qed.

Lemma keeps_delete_in (G : Postgrest.Grammar) (values : list Js.value) :
  keeps (Supabase.delete_in values).
Proof.
  unfold Supabase.delete_in.
  destruct (Supabase.in_unique_code values);
    [apply keeps_delete_many|intros s H; exact H].
Qed.

(** One step of a proof that a handler keeps the invariant. *)
Ltac keeps_step :=
  first
    [ apply keeps_ret
    | apply keeps_select_single
    | apply keeps_admins_select_single
    | apply keeps_count_where
    | apply keeps_update_single
    | apply keeps_update_many
    | apply keeps_delete_many
    | apply keeps_update_in
    | apply keeps_delete_in
    | apply keeps_bind; [|intros ?]
    | match goal with
      | |- keeps (if ?b then _ else _) => destruct b
      | |- keeps (match ?x with _ => _ end) => destruct x
      end ].

Lemma keeps_admin_only {B : Type} (L : Jwt.Library) (env : option string)
    (handler : Http.request B -> Z -> Supabase.App Http.response)
    (req : Http.request B) (now : Z) :
  keeps (handler req now) -> keeps (admin_only env handler req now).
Proof.
  intros H. unfold admin_only. destruct (requireAdmin _ _ _); [exact H|apply keeps_ret].
Qed.

Lemma keeps_set_status (status : string) (req : Http.request unit) (now : Z) :
  keeps (set_status status req now).
Proof. unfold set_status. repeat keeps_step. Qed.

Lemma keeps_bulk_operation (G : Postgrest.Grammar) (req : Http.request Http.bulk_body)
    (now : Z) :
  keeps (bulk_operation req now).
Proof. unfold bulk_operation. cbv zeta. repeat keeps_step. Qed.

Lemma keeps_upload_photo (code : string) (file : option Multer.file) (now : Z) :
  keeps (upload_photo code file now).
Proof. unfold upload_photo. repeat keeps_step. Qed.

(** X12.  No route breaks the UNIQUE constraints of the schema: after
    the owner update, the PIN change, the upload, a ban or unban, the
    bulk operation, a deletion, the dashboard counts, the login and
    each of the read-only routes, whatever the request and whatever the
    answer, [unique_code], [admin_id] and the admins' [email] are still
    without repetition if they were before; and so they are after a
    creation. *)
Theorem routes_keep_keys_unique :
  forall (L : Jwt.Library) (G : Postgrest.Grammar) (env : option string)
         (bcrypt_compare : string -> string -> bool)
         (path_extname : string -> string) (limit_at_cap : bool)
         (s : Supabase.store) (now : Z),
    keys_unique s ->
    (forall req, keys_unique (snd (put_profile req now s)))
    /\ (forall req, keys_unique (snd (put_pin req now s)))
    /\ (forall req named rand,
          keys_unique (snd (post_upload path_extname limit_at_cap req named rand now s)))
    /\ (forall req, keys_unique (snd (post_ban env req now s)))
    /\ (forall req, keys_unique (snd (post_unban env req now s)))
    /\ (forall req, keys_unique (snd (post_bulk env req now s)))
    /\ (forall req, keys_unique (snd (delete_profile_route env req now s)))
    /\ (forall req shift, keys_unique (snd (get_stats env req now shift s)))
    /\ (forall req, keys_unique (snd (post_admin_login env bcrypt_compare req now s)))
    /\ (forall req, keys_unique (snd (get_profile req now s)))
    /\ (forall req, keys_unique (snd (post_verify req now s)))
    /\ (forall req, keys_unique (snd (post_verify_scoped req now s)))
    /\ (forall req c uuid stamp sent,
          keys_unique
            (Inserting.tables
               (snd (post_profiles env req now c uuid stamp
                       {| Inserting.tables := s; Inserting.inserts := sent |})))).
Proof.
  intros L G env bcrypt_compare path_extname limit_at_cap s now H.
  repeat match goal with |- _ /\ _ => split end; intros req.
  - revert s H. change (keeps (put_profile req now)).
    unfold put_profile. repeat keeps_step.
  - revert s H. change (keeps (put_pin req now)).
    unfold put_pin. repeat keeps_step.
  - intros named rand. revert s H.
    change (keeps (post_upload path_extname limit_at_cap req named rand now)).
    unfold post_upload. destruct (upload_single _ _ _ _ _ _);
      [apply keeps_ret|apply keeps_upload_photo].
  - revert s H. apply keeps_admin_only, keeps_set_status.
  - revert s H. apply keeps_admin_only, keeps_set_status.
  - revert s H. apply keeps_admin_only, keeps_bulk_operation.
  - revert s H. apply keeps_admin_only.
    unfold delete_profile. repeat keeps_step.
  - intros shift. revert s H. change (keeps (get_stats env req now shift)).
    unfold get_stats, dashboard_stats.
    destruct (requireAdmin _ _ _); repeat keeps_step.
  - revert s H. change (keeps (post_admin_login env bcrypt_compare req now)).
    unfold post_admin_login. repeat keeps_step.
  - revert s H. change (keeps (get_profile req now)).
    unfold get_profile. repeat keeps_step.
  - revert s H. change (keeps (post_verify req now)).
    unfold post_verify. repeat keeps_step.
  - revert s H. change (keeps (post_verify_scoped req now)).
    unfold post_verify_scoped. repeat keeps_step.
  - intros c uuid stamp sent.
    unfold post_profiles. destruct (requireAdmin _ _ _); [|exact H].
    unfold create_profile, Inserting.insert_single.
    cbn [Inserting.tables Inserting.inserts].
    set (row := inserted_row (Http.payload req) c uuid stamp).
    destruct (existsb (fun r => Profiles.uuid r =? Profiles.uuid row) (Supabase.profiles s));
      [exact H|].
    destruct (existsb (Supabase.eq_admin_id (Profiles.admin_id row)) (Supabase.profiles s))
      eqn:Hid; [exact H|].
    destruct (existsb (Supabase.eq_unique_code (Profiles.unique_code row)) (Supabase.profiles s))
      eqn:Hcode; [exact H|].
    cbn [orb snd Inserting.tables].
    destruct H as (H1 & H2 & H3).
    unfold keys_unique. cbn [Supabase.with_profiles Supabase.profiles Supabase.admins].
    repeat split; [| |assumption].
    + apply NoDup_map_snoc; assumption.
    + apply NoDup_map_snoc; assumption.
Qed.

(** ** The admin guard *)

(** X1.  The guard lets a request through only on a header that starts
    with [Bearer ], whose second space-separated piece is a token that
    decodes under the server's secret to the claim set the guard
    attaches, and whose expiry, when it has one, lies after the time of
    the request: an expired token never passes. *)
Theorem guard_passes_only_live_tokens :
  forall (L : Jwt.Library) (env : option string) (header : option string)
         (now : Z) (admin : Jwt.claims),
    requireAdmin env header now = Next admin ->
    exists h token,
      header = Some h
      /\ String.prefix "Bearer " h = true
      /\ Js.index (Js.split " " h) 1 = Some token
      /\ Jwt.decode token (JWT_SECRET env) = Some admin
      /\ (forall e, Jwt.exp admin = Some e -> (Jwt.seconds now < e)%Z).
Proof.
  intros L env header now admin H.
  unfold requireAdmin in H.
  destruct header as [h|]; [|discriminate].
  destruct (h =? ""); [discriminate|]. cbn [orb] in H.
  destruct (String.prefix "Bearer " h) eqn:Hprefix; [|discriminate].
  cbn [negb] in H.
  destruct (Js.index (Js.split " " h) 1) as [token|] eqn:Htoken; [|discriminate].
  unfold Jwt.verify in H.
  destruct (Jwt.decode token (JWT_SECRET env)) as [c|] eqn:Hdec; [|discriminate].
  exists h, token.
  destruct (Jwt.exp c) as [e|] eqn:Hexp.
  - destruct (e <=? Jwt.seconds now)%Z eqn:Hle; [discriminate|].
    injection H as <-. repeat split; try assumption.
    intros e' He'. rewrite Hexp in He'. injection He' as <-.
    now apply Z.leb_gt.
  - injection H as <-. repeat split; try assumption.
    intros e' He'. congruence.
Qed.

(** Whatever the guard answers itself is a 401. *)
Lemma guard_halts_with_401 (L : Jwt.Library) (env : option string)
    (header : option string) (now : Z) (r : Http.response) :
  requireAdmin env header now = Halt r ->
  exists message, r = Http.respond 401 (Http.Error message).
Proof.
  unfold requireAdmin. intros H.
  repeat match type of H with
         | match ?x with _ => _ end = _ => destruct x
         | (if ?b then _ else _) = _ => destruct b
         end;
    try discriminate; injection H as <-; eexists; reflexivity.
Qed.

(** X2.  When the guard does not let a request through, every route
    behind it (ban, unban, bulk, delete, create, stats) answers 401 and
    leaves the store as it was, journal included: no database call is
    made, nothing is inserted. *)
Theorem admin_routes_closed_without_token :
  forall (L : Jwt.Library) (G : Postgrest.Grammar) (env : option string)
         (authorization : option string) (now : Z),
    (forall admin, requireAdmin env authorization now <> Next admin) ->
    exists message,
      (forall code s,
          post_ban env (plain_request authorization code) now s
          = (Http.respond 401 (Http.Error message), s)
          /\ post_unban env (plain_request authorization code) now s
             = (Http.respond 401 (Http.Error message), s)
          /\ delete_profile_route env (plain_request authorization code) now s
             = (Http.respond 401 (Http.Error message), s))
      /\ (forall action codes s,
             post_bulk env (bulk_request authorization action codes) now s
             = (Http.respond 401 (Http.Error message), s))
      /\ (forall b c uuid stamp w,
             post_profiles env (create_request authorization b) now c uuid stamp w
             = (Plain (Http.respond 401 (Http.Error message)), w))
      /\ (forall shift s,
             get_stats env (plain_request authorization "") now shift s
             = (Plain (Http.respond 401 (Http.Error message)), s)).
Proof.
  intros L G env authorization now Hclosed.
  destruct (requireAdmin env authorization now) as [admin|r] eqn:Hguard.
  - now destruct (Hclosed admin).
  - destruct (guard_halts_with_401 L env authorization now r Hguard) as [message ->].
    exists message.
    unfold post_ban, post_unban, delete_profile_route, post_bulk, admin_only,
      post_profiles, get_stats.
    unfold plain_request, bulk_request, create_request. cbn [Http.authorization].
    rewrite Hguard. repeat split.
Qed.

(** ** Banning and unbanning *)

Lemma mark_mark (status1 status2 : string) (t1 t2 : Z) (x : Profiles.row) :
  mark status2 t2 (mark status1 t1 x) = mark status2 t2 x.
Proof. now destruct x. Qed.

(** The ban and unban routes on a stored record, once past the guard. *)
Lemma status_route_run (L : Jwt.Library) (env : option string) (s : Supabase.store)
    (r : Profiles.row) (authorization : option string) (admin : Jwt.claims)
    (status : string) (now : Z) :
  requireAdmin env authorization now = Next admin ->
  keys_unique s ->
  In r (Supabase.profiles s) ->
  fits status = true ->
  admin_only env (set_status status) (plain_request authorization (Profiles.unique_code r))
    now s
  = (Http.respond 200 (Http.StatusJson (Some status)),
     Supabase.with_profiles
       (map (fun x => if Supabase.eq_unique_code (Profiles.unique_code r) x
                      then mark status now x else x)
            (Supabase.profiles s))
       (Supabase.logged "profiles" Supabase.Update s)).
Proof.
  intros Hguard Hu Hin Hfits.
  unfold admin_only.
  change (Http.authorization (plain_request authorization (Profiles.unique_code r)))
    with authorization.
  rewrite Hguard. now apply set_status_run.
Qed.

(** X4.  For a stored record and an admitted admin, the ban route
    answers 200 with status [banned] and rewrites the status and the
    stamp of that record alone; banning again, or unbanning afterwards,
    leaves the table exactly as the later call alone would have: a ban
    is idempotent and an unban leaves no trace of the ban. *)
Theorem ban_and_unban_compose :
  forall (L : Jwt.Library) (env : option string) (s : Supabase.store)
         (r : Profiles.row) (authorization : option string)
         (admin1 admin2 : Jwt.claims) (t1 t2 : Z),
    requireAdmin env authorization t1 = Next admin1 ->
    requireAdmin env authorization t2 = Next admin2 ->
    keys_unique s ->
    In r (Supabase.profiles s) ->
    let req := plain_request authorization (Profiles.unique_code r) in
    let banned_once := snd (post_ban env req t1 s) in
    fst (post_ban env req t1 s) = Http.respond 200 (Http.StatusJson (Some "banned"))
    /\ Supabase.profiles banned_once
       = map (fun x => if Supabase.eq_unique_code (Profiles.unique_code r) x
                       then mark "banned" t1 x else x)
             (Supabase.profiles s)
    /\ fst (post_ban env req t2 banned_once)
       = Http.respond 200 (Http.StatusJson (Some "banned"))
    /\ Supabase.profiles (snd (post_ban env req t2 banned_once))
       = Supabase.profiles (snd (post_ban env req t2 s))
    /\ fst (post_unban env req t2 banned_once)
       = Http.respond 200 (Http.StatusJson (Some "active"))
    /\ Supabase.profiles (snd (post_unban env req t2 banned_once))
       = Supabase.profiles (snd (post_unban env req t2 s)).
Proof.
  intros L env s r authorization admin1 admin2 t1 t2 Hg1 Hg2 Hu Hin req banned_once.
  assert (Hs1 : post_ban env req t1 s = _)
    by exact (status_route_run L env s r authorization admin1 "banned" t1 Hg1 Hu Hin
                eq_refl).
  assert (Honce : banned_once = snd (post_ban env req t1 s)) by reflexivity.
  rewrite Hs1 in Honce. cbn [snd] in Honce.
  assert (Hu1 : keys_unique banned_once).
  { rewrite Honce. now apply keys_unique_rewritten. }
  assert (Hin1 : In (mark "banned" t1 r) (Supabase.profiles banned_once)).
  { rewrite Honce. cbn [Supabase.with_profiles Supabase.profiles].
    apply in_map_iff. exists r. split; [|assumption].
    unfold Supabase.eq_unique_code. now rewrite String.eqb_refl. }
  assert (Hagain : forall status, fits status = true ->
    admin_only env (set_status status) req t2 banned_once
    = (Http.respond 200 (Http.StatusJson (Some status)),
       Supabase.with_profiles
         (map (fun x => if Supabase.eq_unique_code (Profiles.unique_code r) x
                        then mark status t2 x else x)
              (Supabase.profiles banned_once))
         (Supabase.logged "profiles" Supabase.Update banned_once))).
  { intros status Hfits.
    exact (status_route_run L env banned_once (mark "banned" t1 r) authorization admin2
             status t2 Hg2 Hu1 Hin1 Hfits). }
  assert (Hfresh : forall status, fits status = true ->
    admin_only env (set_status status) req t2 s = _)
    by (intros status Hfits;
        exact (status_route_run L env s r authorization admin2 status t2 Hg2 Hu Hin
                 Hfits)).
  assert (Htwice : forall status,
    map (fun x => if Supabase.eq_unique_code (Profiles.unique_code r) x
                  then mark status t2 x else x)
        (Supabase.profiles banned_once)
    = map (fun x => if Supabase.eq_unique_code (Profiles.unique_code r) x
                    then mark status t2 x else x)
          (Supabase.profiles s)).
  { intros status. rewrite Honce. cbn [Supabase.with_profiles Supabase.profiles].
    rewrite map_map. apply map_ext. intros x.
    destruct (Supabase.eq_unique_code (Profiles.unique_code r) x) eqn:Hx.
    - change (Supabase.eq_unique_code (Profiles.unique_code r) (mark "banned" t1 x))
        with (Supabase.eq_unique_code (Profiles.unique_code r) x).
      rewrite Hx. apply mark_mark.
    - now rewrite Hx. }
  unfold post_ban, post_unban in *.
  rewrite Hs1, !Hagain, !Hfresh by reflexivity.
  cbn [fst snd Supabase.with_profiles Supabase.profiles].
  rewrite !Htwice. repeat split.
  now rewrite Honce.
Qed.

(** ** Writing to a code that no record has *)

(** X5.  An owner update, a ban or unban and an upload addressed to a
    public code that no record has are answered 400 with the database's
    error (not 404) and leave both tables as they were. *)
Theorem writes_to_unknown_code_fail :
  forall (s : Supabase.store) (authorization : option string) (code : string) (now : Z),
    (forall r, In r (Supabase.profiles s) -> Profiles.unique_code r <> code) ->
    (forall b,
        put_profile (update_request authorization code b) now s
        = (Http.respond 400 Http.DatabaseError,
           Supabase.logged "profiles" Supabase.Update s))
    /\ (forall status,
          set_status status (plain_request authorization code) now s
          = (Http.respond 400 Http.DatabaseError,
             Supabase.logged "profiles" Supabase.Update s))
    /\ (forall file,
          upload_photo code (Some file) now s
          = (Http.respond 400 Http.DatabaseError,
             Supabase.logged "profiles" Supabase.Update s)).
Proof.
  intros s authorization code now Hnone.
  assert (Hno : forall x, In x (Supabase.profiles s) ->
                          Supabase.eq_unique_code code x = false).
  { intros x Hx. apply String.eqb_neq. now apply Hnone. }
  repeat split; intros.
  - unfold put_profile. open_request. unfold Supabase.bind.
    now rewrite (update_single_none_selected _ _ s Hno).
  - unfold set_status. open_request. unfold Supabase.bind.
    now rewrite (update_single_none_selected _ _ s Hno).
  - unfold upload_photo. unfold Supabase.bind.
    now rewrite (update_single_none_selected _ _ s Hno).
Qed.

(** ** Changing a record, then verifying *)

Lemma five_digits_nonempty (s : string) : Js.five_digits s = true -> s <> "".
Proof. intros H ->. discriminate. Qed.

(** The scoped verification of a stored record, for a request carrying
    its public code, its external id and a pin of any kind. *)
Lemma post_verify_scoped_value (s : Supabase.store) (r : Profiles.row)
    (authorization : option string) (pin : Js.value) (now : Z) :
  keys_unique s ->
  In r (Supabase.profiles s) ->
  fst (post_verify_scoped
         (verify_request authorization (Profiles.unique_code r)
            (Js.Text (Profiles.admin_id r)) pin) now s)
  = if Profiles.pin r =? Js.template pin
    then Http.respond 200 (Http.Success "Credentials verified")
    else Http.respond 401 (Http.Error "Invalid credentials").
Proof.
  intros Hu Hin.
  unfold post_verify_scoped. open_request. first_select.
  cbn [Js.template].
  destruct (Profiles.pin r =? Js.template pin) eqn:Hpin.
  - rewrite (single_unique Profiles.unique_code _ _ r); [reflexivity| | | |].
    + apply Hu.
    + assumption.
    + unfold Supabase.both, Supabase.eq_unique_code, Supabase.eq_admin_id, Supabase.eq_pin.
      now rewrite !String.eqb_refl, Hpin.
    + intros x _ Hx. unfold Supabase.both in Hx.
      apply andb_true_iff in Hx. destruct Hx as [Hx _]. now apply String.eqb_eq in Hx.
  - rewrite single_none; [reflexivity|].
    intros x Hx.
    destruct (Supabase.both _ _ x) eqn:Hf; [|reflexivity].
    unfold Supabase.both in Hf.
    apply andb_true_iff in Hf. destruct Hf as [Hcode Hrest].
    apply andb_true_iff in Hrest. destruct Hrest as [_ Hxpin].
    assert (Hxr : In x [r]).
    { rewrite <- (filter_by_code s r Hu Hin). apply filter_In. now split. }
    destruct Hxr as [<- | []].
    unfold Supabase.eq_pin in Hxpin. congruence.
Qed.

(** The same, for a pin sent as a string. *)
Lemma post_verify_scoped_found (s : Supabase.store) (r : Profiles.row)
    (authorization : option string) (pin : string) (now : Z) :
  keys_unique s ->
  In r (Supabase.profiles s) ->
  fst (post_verify_scoped
         (verify_request authorization (Profiles.unique_code r)
            (Js.Text (Profiles.admin_id r)) (Js.Text pin)) now s)
  = if Profiles.pin r =? pin
    then Http.respond 200 (Http.Success "Credentials verified")
    else Http.respond 401 (Http.Error "Invalid credentials").
Proof.
  exact (post_verify_scoped_value s r authorization (Js.Text pin) now).
Qed.

(** X6.  The owner update writes [status] from the body: for a banned
    record, whose by-id verification is answered 403, an uncredentialed
    update carrying [status: 'active'] lifts the ban, and the same
    verification with the record's pin then succeeds. *)
Theorem owner_update_lifts_ban :
  forall (s : Supabase.store) (r : Profiles.row) (authorization : option string)
         (b : Http.update_body) (t0 t1 t2 : Z),
    keys_unique s ->
    In r (Supabase.profiles s) ->
    banned r = true ->
    Profiles.admin_id r <> "" ->
    Profiles.pin r <> "" ->
    Http.u_status b = Js.Text "active" ->
    let after := snd (put_profile (update_request authorization (Profiles.unique_code r) b)
                        t1 s) in
    let pin' := Profiles.pin (owner_update_row b t1 r) in
    fst (post_verify
           (verify_request None "" (Js.Text (Profiles.admin_id r))
              (Js.Text (Profiles.pin r))) t0 s)
    = Http.respond 403 (Http.Error "Account is banned")
    /\ fst (post_verify
              (verify_request None "" (Js.Text (Profiles.admin_id r)) (Js.Text pin'))
              t2 after)
       = Http.respond 200
           (Http.Verified "Credentials verified" (Profiles.unique_code r)).
Proof.
  intros s r authorization b t0 t1 t2 Hu Hin Hbanned Hid Hpin Hstatus after pin'.
  split.
  - rewrite (post_verify_found s r None (Profiles.pin r) t0 Hu Hin Hid Hpin).
    now rewrite Hbanned.
  - assert (Hpin' : pin' <> "").
    { subst pin'. cbn [owner_update_row Profiles.pin].
      destruct (Http.u_pin b) as [| | | |digits]; cbn; try assumption.
      destruct (Js.five_digits digits) eqn:Hd; [|assumption].
      now apply five_digits_nonempty. }
    assert (Haccepted : refused (Http.u_status b) = false) by now rewrite Hstatus.
    subst after. rewrite (put_profile_run s r authorization b t1 Hu Hin Haccepted).
    cbn [snd].
    destruct (rewritten_facts s r (owner_update_row b t1) "profiles" Supabase.Update
                (fun _ => eq_refl) (fun _ => eq_refl) Hu Hin) as [Hu1 Hin1].
    pose proof (post_verify_found _ (owner_update_row b t1 r) None pin' t2
                  Hu1 Hin1 Hid Hpin') as H.
    change (Profiles.pin (owner_update_row b t1 r)) with pin' in H.
    rewrite String.eqb_refl in H.
    unfold banned in H. cbn [owner_update_row Profiles.status] in H.
    rewrite Hstatus in H. exact H.
Qed.

(** X7.  After a PIN change to a non-empty string, the record verifies
    with the new PIN on both verification routes, and the old PIN, when
    it differs, is no longer accepted. *)
Theorem pin_change_round_trip :
  forall (s : Supabase.store) (r : Profiles.row) (authorization : option string)
         (new : string) (t1 t2 : Z),
    keys_unique s ->
    In r (Supabase.profiles s) ->
    banned r = false ->
    Profiles.admin_id r <> "" ->
    new <> "" ->
    let code := Profiles.unique_code r in
    let id := Js.Text (Profiles.admin_id r) in
    let after := snd (put_pin (pin_request authorization code (Js.Text new)
                                 (Js.Text (Profiles.pin r))) t1 s) in
    fst (post_verify (verify_request None "" id (Js.Text new)) t2 after)
    = Http.respond 200 (Http.Verified "Credentials verified" code)
    /\ fst (post_verify_scoped (verify_request None code id (Js.Text new)) t2 after)
       = Http.respond 200 (Http.Success "Credentials verified")
    /\ (Profiles.pin r <> new -> Profiles.pin r <> "" ->
        fst (post_verify (verify_request None "" id (Js.Text (Profiles.pin r))) t2 after)
        = Http.respond 401 (Http.Error "Invalid credentials")
        /\ fst (post_verify_scoped
                  (verify_request None code id (Js.Text (Profiles.pin r))) t2 after)
           = Http.respond 401 (Http.Error "Invalid credentials")).
Proof.
  intros s r authorization new t1 t2 Hu Hin Hactive Hid Hnew code id after.
  assert (Hcur : Js.strict_eq (Js.Text (Profiles.pin r)) (Js.Text (Profiles.pin r)) = true)
    by (cbn; apply String.eqb_refl).
  assert (Hafter : after
    = Supabase.with_profiles
        (map (fun x => if Supabase.eq_unique_code (Profiles.unique_code r) x
                       then repin new t1 x else x)
             (Supabase.profiles (Supabase.logged "profiles" Supabase.Select s)))
        (Supabase.logged "profiles" Supabase.Update
           (Supabase.logged "profiles" Supabase.Select s))).
  { subst after code.
    rewrite (put_pin_reaches_update s r authorization _ _ t1 Hu Hin Hcur).
    rewrite (update_single_by_code _ r (repin new t1 r));
      [reflexivity|exact Hu|exact Hin|reflexivity]. }
  destruct (rewritten_facts (Supabase.logged "profiles" Supabase.Select s) r
              (repin new t1) "profiles" Supabase.Update
              (fun _ => eq_refl) (fun _ => eq_refl) Hu Hin) as [Hu1 Hin1].
  rewrite <- Hafter in Hu1, Hin1.
  assert (Hbyid : forall pin, pin <> "" ->
    fst (post_verify (verify_request None "" id (Js.Text pin)) t2 after)
    = if new =? pin
      then Http.respond 200 (Http.Verified "Credentials verified" code)
      else Http.respond 401 (Http.Error "Invalid credentials")).
  { intros pin Hpin.
    pose proof (post_verify_found after (repin new t1 r) None pin t2 Hu1 Hin1 Hid Hpin) as H.
    change (banned (repin new t1 r)) with (banned r) in H. rewrite Hactive in H.
    exact H. }
  assert (Hscoped : forall pin,
    fst (post_verify_scoped (verify_request None code id (Js.Text pin)) t2 after)
    = if new =? pin
      then Http.respond 200 (Http.Success "Credentials verified")
      else Http.respond 401 (Http.Error "Invalid credentials")).
  { intros pin.
    exact (post_verify_scoped_found after (repin new t1 r) None pin t2 Hu1 Hin1). }
  repeat split.
  - rewrite (Hbyid new Hnew). now rewrite String.eqb_refl.
  - rewrite (Hscoped new). now rewrite String.eqb_refl.
  - rewrite (Hbyid _ H0).
    destruct (String.eqb_spec new (Profiles.pin r)); [congruence|reflexivity].
  - rewrite (Hscoped _).
    destruct (String.eqb_spec new (Profiles.pin r)); [congruence|reflexivity].
Qed.

(** ** A successful upload *)

(** The row with a new photo address, stamped. *)
Definition rephoto (url : string) (now : Z) (r : Profiles.row) : Profiles.row :=
  Profiles.set_updated_at (Some now)
    (Profiles.set_nullable Profiles.Profile_photo_url (Some url) r).

(** X9.  An image of less than 5 MB sent in the [photo] field for a
    stored record is answered 200; the record's photo address becomes
    [/uploads/photo-<time>-<draw><extension>], with the time read when
    the file was named, its stamp becomes the time the handler reads and
    nothing else in the table changes; a later fetch of the profile
    shows that address.  An image of exactly 5 MB goes the same way
    where the parser lets a file of the limit's size through, and is
    answered 400 with no database call where it does not.  A request
    without a file is answered 400 with no database call. *)
Theorem upload_stores_photo :
  forall (path_extname : string -> string) (limit_at_cap : bool) (s : Supabase.store)
         (r : Profiles.row) (authorization : option string) (part : Multer.part)
         (named rand now later : Z),
    keys_unique s ->
    In r (Supabase.profiles s) ->
    Multer.fieldname part = "photo" ->
    String.prefix "image/" (Multer.mimetype part) = true ->
    (Multer.size part <= Multer.fileSize)%Z ->
    let code := Profiles.unique_code r in
    let url := "/uploads/photo-" ++ (decimal named ++ "-" ++ decimal rand)
               ++ path_extname (Multer.originalname part) in
    let run := post_upload path_extname limit_at_cap
                 (upload_request authorization code (Some part)) named rand now s in
    ((Multer.size part < Multer.fileSize)%Z \/ limit_at_cap = false ->
       fst run = Http.respond 200 (Http.ProfileJson (profile_of_row (rephoto url now r)))
       /\ Supabase.profiles (snd run)
          = map (fun x => if Supabase.eq_unique_code code x then rephoto url now x else x)
                (Supabase.profiles s)
       /\ fst (get_profile (plain_request None code) later (snd run))
          = Http.respond 200 (Http.ProfileJson (profile_of_row (rephoto url now r))))
    /\ (Multer.size part = Multer.fileSize -> limit_at_cap = true ->
        run = (Http.respond 400 (Http.Error "File too large. Maximum size is 5MB."), s))
    /\ Http.profilePhoto (profile_of_row (rephoto url now r)) = Some url
    /\ Http.pin (profile_of_row (rephoto url now r)) = Profiles.pin r
    /\ Http.updatedAt (profile_of_row (rephoto url now r)) = Some now
    /\ post_upload path_extname limit_at_cap (upload_request authorization code None)
         named rand now s
       = (Http.respond 400 (Http.Error "No file uploaded"), s).
Proof.
  intros path_extname limit_at_cap s r authorization part named rand now later
         Hu Hin Hfield Himage Hsize code url run.
  assert (Hmulter : run
    = if over_limit limit_at_cap (Multer.size part)
      then (Http.respond 400 (Http.Error "File too large. Maximum size is 5MB."), s)
      else upload_photo code
             (Some {| Multer.filename := storage_filename path_extname part named rand;
                      Multer.source := part |}) now s).
  { subst run code. unfold post_upload, upload_single, Multer.fileFilter. open_request.
    rewrite Hfield, Himage.
    change ("photo" =? "photo") with true. cbn [negb].
    now destruct (over_limit limit_at_cap (Multer.size part)). }
  split; [|split].
  - intros Hfits.
    assert (Hunder : over_limit limit_at_cap (Multer.size part) = false).
    { unfold over_limit. apply orb_false_iff. split.
      - apply Z.ltb_ge. exact Hsize.
      - destruct Hfits as [Hless | ->]; [|reflexivity].
        apply andb_false_iff. right. apply Z.eqb_neq. lia. }
    assert (Hrun : run
      = (Http.respond 200 (Http.ProfileJson (profile_of_row (rephoto url now r))),
         Supabase.with_profiles
           (map (fun x => if Supabase.eq_unique_code code x then rephoto url now x else x)
                (Supabase.profiles s))
           (Supabase.logged "profiles" Supabase.Update s))).
    { rewrite Hmulter, Hunder. subst code.
      unfold upload_photo, storage_filename. cbn [Multer.filename].
      rewrite Hfield.
      unfold Supabase.bind.
      rewrite (update_single_by_code s r (rephoto url now r)); auto. }
    rewrite Hrun. cbn [fst snd Supabase.with_profiles Supabase.profiles].
    destruct (rewritten_facts s r (rephoto url now) "profiles" Supabase.Update
                (fun _ => eq_refl) (fun _ => eq_refl) Hu Hin) as [Hu1 Hin1].
    split; [reflexivity|]. split; [reflexivity|].
    pose proof (single_by_code _ (rephoto url now r) Hu1 Hin1) as Hone.
    subst code.
    change (Profiles.unique_code (rephoto url now r)) with (Profiles.unique_code r) in Hone.
    cbn [Supabase.with_profiles Supabase.profiles] in Hone.
    unfold get_profile. open_request. first_select.
    cbn [Supabase.logged Supabase.with_profiles Supabase.profiles].
    now rewrite Hone.
  - intros Hfull ->. rewrite Hmulter. unfold over_limit.
    rewrite Hfull, Z.eqb_refl. cbn [andb]. now rewrite orb_true_r.
  - repeat split.
Qed.

(** ** Malformed bulk requests *)

(** X10.  The bulk route, past the guard, refuses with 400 and without
    any database call a request whose code list is not an array or is
    empty, whose action is missing, or whose action is none of [ban],
    [unban] and [delete]. *)
Theorem bulk_rejects_malformed :
  forall (L : Jwt.Library) (G : Postgrest.Grammar) (env : option string)
         (s : Supabase.store) (authorization : option string) (admin : Jwt.claims)
         (action : Js.value) (codes : Http.codes) (now : Z),
    requireAdmin env authorization now = Next admin ->
    let run := post_bulk env (bulk_request authorization action codes) now s in
    ((Js.truthy action = false
      \/ codes = Http.ArrayOf []
      \/ (exists v, codes = Http.NotArray v)) ->
       run = (Http.respond 400 (Http.Error "Invalid bulk operation parameters"), s))
    /\ (forall items,
          codes = Http.ArrayOf items -> items <> [] ->
          Js.truthy action = true ->
          action <> Js.Text "ban" -> action <> Js.Text "unban" ->
          action <> Js.Text "delete" ->
          run = (Http.respond 400 (Http.Error "Invalid action"), s)).
Proof.
  intros L G env s authorization admin action codes now Hguard run.
  subst run. unfold post_bulk, admin_only, bulk_request. cbn [Http.authorization].
  rewrite Hguard. unfold bulk_operation. cbn [Http.payload Http.action Http.uniqueCodes].
  split.
  - intros [Haction | [-> | [v ->]]].
    + rewrite Haction. now destruct codes.
    + cbn. now rewrite orb_true_r.
    + reflexivity.
  - intros items -> Hitems Htruthy Hban Hunban Hdelete.
    rewrite Htruthy, (length_nonzero items Hitems). cbn [negb orb].
    assert (Hneq : forall word, action <> Js.Text word ->
                                Js.strict_eq action (Js.Text word) = false).
    { intros word Hw. destruct action as [| |flag|lit|text]; try reflexivity.
      cbn. apply String.eqb_neq. congruence. }
    now rewrite (Hneq "ban" Hban), (Hneq "unban" Hunban), (Hneq "delete" Hdelete).
Qed.

(** ** Deleting *)

Lemma filter_all {A : Type} (f : A -> bool) (rows : list A) :
  (forall x, In x rows -> f x = true) -> filter f rows = rows.
Proof.
  induction rows as [|x rows IH]; intros Hall; cbn; [reflexivity|].
  rewrite (Hall x (or_introl eq_refl)). f_equal.
  apply IH. intros y Hy. apply Hall. now right.
Qed.

(** X11.  Past the guard, [DELETE /api/profiles/:uniqueCode] always
    answers success, also when no record has the code (nothing is then
    changed); afterwards a fetch of that code is answered 404, the
    by-id verification of a deleted record is answered 404, and every
    other record is fetched as before. *)
Theorem delete_then_fetch :
  forall (L : Jwt.Library) (env : option string) (s : Supabase.store)
         (authorization : option string) (admin : Jwt.claims)
         (code : string) (now later : Z),
    requireAdmin env authorization now = Next admin ->
    keys_unique s ->
    let run := delete_profile_route env (plain_request authorization code) now s in
    fst run = Http.respond 200 (Http.Success "Profile deleted successfully")
    /\ Supabase.profiles (snd run)
       = filter (fun x => negb (Supabase.eq_unique_code code x)) (Supabase.profiles s)
    /\ fst (get_profile (plain_request None code) later (snd run))
       = Http.respond 404 (Http.Error "Profile not found")
    /\ (forall r pin, In r (Supabase.profiles s) -> Profiles.unique_code r = code ->
          Profiles.admin_id r <> "" -> pin <> "" ->
          fst (post_verify
                 (verify_request None "" (Js.Text (Profiles.admin_id r)) (Js.Text pin))
                 later (snd run))
          = Http.respond 404 (Http.Error "Profile not found"))
    /\ (forall r, In r (Supabase.profiles s) -> Profiles.unique_code r <> code ->
          fst (get_profile (plain_request None (Profiles.unique_code r)) later (snd run))
          = Http.respond 200 (Http.ProfileJson (profile_of_row r)))
    /\ ((forall r, In r (Supabase.profiles s) -> Profiles.unique_code r <> code) ->
        Supabase.profiles (snd run) = Supabase.profiles s).
Proof.
  intros L env s authorization admin code now later Hguard Hu run.
  assert (Hrun : run
    = (Http.respond 200 (Http.Success "Profile deleted successfully"),
       Supabase.with_profiles
         (filter (fun x => negb (Supabase.eq_unique_code code x)) (Supabase.profiles s))
         (Supabase.logged "profiles" Supabase.Delete s))).
  { subst run. unfold delete_profile_route, admin_only, plain_request.
    cbn [Http.authorization]. rewrite Hguard.
    unfold delete_profile. cbn [Http.uniqueCode_param].
    unfold Supabase.bind. now rewrite delete_many_run. }
  assert (Hu1 : keys_unique (snd run)).
  { rewrite Hrun. cbn [snd]. now apply keeps_delete_many. }
  rewrite Hrun in *. cbn [fst snd Supabase.with_profiles Supabase.profiles] in *.
  split; [reflexivity|]. split; [reflexivity|]. split; [|split; [|split]].
  - unfold get_profile. open_request. first_select.
    rewrite single_none; [reflexivity|].
    intros x Hx. cbn [Supabase.profiles Supabase.logged Supabase.with_profiles] in Hx.
    apply filter_In in Hx. destruct Hx as [_ Hx].
    now apply negb_true_iff in Hx.
  - intros r pin Hin Hcode Hid Hpin.
    apply String.eqb_neq in Hid, Hpin.
    unfold post_verify. open_request. cbn [Js.truthy Js.template].
    rewrite Hid, Hpin. cbn [negb orb]. first_select.
    rewrite single_none; [reflexivity|].
    intros x Hx. cbn [Supabase.profiles Supabase.logged Supabase.with_profiles] in Hx.
    apply filter_In in Hx. destruct Hx as [Hx Hkeep].
    apply negb_true_iff, String.eqb_neq in Hkeep.
    apply String.eqb_neq. intros Hsame.
    destruct Hu as (_ & Hids & _).
    assert (x = r).
    { clear - Hids Hx Hin Hsame.
      induction (Supabase.profiles s) as [|y rows IH]; [contradiction|].
      cbn in Hids. apply NoDup_cons_iff in Hids. destruct Hids as [Hy Hids].
      destruct Hx as [-> | Hx], Hin as [-> | Hin]; auto.
      - exfalso. apply Hy. rewrite Hsame. now apply in_map.
      - exfalso. apply Hy. rewrite <- Hsame. now apply in_map. }
    congruence.
  - intros r Hin Hcode.
    unfold get_profile. open_request. first_select.
    rewrite (single_by_code _ r Hu1); [reflexivity|].
    cbn [Supabase.profiles Supabase.logged Supabase.with_profiles].
    apply filter_In. split; [assumption|].
    apply negb_true_iff, String.eqb_neq. assumption.
  - intros Hnone. apply filter_all.
    intros x Hx. apply negb_true_iff, String.eqb_neq. now apply Hnone.
Qed.

(** ** The generators *)

(** [all_from p z n]: [p] holds on the [n] integers from [z] on. *)
Fixpoint all_from (p : Z -> bool) (z : Z) (count : nat) : bool :=
  match count with
  | O => true
  | S k => p z && all_from p (z + 1)%Z k
  end.

(** [digits n s]: [s] is made of exactly [n] decimal digits. *)
Definition digits (n : nat) (s : string) : bool :=
  (String.length s =? n)%nat && all_chars Js.is_digit s.

Lemma all_from_spec (p : Z -> bool) (count : nat) :
  forall z, all_from p z count = true ->
  forall n, (z <= n < z + Z.of_nat count)%Z -> p n = true.
Proof.
  induction count as [|k IH]; intros z H n Hn.
  - lia.
  - cbn [all_from] in H. apply andb_true_iff in H. destruct H as [Hz Hrest].
    destruct (Z.eq_dec n z) as [->|Hne]; [assumption|].
    apply (IH (z + 1)%Z Hrest). lia.
Qed.

Lemma length_append (a b : string) :
  String.length (a ++ b) = (String.length a + String.length b)%nat.
Proof.
  induction a as [|c a IH]; cbn; [reflexivity|now rewrite IH].
Qed.

Lemma all_chars_append (p : ascii -> bool) (a b : string) :
  all_chars p (a ++ b) = all_chars p a && all_chars p b.
Proof.
  induction a as [|c a IH]; cbn; [reflexivity|].
  now rewrite IH, andb_assoc.
Qed.

Lemma digits_append (m n : nat) (a b : string) :
  digits m a = true -> digits n b = true -> digits (m + n) (a ++ b) = true.
Proof.
  unfold digits. intros Ha Hb.
  apply andb_true_iff in Ha, Hb. destruct Ha as [Ha1 Ha2], Hb as [Hb1 Hb2].
  apply Nat.eqb_eq in Ha1, Hb1.
  rewrite length_append, all_chars_append, Ha1, Hb1, Ha2, Hb2.
  now rewrite Nat.eqb_refl.
Qed.

Lemma append_nonempty_r (a b : string) : b <> "" -> a ++ b <> "".
Proof.
  destruct a; cbn; [auto|discriminate].
Qed.

(** One turn of the code loop appends one URL-safe character. *)
Lemma charAt_chars (d : Z) :
  (0 <= d < 36)%Z ->
  exists c, charAt chars d = String c EmptyString /\ url_safe c = true.
Proof.
  intros Hd.
  pose (ok := fun d => match charAt chars d with
                       | String c EmptyString => url_safe c
                       | _ => false
                       end).
  assert (H : ok d = true).
  { refine (all_from_spec ok 36 0%Z _ d _); [vm_compute; reflexivity|lia]. }
  subst ok. cbv beta in H.
  destruct (charAt chars d) as [|c [|c' rest]]; try discriminate.
  now exists c.
Qed.

Lemma code_loop_shape (draw : nat -> Z) (steps : nat) :
  forall (i : nat) (result : string),
    (forall k, (i <= k < i + steps)%nat -> (0 <= draw k < 36)%Z) ->
    String.length (code_loop steps i draw result) = (String.length result + steps)%nat
    /\ all_chars url_safe (code_loop steps i draw result) = all_chars url_safe result.
Proof.
  induction steps as [|n IH]; intros i result Hdraws; cbn [code_loop].
  - split; [lia|reflexivity].
  - destruct (charAt_chars (draw i)) as (c & Hc & Hsafe); [apply Hdraws; lia|].
    destruct (IH (S i) (result ++ charAt chars (draw i))) as [Hlen Hall].
    { intros k Hk. apply Hdraws. lia. }
    rewrite Hlen, Hall, length_append, all_chars_append, Hc. cbn.
    rewrite Hsafe, !andb_true_r. split; [lia|reflexivity].
Qed.

(** X13.  With every draw of its loop inside the alphabet,
    [generateUniqueCode] returns sixteen characters, each a lower-case
    letter or a digit. *)
Theorem generated_code_shape :
  forall (c : chance),
    (forall k, (k < 16)%nat -> (0 <= code_draw c k < 36)%Z) ->
    String.length (generateUniqueCode c) = 16%nat
    /\ all_chars url_safe (generateUniqueCode c) = true.
Proof.
  intros c Hdraws. unfold generateUniqueCode.
  destruct (code_loop_shape (code_draw c) 16 0 EmptyString) as [Hlen Hall].
  - intros k Hk. apply Hdraws. lia.
  - now rewrite Hlen, Hall.
Qed.

Lemma url_safe_word (c : ascii) : url_safe c = true -> Postgrest.word_char c = true.
Proof.
  destruct c as [[] [] [] [] [] [] [] []]; cbn; intros H;
    try discriminate H; reflexivity.
Qed.

Lemma all_chars_weaken (p q : ascii -> bool) (s : string) :
  (forall c, p c = true -> q c = true) ->
  all_chars p s = true -> all_chars q s = true.
Proof.
  intros Hpq. induction s as [|c s IH]; cbn; [reflexivity|].
  intros H. apply andb_true_iff in H. destruct H as [Hc Hs].
  now rewrite (Hpq c Hc), (IH Hs).
Qed.

(** A generated code is one that the bulk filter reads as itself. *)
Lemma generated_code_tame (c : chance) :
  (forall k, (k < 16)%nat -> (0 <= code_draw c k < 36)%Z) ->
  Postgrest.tame (Js.Text (generateUniqueCode c)) = true.
Proof.
  intros Hdraws. unfold generateUniqueCode.
  destruct (code_loop_shape (code_draw c) 16 0 EmptyString) as [Hlen Hall].
  { intros k Hk. apply Hdraws. lia. }
  cbn [Postgrest.tame]. apply andb_true_iff. split.
  - apply negb_true_iff, String.eqb_neq. intros Hempty.
    rewrite Hempty in Hlen. discriminate Hlen.
  - apply (all_chars_weaken url_safe).
    + intros a Ha. now rewrite (url_safe_word a Ha).
    + now rewrite Hall.
Qed.

Lemma five_digit_numbers (n : Z) :
  (10000 <= n <= 99999)%Z -> Js.five_digits (decimal n) = true.
Proof.
  intros Hn.
  refine (all_from_spec (fun n => Js.five_digits (decimal n)) (Z.to_nat 90000) 10000%Z
            _ n _).
  - vm_compute. reflexivity.
  - rewrite Z2Nat.id; lia.
Qed.

(** X14.  With its draw between 10000 and 99999, [generatePin] returns
    a string of exactly five digits: a generated PIN passes the
    five-digit test of the owner update and counts as supplied in the
    verification by id. *)
Theorem generated_pin_shape :
  forall (c : chance),
    (10000 <= pin_draw c <= 99999)%Z ->
    Js.is_five_digit_string (Js.Text (generatePin c)) = true
    /\ Js.truthy (Js.Text (generatePin c)) = true
    /\ String.length (generatePin c) = 5%nat.
Proof.
  intros c Hdraw.
  pose proof (five_digit_numbers (pin_draw c) Hdraw) as H.
  unfold generatePin. cbn [Js.is_five_digit_string Js.truthy].
  split; [assumption|].
  destruct (decimal (pin_draw c)) as [|a [|b [|d [|e [|f [|g rest]]]]]];
    try discriminate.
  split; reflexivity.
Qed.

Lemma four_digit_years (y : Z) :
  (1000 <= y <= 9999)%Z -> digits 4 (decimal y) = true.
Proof.
  intros Hy.
  refine (all_from_spec (fun y => digits 4 (decimal y)) (Z.to_nat 9000) 1000%Z _ y _).
  - vm_compute. reflexivity.
  - rewrite Z2Nat.id; lia.
Qed.

Lemma two_digit_fields (n : Z) :
  (0 <= n <= 99)%Z -> digits 2 (padStart 2 (decimal n)) = true.
Proof.
  intros Hn.
  refine (all_from_spec (fun n => digits 2 (padStart 2 (decimal n))) 100 0%Z _ n _).
  - vm_compute. reflexivity.
  - lia.
Qed.

Lemma four_digit_draws (n : Z) :
  (0 <= n <= 9999)%Z -> digits 4 (padStart 4 (decimal n)) = true.
Proof.
  intros Hn.
  refine (all_from_spec (fun n => digits 4 (padStart 4 (decimal n))) (Z.to_nat 10000) 0%Z
            _ n _).
  - vm_compute. reflexivity.
  - rewrite Z2Nat.id; lia.
Qed.

(** X15.  For a four-digit year, a month, a day of the month and a draw
    below 10000, [generateIdCard] returns eight digits (year, month and
    day, zero-padded), then [-0000-], then four digits: eighteen
    characters in all. *)
Theorem generated_id_shape :
  forall (c : chance),
    (1000 <= fullYear c <= 9999)%Z ->
    (0 <= month c <= 11)%Z ->
    (1 <= date c <= 31)%Z ->
    (0 <= id_draw c <= 9999)%Z ->
    exists day_part draw_part,
      generateIdCard c = day_part ++ "-0000-" ++ draw_part
      /\ digits 8 day_part = true
      /\ digits 4 draw_part = true
      /\ String.length (generateIdCard c) = 18%nat.
Proof.
  intros c Hyear Hmonth Hdate Hdraw.
  pose proof (four_digit_years _ Hyear) as Hy.
  pose proof (two_digit_fields (month c + 1) ltac:(lia)) as Hm.
  pose proof (two_digit_fields (date c) ltac:(lia)) as Hd.
  pose proof (four_digit_draws _ Hdraw) as Hr.
  exists (decimal (fullYear c) ++ padStart 2 (decimal (month c + 1))
          ++ padStart 2 (decimal (date c))),
         (padStart 4 (decimal (id_draw c))).
  assert (H8 : digits 8 (decimal (fullYear c) ++ padStart 2 (decimal (month c + 1))
                         ++ padStart 2 (decimal (date c))) = true).
  { apply (digits_append 4 4); [assumption|]. now apply (digits_append 2 2). }
  assert (Heq : generateIdCard c
                = (decimal (fullYear c) ++ padStart 2 (decimal (month c + 1))
                   ++ padStart 2 (decimal (date c)))
                  ++ "-0000-" ++ padStart 4 (decimal (id_draw c))).
  { unfold generateIdCard. cbv zeta. now rewrite !append_assoc. }
  repeat split; try assumption.
  rewrite Heq, length_append.
  unfold digits in H8, Hr.
  apply andb_true_iff in H8, Hr. destruct H8 as [H8 _], Hr as [Hr _].
  apply Nat.eqb_eq in H8, Hr.
  rewrite H8. cbn [String.length append]. now rewrite Hr.
Qed.

(** ** Creating a profile *)

Lemma existsb_none {A : Type} (f : A -> bool) (rows : list A) :
  (forall x, In x rows -> f x = false) -> existsb f rows = false.
Proof.
  induction rows as [|x rows IH]; intros H; cbn; [reflexivity|].
  rewrite (H x (or_introl eq_refl)). apply IH. intros y Hy. apply H. now right.
Qed.

(** No stored row holds the primary key, the external id or the public
    code of [row]. *)
Definition fresh (row : Profiles.row) (s : Supabase.store) : Prop :=
  forall r, In r (Supabase.profiles s) ->
    Profiles.uuid r <> Profiles.uuid row
    /\ Profiles.admin_id r <> Profiles.admin_id row
    /\ Profiles.unique_code r <> Profiles.unique_code row.

(** The store once [row] has been inserted. *)
Definition inserted (row : Profiles.row) (w : Inserting.store) : Inserting.store :=
  {| Inserting.tables :=
       Supabase.with_profiles
         (Supabase.profiles (Inserting.tables w) ++ [row])%list (Inserting.tables w);
     Inserting.inserts := (Inserting.inserts w ++ ["profiles"])%list |}.

Lemma insert_single_fresh (row : Profiles.row) (w : Inserting.store) :
  fresh row (Inserting.tables w) ->
  Inserting.insert_single row w = (Some row, inserted row w).
Proof.
  intros Hfresh. unfold Inserting.insert_single.
  rewrite !existsb_none; [reflexivity| | |]; intros x Hx;
    destruct (Hfresh x Hx) as (H1 & H2 & H3); now apply String.eqb_neq.
Qed.

Lemma insert_single_taken (row r : Profiles.row) (w : Inserting.store) :
  In r (Supabase.profiles (Inserting.tables w)) ->
  Profiles.unique_code r = Profiles.unique_code row
  \/ Profiles.admin_id r = Profiles.admin_id row ->
  Inserting.insert_single row w
  = (None, {| Inserting.tables := Inserting.tables w;
              Inserting.inserts := (Inserting.inserts w ++ ["profiles"])%list |}).
Proof.
  intros Hin Hsame. unfold Inserting.insert_single.
  assert (Htaken :
    existsb (Supabase.eq_admin_id (Profiles.admin_id row))
            (Supabase.profiles (Inserting.tables w))
    || existsb (Supabase.eq_unique_code (Profiles.unique_code row))
               (Supabase.profiles (Inserting.tables w)) = true).
  { apply orb_true_iff.
    destruct Hsame as [Hcode | Hid]; [right|left];
      apply existsb_exists; exists r; (split; [assumption|]);
      now apply String.eqb_eq. }
  rewrite <- orb_assoc, Htaken. now rewrite orb_true_r.
Qed.

Lemma inserted_keys_unique (row : Profiles.row) (w : Inserting.store) :
  keys_unique (Inserting.tables w) ->
  fresh row (Inserting.tables w) ->
  keys_unique (Inserting.tables (inserted row w)).
Proof.
  intros (H1 & H2 & H3) Hfresh.
  unfold keys_unique, inserted.
  cbn [Inserting.tables Supabase.with_profiles Supabase.profiles Supabase.admins].
  repeat split; [| |assumption]; apply NoDup_map_snoc; try assumption;
    apply existsb_none; intros x Hx; destruct (Hfresh x Hx) as (_ & Hid & Hcode);
    now apply String.eqb_neq.
Qed.

(** [POST /api/profiles] past the guard, when the new row's keys are free. *)
Lemma post_profiles_run (L : Jwt.Library) (env : option string) (w : Inserting.store)
    (authorization : option string) (admin : Jwt.claims) (b : create_body)
    (c : chance) (uuid : string) (stamp now : Z) :
  requireAdmin env authorization now = Next admin ->
  fresh (inserted_row b c uuid stamp) (Inserting.tables w) ->
  post_profiles env (create_request authorization b) now c uuid stamp w
  = (Created (profile_of_row (inserted_row b c uuid stamp))
       ("http://localhost:5173/myprofile/"
        ++ Profiles.unique_code (inserted_row b c uuid stamp)),
     inserted (inserted_row b c uuid stamp) w).
Proof.
  intros Hguard Hfresh.
  unfold post_profiles, create_request. cbn [Http.authorization].
  rewrite Hguard. unfold create_profile. cbn [Http.payload].
  now rewrite (insert_single_fresh _ w Hfresh).
Qed.

(** X16.  Past the guard, a creation whose keys are free is answered
    201 with the stored profile and its link; the profile is active, it
    joins the table beside the rows already there, a fetch by its
    public code returns exactly the profile of the 201 answer, and
    every earlier record is fetched as before. *)
Theorem create_then_fetch :
  forall (L : Jwt.Library) (env : option string) (w : Inserting.store)
         (authorization : option string) (admin : Jwt.claims) (b : create_body)
         (c : chance) (uuid : string) (stamp now later : Z),
    requireAdmin env authorization now = Next admin ->
    keys_unique (Inserting.tables w) ->
    let row := inserted_row b c uuid stamp in
    fresh row (Inserting.tables w) ->
    let run := post_profiles env (create_request authorization b) now c uuid stamp w in
    let after := Inserting.tables (snd run) in
    fst run = Created (profile_of_row row)
                ("http://localhost:5173/myprofile/" ++ Http.uniqueCode (profile_of_row row))
    /\ Http.status (profile_of_row row) = Some "active"
    /\ Supabase.profiles after = (Supabase.profiles (Inserting.tables w) ++ [row])%list
    /\ fst (get_profile (plain_request None (Http.uniqueCode (profile_of_row row)))
              later after)
       = Http.respond 200 (Http.ProfileJson (profile_of_row row))
    /\ (forall r, In r (Supabase.profiles (Inserting.tables w)) ->
          fst (get_profile (plain_request None (Profiles.unique_code r)) later after)
          = Http.respond 200 (Http.ProfileJson (profile_of_row r))).
Proof.
  intros L env w authorization admin b c uuid stamp now later Hguard Hu row Hfresh
         run after.
  subst run after.
  rewrite (post_profiles_run L env w authorization admin b c uuid stamp now Hguard Hfresh).
  cbn [fst snd]. fold row.
  pose proof (inserted_keys_unique row w Hu Hfresh) as Hu1.
  assert (Hin : forall r, In r (Supabase.profiles (Inserting.tables w) ++ [row])%list ->
                          In r (Supabase.profiles (Inserting.tables (inserted row w))))
    by (intros r Hr; exact Hr).
  assert (Hget : forall r, In r (Supabase.profiles (Inserting.tables w) ++ [row])%list ->
    fst (get_profile (plain_request None (Profiles.unique_code r)) later
           (Inserting.tables (inserted row w)))
    = Http.respond 200 (Http.ProfileJson (profile_of_row r))).
  { intros r Hr. unfold get_profile. open_request. first_select.
    now rewrite (single_by_code _ r Hu1 (Hin r Hr)). }
  repeat split.
  - apply (Hget row). apply in_or_app. right. now left.
  - intros r Hr. apply Hget. apply in_or_app. now left.
Qed.

(** X17.  A creation whose public code or external id is already held
    by a stored record is answered 400 with the database's error, and
    the table is left as it was. *)
Theorem create_refuses_taken_keys :
  forall (L : Jwt.Library) (env : option string) (w : Inserting.store)
         (authorization : option string) (admin : Jwt.claims) (b : create_body)
         (c : chance) (uuid : string) (stamp now : Z) (r : Profiles.row),
    requireAdmin env authorization now = Next admin ->
    In r (Supabase.profiles (Inserting.tables w)) ->
    Profiles.unique_code r = Js.template (or_else (c_uniqueCode b) (generateUniqueCode c))
    \/ Profiles.admin_id r = Js.template (or_else (c_id b) (generateIdCard c)) ->
    let run := post_profiles env (create_request authorization b) now c uuid stamp w in
    fst run = Plain (Http.respond 400 Http.DatabaseError)
    /\ Inserting.tables (snd run) = Inserting.tables w.
Proof.
  intros L env w authorization admin b c uuid stamp now r Hguard Hin Hsame run.
  subst run. unfold post_profiles, create_request. cbn [Http.authorization].
  rewrite Hguard. unfold create_profile. cbn [Http.payload].
  rewrite (insert_single_taken (inserted_row b c uuid stamp) r w Hin Hsame).
  split; reflexivity.
Qed.

(** X18.  When the body names neither an id nor a pin, the created
    profile carries a generated id and, for a draw between 10000 and
    99999, a five-digit PIN; with the id and the PIN of the 201 answer
    both verification routes then succeed, the by-id one returning the
    new public code. *)
Theorem created_credentials_verify :
  forall (L : Jwt.Library) (env : option string) (w : Inserting.store)
         (authorization : option string) (admin : Jwt.claims) (b : create_body)
         (c : chance) (uuid : string) (stamp now later : Z),
    requireAdmin env authorization now = Next admin ->
    keys_unique (Inserting.tables w) ->
    Js.truthy (c_id b) = false ->
    Js.truthy (c_pin b) = false ->
    (10000 <= pin_draw c <= 99999)%Z ->
    let row := inserted_row b c uuid stamp in
    fresh row (Inserting.tables w) ->
    let run := post_profiles env (create_request authorization b) now c uuid stamp w in
    let after := Inserting.tables (snd run) in
    exists profile link,
      fst run = Created profile link
      /\ Http.id profile = generateIdCard c
      /\ Http.pin profile = generatePin c
      /\ Js.five_digits (Http.pin profile) = true
      /\ fst (post_verify
                (verify_request None "" (Js.Text (Http.id profile))
                   (Js.Text (Http.pin profile))) later after)
         = Http.respond 200
             (Http.Verified "Credentials verified" (Http.uniqueCode profile))
      /\ fst (post_verify_scoped
                (verify_request None (Http.uniqueCode profile)
                   (Js.Text (Http.id profile)) (Js.Text (Http.pin profile))) later after)
         = Http.respond 200 (Http.Success "Credentials verified").
Proof.
  intros L env w authorization admin b c uuid stamp now later Hguard Hu Hid Hpin Hdraw
         row Hfresh run after.
  subst run after.
  rewrite (post_profiles_run L env w authorization admin b c uuid stamp now Hguard Hfresh).
  cbn [fst snd]. fold row.
  exists (profile_of_row row),
         ("http://localhost:5173/myprofile/" ++ Profiles.unique_code row).
  pose proof (inserted_keys_unique row w Hu Hfresh) as Hu1.
  assert (Hin : In row (Supabase.profiles (Inserting.tables (inserted row w)))).
  { cbn [inserted Inserting.tables Supabase.with_profiles Supabase.profiles].
    apply in_or_app. right. now left. }
  assert (Hrow_id : Profiles.admin_id row = generateIdCard c).
  { subst row. cbn [inserted_row Profiles.admin_id]. unfold or_else. now rewrite Hid. }
  assert (Hrow_pin : Profiles.pin row = generatePin c).
  { subst row. cbn [inserted_row Profiles.pin]. unfold or_else. now rewrite Hpin. }
  assert (Hfive : Js.five_digits (generatePin c) = true)
    by (apply five_digit_numbers; assumption).
  assert (Hid_nonempty : Profiles.admin_id row <> "").
  { rewrite Hrow_id. unfold generateIdCard. cbv zeta.
    do 3 apply append_nonempty_r. cbn. discriminate. }
  assert (Hpin_nonempty : Profiles.pin row <> "").
  { rewrite Hrow_pin. now apply five_digits_nonempty. }
  cbn [profile_of_row Http.id Http.pin Http.uniqueCode].
  split; [reflexivity|]. split; [assumption|]. split; [assumption|].
  split; [now rewrite Hrow_pin|]. split.
  - rewrite (post_verify_found _ row None (Profiles.pin row) later Hu1 Hin
               Hid_nonempty Hpin_nonempty).
    change (banned row) with false. now rewrite String.eqb_refl.
  - rewrite (post_verify_scoped_found _ row None (Profiles.pin row) later Hu1 Hin).
    now rewrite String.eqb_refl.
Qed.

(** ** The dashboard counts *)

Lemma count_monotone {A : Type} (f g : A -> bool) (rows : list A) :
  (forall x, f x = true -> g x = true) ->
  (length (filter f rows) <= length (filter g rows))%nat.
Proof.
  intros Hfg. induction rows as [|x rows IH]; cbn; [lia|].
  destruct (f x) eqn:Hf.
  - rewrite (Hfg x Hf). cbn. lia.
  - destruct (g x); cbn; lia.
Qed.

Lemma count_disjoint {A : Type} (f g : A -> bool) (rows : list A) :
  (forall x, f x = true -> g x = false) ->
  (length (filter f rows) + length (filter g rows) <= length rows)%nat.
Proof.
  intros Hfg. induction rows as [|x rows IH]; cbn; [lia|].
  destruct (f x) eqn:Hf.
  - rewrite (Hfg x Hf). cbn. lia.
  - destruct (g x); cbn; lia.
Qed.

Lemma count_cover {A : Type} (f g : A -> bool) (rows : list A) :
  (forall x, f x = true -> g x = false) ->
  (forall x, In x rows -> f x = true \/ g x = true) ->
  (length (filter f rows) + length (filter g rows) = length rows)%nat.
Proof.
  intros Hfg Hall. induction rows as [|x rows IH]; cbn; [lia|].
  assert (IH' := IH (fun y Hy => Hall y (or_intror Hy))).
  destruct (f x) eqn:Hf.
  - rewrite (Hfg x Hf). cbn. lia.
  - destruct (Hall x (or_introl eq_refl)) as [H|H]; [congruence|].
    rewrite H. cbn. lia.
Qed.

Lemma week_before_today (now shift : Z) :
  (shift <= 6 * day_ms)%Z -> (week_ago now shift <= start_of_day now)%Z.
Proof.
  intros Hshift. unfold week_ago, start_of_day.
  assert (Hday : (0 < day_ms)%Z) by reflexivity.
  pose proof (Z.mod_pos_bound now day_ms Hday). lia.
Qed.

(** X19.  Past the guard, the dashboard route reads and never writes;
    its total is the number of records; active and banned together
    never exceed the total, and equal it when every record's status is
    one of the two; the count for today never exceeds the count for the
    week, which never exceeds the total. *)
Theorem dashboard_counts_are_consistent :
  forall (L : Jwt.Library) (env : option string) (s : Supabase.store)
         (authorization : option string) (admin : Jwt.claims) (now shift : Z),
    requireAdmin env authorization now = Next admin ->
    (shift <= 6 * day_ms)%Z ->
    let run := get_stats env (plain_request authorization "") now shift s in
    exists total active banned_count today week,
      fst run = Statistics total active banned_count today week
      /\ total = length (Supabase.profiles s)
      /\ (active + banned_count <= total)%nat
      /\ ((forall r, In r (Supabase.profiles s) ->
             Profiles.status r = Some "active" \/ Profiles.status r = Some "banned") ->
          (active + banned_count = total)%nat)
      /\ (today <= week)%nat
      /\ (week <= total)%nat
      /\ Supabase.profiles (snd run) = Supabase.profiles s
      /\ Supabase.admins (snd run) = Supabase.admins s.
Proof.
  intros L env s authorization admin now shift Hguard Hshift run.
  subst run. unfold get_stats, plain_request. cbn [Http.authorization].
  rewrite Hguard.
  set (rows := Supabase.profiles s).
  exists (length (filter (fun _ => true) rows)),
         (length (filter (eq_status "active") rows)),
         (length (filter (eq_status "banned") rows)),
         (length (filter (gte_created_at (start_of_day now)) rows)),
         (length (filter (gte_created_at (week_ago now shift)) rows)).
  assert (Hall : filter (fun _ : Profiles.row => true) rows = rows)
    by (apply filter_all; reflexivity).
  assert (Hexclusive : forall x, eq_status "active" x = true -> eq_status "banned" x = false).
  { intros x. unfold eq_status. destruct (Profiles.status x) as [st|]; [|discriminate].
    intros H. apply String.eqb_eq in H. now subst st. }
  split; [reflexivity|]. rewrite Hall.
  split; [reflexivity|]. split; [apply count_disjoint, Hexclusive|].
  split.
  { intros Hstatus. apply count_cover; [exact Hexclusive|].
    intros x Hx. unfold eq_status.
    destruct (Hstatus x Hx) as [-> | ->]; [left|right]; reflexivity. }
  split.
  { apply count_monotone. intros x. unfold gte_created_at.
    destruct (Profiles.created_at x) as [t|]; [|discriminate].
    intros H. apply Z.leb_le in H. apply Z.leb_le.
    pose proof (week_before_today now shift Hshift). lia. }
  split; [apply filter_length_le|].
  split; reflexivity.
Qed.

(** ** The two verification routes side by side *)

(** X20.  For a stored record that is not banned, the two
    verification routes agree on every pin sent as a non-empty string:
    both succeed on the stored PIN and both answer 401 on any other.
    They part in two cases.  For a banned record the by-id route
    answers 403 while the scoped route still decides on the PIN alone.
    And for a pin sent as a number or as [true], the by-id route, which
    compares with [!==], answers 401 (403 if banned) even when the
    digits are those of the stored PIN, while the scoped route, whose
    filter compares texts, accepts it. *)
Theorem verification_routes_agree_unless_banned :
  forall (s : Supabase.store) (r : Profiles.row) (pin : Js.value) (now : Z),
    keys_unique s ->
    In r (Supabase.profiles s) ->
    Profiles.admin_id r <> "" ->
    Js.truthy pin = true ->
    let id := Js.Text (Profiles.admin_id r) in
    let by_id := fst (post_verify (verify_request None "" id pin) now s) in
    let scoped :=
      fst (post_verify_scoped (verify_request None (Profiles.unique_code r) id pin) now s) in
    (Http.code scoped = 200 <-> Profiles.pin r = Js.template pin)
    /\ (Http.code scoped = 200 \/ Http.code scoped = 401)
    /\ (banned r = true -> Http.code by_id = 403)
    /\ (banned r = false ->
        forall text, pin = Js.Text text ->
          Http.code by_id = Http.code scoped
          /\ (Http.code by_id = 200 <-> Profiles.pin r = text))
    /\ (banned r = false ->
        (forall text, pin <> Js.Text text) -> Http.code by_id = 401).
Proof.
  intros s r pin now Hu Hin Hid Hpin id by_id scoped.
  assert (Hscoped : scoped
    = if Profiles.pin r =? Js.template pin
      then Http.respond 200 (Http.Success "Credentials verified")
      else Http.respond 401 (Http.Error "Invalid credentials")).
  { subst scoped id. apply post_verify_scoped_value; assumption. }
  assert (Hby_id : by_id
    = if banned r then Http.respond 403 (Http.Error "Account is banned")
      else if Js.strict_eq (Js.Text (Profiles.pin r)) pin
           then Http.respond 200
                  (Http.Verified "Credentials verified" (Profiles.unique_code r))
           else Http.respond 401 (Http.Error "Invalid credentials")).
  { subst by_id id. apply post_verify_value; assumption. }
  rewrite Hscoped, Hby_id. clear Hscoped Hby_id.
  split; [|split; [|split; [|split]]].
  - destruct (String.eqb_spec (Profiles.pin r) (Js.template pin)); cbn.
    + tauto.
    + split; [discriminate|contradiction].
  - destruct (Profiles.pin r =? Js.template pin); [now left|now right].
  - intros ->. reflexivity.
  - intros -> text ->. cbn [Js.strict_eq Js.template].
    destruct (String.eqb_spec (Profiles.pin r) text); cbn.
    + tauto.
    + split; [reflexivity|]. split; [discriminate|contradiction].
  - intros -> Hother.
    destruct pin as [| |flag|lit|text]; try reflexivity.
    now destruct (Hother text).
Qed.

(** ** Replaying an owner update *)

Lemma assign_assign (v : Js.value) (old : option string) :
  assign v (assign v old) = assign v old.
Proof. now destruct v. Qed.

Lemma assign_status_twice (v : Js.value) (old : option string) :
  assign_status v (assign_status v old) = assign_status v old.
Proof.
  unfold assign_status.
  destruct v as [| |flag|lit|text]; try reflexivity;
    now destruct (Postgres.character_varying _ _).
Qed.

Lemma owner_update_row_twice (b : Http.update_body) (t1 t2 : Z) (x : Profiles.row) :
  owner_update_row b t2 (owner_update_row b t1 x) = owner_update_row b t2 x.
Proof.
  unfold owner_update_row. cbn [Profiles.uuid Profiles.admin_id Profiles.pin
    Profiles.unique_code Profiles.profile_photo_url Profiles.full_name Profiles.email
    Profiles.status Profiles.job_title Profiles.company_name Profiles.mobile_primary
    Profiles.landline_number Profiles.address Profiles.facebook_link
    Profiles.instagram_link Profiles.tiktok_link Profiles.whatsapp_number
    Profiles.website_link Profiles.created_at Profiles.updated_at].
  rewrite !assign_assign, assign_status_twice.
  now destruct (Js.is_five_digit_string (Http.u_pin b)).
Qed.

(** X21.  Replaying an owner update on a stored record changes nothing
    but the stamp: the table after the same body sent twice is the
    table after the later request alone, and the replay is answered as
    the later request alone would be, with 200 when the database takes
    the body, and with 400, nothing being written either time, when
    the [status] it carries is too long for the column. *)
Theorem owner_update_is_idempotent :
  forall (s : Supabase.store) (r : Profiles.row) (authorization : option string)
         (b : Http.update_body) (t1 t2 : Z),
    keys_unique s ->
    In r (Supabase.profiles s) ->
    let req := update_request authorization (Profiles.unique_code r) b in
    let once := snd (put_profile req t1 s) in
    Supabase.profiles (snd (put_profile req t2 once))
    = Supabase.profiles (snd (put_profile req t2 s))
    /\ fst (put_profile req t2 once) = fst (put_profile req t2 s)
    /\ Http.code (fst (put_profile req t2 once))
       = (if refused (Http.u_status b) then 400 else 200)
    /\ (refused (Http.u_status b) = true ->
        Supabase.profiles (snd (put_profile req t2 once)) = Supabase.profiles s).
Proof.
  intros s r authorization b t1 t2 Hu Hin req once.
  assert (Honce : once = snd (put_profile req t1 s)) by reflexivity.
  subst req.
  destruct (refused (Http.u_status b)) eqn:Hstatus.
  - rewrite (put_profile_refused s r authorization b t1 Hin Hstatus) in Honce.
    cbn [snd] in Honce.
    assert (Hin1 : In r (Supabase.profiles once)) by now rewrite Honce.
    rewrite (put_profile_refused once r authorization b t2 Hin1 Hstatus).
    rewrite (put_profile_refused s r authorization b t2 Hin Hstatus).
    cbn [fst snd]. rewrite Honce. repeat split.
  - rewrite (put_profile_run s r authorization b t1 Hu Hin Hstatus) in Honce.
    cbn [snd] in Honce.
    destruct (rewritten_facts s r (owner_update_row b t1) "profiles" Supabase.Update
                (fun _ => eq_refl) (fun _ => eq_refl) Hu Hin) as [Hu1 Hin1].
    rewrite <- Honce in Hu1, Hin1.
    pose proof (put_profile_run once (owner_update_row b t1 r) authorization b t2
                  Hu1 Hin1 Hstatus) as Hagain.
    change (Profiles.unique_code (owner_update_row b t1 r))
      with (Profiles.unique_code r) in Hagain.
    rewrite Hagain, (put_profile_run s r authorization b t2 Hu Hin Hstatus).
    cbn [fst snd Supabase.with_profiles Supabase.profiles Http.code Http.respond].
    rewrite owner_update_row_twice.
    split; [|split; [reflexivity|split; [reflexivity|discriminate]]].
    rewrite Honce. cbn [Supabase.with_profiles Supabase.profiles].
    rewrite map_map. apply map_ext. intros x.
    destruct (Supabase.eq_unique_code (Profiles.unique_code r) x) eqn:Hx.
    + change (Supabase.eq_unique_code (Profiles.unique_code r) (owner_update_row b t1 x))
        with (Supabase.eq_unique_code (Profiles.unique_code r) x).
      rewrite Hx. apply owner_update_row_twice.
    + now rewrite Hx.
Qed.

(** * Further concrete runs *)

Module Trial.

(** Draws and a date for one creation: the code loop draws 0, 1, 2, ... *)
Definition dice : chance :=
  {| code_draw := fun i => Z.of_nat i; id_draw := 7%Z; pin_draw := 31415%Z;
     fullYear := 2025%Z; month := 9%Z; date := 1%Z |}.

(** The sample database, with no insert sent yet. *)
Definition world : Inserting.store :=
  {| Inserting.tables := Sample.store; Inserting.inserts := [] |}.

(** The header carrying the sample token. *)
Definition bearer : option string := Some ("Bearer " ++ Sample.token).

(** A body that sets the status and nothing else. *)
Definition restatus (status : string) : Http.update_body := Sample.with_status status.

(** A PNG of one megabyte. *)
Definition small_image : Multer.part :=
  {| Multer.fieldname := "photo"; Multer.originalname := "me.png";
     Multer.mimetype := "image/png"; Multer.size := (1024 * 1024)%Z |}.

(** A PNG of exactly five megabytes. *)
Definition full_image : Multer.part :=
  {| Multer.fieldname := "photo"; Multer.originalname := "me.png";
     Multer.mimetype := "image/png"; Multer.size := (5 * 1024 * 1024)%Z |}.

(** A body that asks for the public code of an existing profile. *)
Definition clash : create_body :=
  {| c_uniqueCode := Js.Text "annannannannann1"; c_id := Js.Undefined;
     c_pin := Js.Undefined; c_profilePhoto := Js.Undefined;
     c_fullName := Js.Undefined; c_email := Js.Undefined;
     c_jobTitle := Js.Undefined; c_companyName := Js.Undefined;
     c_mobilePrimary := Js.Undefined; c_landlineNumber := Js.Undefined;
     c_address := Js.Undefined; c_facebookLink := Js.Undefined;
     c_instagramLink := Js.Undefined; c_tiktokLink := Js.Undefined;
     c_whatsappNumber := Js.Undefined; c_websiteLink := Js.Undefined |}.

End Trial.

Lemma sample_token_accepted_later :
  @requireAdmin Reference.tokens None Trial.bearer 2000 = Next Sample.session.
Proof. vm_compute. reflexivity. Qed.

Lemma sample_fresh :
  fresh (inserted_row empty_body Trial.dice "u-3" 5000) Sample.store.
Proof.
  intros r [<- | [<- | []]]; repeat split; vm_compute; discriminate.
Qed.

(** X1 on the sample token. *)
Lemma guard_passes_only_live_tokens_witness :
  exists h token,
    Trial.bearer = Some h
    /\ String.prefix "Bearer " h = true
    /\ Js.index (Js.split " " h) 1 = Some token
    /\ @Jwt.decode Reference.tokens token (JWT_SECRET None) = Some Sample.session
    /\ (forall e, Jwt.exp Sample.session = Some e -> (Jwt.seconds 1000 < e)%Z).
Proof.
  exact (guard_passes_only_live_tokens Reference.tokens None Trial.bearer 1000
           Sample.session sample_token_accepted).
Defined.

(** X2 without any header: the ban route answers 401 and the sample
    store is left as it was. *)
Lemma admin_routes_closed_without_token_witness :
  exists message,
    @post_ban Reference.tokens None (plain_request None "annannannannann1") 0 Sample.store
    = (Http.respond 401 (Http.Error message), Sample.store)
    /\ @post_profiles Reference.tokens None (create_request None empty_body) 0
         Trial.dice "u-3" 5000 Trial.world
       = (Plain (Http.respond 401 (Http.Error message)), Trial.world).
Proof.
  destruct (admin_routes_closed_without_token Reference.tokens Reference.grammar None None 0
              ltac:(intros admin; discriminate))
    as (message & Hcode & _ & Hcreate & _).
  exists message. split.
  - apply (Hcode "annannannannann1" Sample.store).
  - apply Hcreate.
Defined.

(** X3 on the active sample profile. *)
Lemma ban_blocks_verification_until_unban_witness :
  fst (post_verify
         (verify_request None "" (Js.Text "20251001-0000-0001") (Js.Text "12345")) 2
         (snd (set_status "banned" (plain_request None "annannannannann1") 1 Sample.store)))
  = Http.respond 403 (Http.Error "Account is banned").
Proof.
  pose proof (ban_blocks_verification_until_unban Sample.store Sample.ann 1 2 3 4
                sample_keys_unique (or_introl eq_refl)
                ltac:(discriminate) ltac:(discriminate)) as H.
  cbv zeta in H. exact (proj1 H).
Defined.

(** X4 on the active sample profile: a second ban leaves the statuses
    of a single ban. *)
Lemma ban_and_unban_compose_witness :
  map Profiles.status
    (Supabase.profiles
       (snd (@post_ban Reference.tokens None
               (plain_request Trial.bearer "annannannannann1") 2000
               (snd (@post_ban Reference.tokens None
                       (plain_request Trial.bearer "annannannannann1") 1000
                       Sample.store)))))
  = [Some "banned"; Some "banned"].
Proof.
  pose proof (ban_and_unban_compose Reference.tokens None Sample.store Sample.ann
                Trial.bearer Sample.session Sample.session 1000 2000
                sample_token_accepted sample_token_accepted_later
                sample_keys_unique (or_introl eq_refl)) as H.
  cbv zeta in H. destruct H as (_ & Honce & _ & Htwice & _).
  change (Profiles.unique_code Sample.ann) with "annannannannann1" in Honce, Htwice.
  rewrite Htwice. vm_compute. reflexivity.
Defined.

(** X5 on a code that no sample profile has. *)
Lemma writes_to_unknown_code_fail_witness :
  put_profile (update_request None "nobody0000000000" (Sample.rename "X")) 9 Sample.store
  = (Http.respond 400 Http.DatabaseError,
     Supabase.logged "profiles" Supabase.Update Sample.store).
Proof.
  refine (proj1 (writes_to_unknown_code_fail Sample.store None "nobody0000000000" 9 _) _).
  intros r [<- | [<- | []]]; discriminate.
Defined.

(** X6 on the banned sample profile. *)
Lemma owner_update_lifts_ban_witness :
  fst (post_verify
         (verify_request None "" (Js.Text "20251001-0000-0002") (Js.Text "54321")) 3
         (snd (put_profile
                 (update_request None "bobbobbobbobbob2" (Trial.restatus "active"))
                 2 Sample.store)))
  = Http.respond 200 (Http.Verified "Credentials verified" "bobbobbobbobbob2").
Proof.
  pose proof (owner_update_lifts_ban Sample.store Sample.bob None
                (Trial.restatus "active") 1 2 3
                sample_keys_unique (or_intror (or_introl eq_refl)) eq_refl
                ltac:(discriminate) ltac:(discriminate) eq_refl) as H.
  cbv zeta in H. exact (proj2 H).
Defined.

(** X7 on the active sample profile. *)
Lemma pin_change_round_trip_witness :
  fst (post_verify
         (verify_request None "" (Js.Text "20251001-0000-0001") (Js.Text "24680")) 3
         (snd (put_pin (pin_request None "annannannannann1" (Js.Text "24680")
                          (Js.Text "12345")) 2 Sample.store)))
  = Http.respond 200 (Http.Verified "Credentials verified" "annannannannann1")
  /\ fst (post_verify
            (verify_request None "" (Js.Text "20251001-0000-0001") (Js.Text "12345")) 3
            (snd (put_pin (pin_request None "annannannannann1" (Js.Text "24680")
                             (Js.Text "12345")) 2 Sample.store)))
     = Http.respond 401 (Http.Error "Invalid credentials").
Proof.
  pose proof (pin_change_round_trip Sample.store Sample.ann None "24680" 2 3
                sample_keys_unique (or_introl eq_refl) eq_refl
                ltac:(discriminate) ltac:(discriminate)) as H.
  cbv zeta in H. destruct H as (Hnew & _ & Hold).
  split; [exact Hnew|].
  exact (proj1 (Hold ltac:(discriminate) ltac:(discriminate))).
Defined.

(** X8 on the active sample profile. *)
Lemma pin_change_null_refused_witness :
  fst (put_pin (pin_request None "annannannannann1" Js.Null (Js.Text "12345")) 2
         Sample.store)
  = Http.respond 400 Http.DatabaseError
  /\ Supabase.profiles
       (snd (put_pin (pin_request None "annannannannann1" Js.Null (Js.Text "12345")) 2
               Sample.store))
     = Supabase.profiles Sample.store.
Proof.
  exact (pin_change_null_refused Sample.store Sample.ann None (Js.Text "12345") 2
           sample_keys_unique (or_introl eq_refl) eq_refl).
Defined.

(** X9 on the active sample profile: an image of one megabyte, named at
    time 1700 and handled at time 1705, is stored; one of exactly 5 MB
    is answered 400 where the limit's size already counts. *)
Lemma upload_stores_photo_witness :
  Http.code (fst (post_upload Reference.extname true
                    (upload_request None "annannannannann1" (Some Trial.small_image))
                    1700 42 1705 Sample.store)) = 200
  /\ map (fun x => (Profiles.profile_photo_url x, Profiles.updated_at x))
       (Supabase.profiles
          (snd (post_upload Reference.extname true
                  (upload_request None "annannannannann1" (Some Trial.small_image))
                  1700 42 1705 Sample.store)))
     = [(Some "/uploads/photo-1700-42.png", Some 1705%Z);
        (Some "/uploads/kontacksharelogo.png", Some 1000%Z)]
  /\ post_upload Reference.extname true
       (upload_request None "annannannannann1" (Some Trial.full_image))
       1700 42 1705 Sample.store
     = (Http.respond 400 (Http.Error "File too large. Maximum size is 5MB."), Sample.store).
Proof.
  pose proof (upload_stores_photo Reference.extname true Sample.store Sample.ann None
                Trial.small_image 1700 42 1705 0
                sample_keys_unique (or_introl eq_refl) eq_refl eq_refl
                ltac:(vm_compute; discriminate)) as H.
  cbv zeta in H. destruct H as (Hstored & _).
  assert (Hsmall : (Multer.size Trial.small_image < Multer.fileSize)%Z)
    by (vm_compute; reflexivity).
  destruct (Hstored (or_introl Hsmall)) as (Hanswer & Htable & _).
  pose proof (upload_stores_photo Reference.extname true Sample.store Sample.ann None
                Trial.full_image 1700 42 1705 0
                sample_keys_unique (or_introl eq_refl) eq_refl eq_refl
                ltac:(vm_compute; discriminate)) as H.
  cbv zeta in H. destruct H as (_ & Hfull & _).
  change (Profiles.unique_code Sample.ann) with "annannannannann1"
    in Hanswer, Htable, Hfull.
  rewrite Hanswer, Htable. split; [reflexivity|]. split; [reflexivity|].
  exact (Hfull eq_refl eq_refl).
Defined.

(** X10 on the sample: an empty list and an unknown action. *)
Lemma bulk_rejects_malformed_witness :
  @post_bulk Reference.tokens Reference.grammar None
    (bulk_request Trial.bearer (Js.Text "ban") (Http.ArrayOf [])) 1000 Sample.store
  = (Http.respond 400 (Http.Error "Invalid bulk operation parameters"), Sample.store)
  /\ @post_bulk Reference.tokens Reference.grammar None
       (bulk_request Trial.bearer (Js.Text "purge") (Http.ArrayOf Sample.three_codes))
       1000 Sample.store
     = (Http.respond 400 (Http.Error "Invalid action"), Sample.store).
Proof.
  split.
  - refine (proj1 (bulk_rejects_malformed Reference.tokens Reference.grammar None
                     Sample.store Trial.bearer
                     Sample.session (Js.Text "ban") (Http.ArrayOf []) 1000
                     sample_token_accepted) _).
    right. now left.
  - refine (proj2 (bulk_rejects_malformed Reference.tokens Reference.grammar None
                     Sample.store Trial.bearer
                     Sample.session (Js.Text "purge") (Http.ArrayOf Sample.three_codes)
                     1000 sample_token_accepted) Sample.three_codes eq_refl _ eq_refl _ _ _);
      discriminate.
Defined.

(** X11 on the sample: the deleted profile is gone, the other is still
    fetched. *)
Lemma delete_then_fetch_witness :
  fst (get_profile (plain_request None "annannannannann1") 7
         (snd (@delete_profile_route Reference.tokens None
                 (plain_request Trial.bearer "annannannannann1") 1000 Sample.store)))
  = Http.respond 404 (Http.Error "Profile not found")
  /\ fst (get_profile (plain_request None "bobbobbobbobbob2") 7
            (snd (@delete_profile_route Reference.tokens None
                    (plain_request Trial.bearer "annannannannann1") 1000 Sample.store)))
     = Http.respond 200 (Http.ProfileJson (profile_of_row Sample.bob)).
Proof.
  pose proof (delete_then_fetch Reference.tokens None Sample.store Trial.bearer
                Sample.session "annannannannann1" 1000 7
                sample_token_accepted sample_keys_unique) as H.
  cbv zeta in H. destruct H as (_ & _ & Hgone & _ & Hothers & _).
  split; [exact Hgone|].
  apply (Hothers Sample.bob); [right; now left|discriminate].
Defined.

(** X12 on the sample: the PIN change keeps the keys unique. *)
Lemma routes_keep_keys_unique_witness :
  keys_unique
    (snd (put_pin (pin_request None "annannannannann1" (Js.Text "24680")
                     (Js.Text "12345")) 5 Sample.store)).
Proof.
  destruct (routes_keep_keys_unique Reference.tokens Reference.grammar None
              Reference.compare Reference.extname true Sample.store 5 sample_keys_unique)
    as (_ & Hpin & _).
  apply Hpin.
Defined.

(** X13 on the sample draws. *)
Lemma generated_code_shape_witness :
  generateUniqueCode Trial.dice = "abcdefghijklmnop"
  /\ String.length (generateUniqueCode Trial.dice) = 16%nat
  /\ all_chars url_safe (generateUniqueCode Trial.dice) = true.
Proof.
  split; [reflexivity|].
  apply (generated_code_shape Trial.dice).
  intros k Hk. cbn [code_draw Trial.dice]. lia.
Defined.

(** X14 on the sample draw. *)
Lemma generated_pin_shape_witness :
  generatePin Trial.dice = "31415"
  /\ Js.is_five_digit_string (Js.Text (generatePin Trial.dice)) = true.
Proof.
  split; [reflexivity|].
  exact (proj1 (generated_pin_shape Trial.dice ltac:(cbn; lia))).
Defined.

(** X15 on the first of October 2025. *)
Lemma generated_id_shape_witness :
  generateIdCard Trial.dice = "20251001-0000-0007"
  /\ exists day_part draw_part,
       generateIdCard Trial.dice = day_part ++ "-0000-" ++ draw_part
       /\ digits 8 day_part = true
       /\ digits 4 draw_part = true
       /\ String.length (generateIdCard Trial.dice) = 18%nat.
Proof.
  split; [reflexivity|].
  apply (generated_id_shape Trial.dice); cbn; lia.
Defined.

(** X16 on the sample: the created profile is fetched by its code. *)
Lemma create_then_fetch_witness :
  reply_code (fst (@post_profiles Reference.tokens None
                     (create_request Trial.bearer empty_body) 1000 Trial.dice "u-3" 5000
                     Trial.world)) = 201
  /\ fst (get_profile (plain_request None "abcdefghijklmnop") 6000
            (Inserting.tables
               (snd (@post_profiles Reference.tokens None
                       (create_request Trial.bearer empty_body) 1000 Trial.dice "u-3" 5000
                       Trial.world))))
     = Http.respond 200
         (Http.ProfileJson (profile_of_row (inserted_row empty_body Trial.dice "u-3" 5000))).
Proof.
  pose proof (create_then_fetch Reference.tokens None Trial.world Trial.bearer
                Sample.session empty_body Trial.dice "u-3" 5000 1000 6000
                sample_token_accepted sample_keys_unique sample_fresh) as H.
  cbv zeta in H. destruct H as (Hanswer & _ & _ & Hfetch & _).
  split.
  - now rewrite Hanswer.
  - exact Hfetch.
Defined.

(** X17 on the sample: a creation asking for a taken code. *)
Lemma create_refuses_taken_keys_witness :
  fst (@post_profiles Reference.tokens None
         (create_request Trial.bearer Trial.clash) 1000 Trial.dice "u-3" 5000 Trial.world)
  = Plain (Http.respond 400 Http.DatabaseError)
  /\ Inserting.tables
       (snd (@post_profiles Reference.tokens None
               (create_request Trial.bearer Trial.clash) 1000 Trial.dice "u-3" 5000
               Trial.world))
     = Sample.store.
Proof.
  exact (create_refuses_taken_keys Reference.tokens None Trial.world Trial.bearer
           Sample.session Trial.clash Trial.dice "u-3" 5000 1000 Sample.ann
           sample_token_accepted (or_introl eq_refl) (or_introl eq_refl)).
Defined.

(** X18 on the sample: the generated id and PIN verify. *)
Lemma created_credentials_verify_witness :
  exists profile link,
    fst (@post_profiles Reference.tokens None
           (create_request Trial.bearer empty_body) 1000 Trial.dice "u-3" 5000 Trial.world)
    = Created profile link
    /\ Http.id profile = "20251001-0000-0007"
    /\ Http.pin profile = "31415"
    /\ fst (post_verify
              (verify_request None "" (Js.Text (Http.id profile))
                 (Js.Text (Http.pin profile))) 6000
              (Inserting.tables
                 (snd (@post_profiles Reference.tokens None
                         (create_request Trial.bearer empty_body) 1000 Trial.dice "u-3"
                         5000 Trial.world))))
       = Http.respond 200
           (Http.Verified "Credentials verified" (Http.uniqueCode profile)).
Proof.
  pose proof (created_credentials_verify Reference.tokens None Trial.world Trial.bearer
                Sample.session empty_body Trial.dice "u-3" 5000 1000 6000
                sample_token_accepted sample_keys_unique eq_refl eq_refl
                ltac:(cbn; lia) sample_fresh) as H.
  cbv zeta in H. destruct H as (profile & link & Hanswer & Hid & Hpin & _ & Hverify & _).
  exists profile, link. repeat split; assumption.
Defined.

(** X19 on the sample: one active, one banned, both created today. *)
Lemma dashboard_counts_are_consistent_witness :
  fst (@get_stats Reference.tokens None (plain_request Trial.bearer "") 1000 0 Sample.store)
  = Statistics 2 1 1 2 2
  /\ exists total active banned_count today week,
       fst (@get_stats Reference.tokens None (plain_request Trial.bearer "") 1000 0
              Sample.store)
       = Statistics total active banned_count today week
       /\ (active + banned_count <= total)%nat
       /\ (today <= week)%nat /\ (week <= total)%nat.
Proof.
  split; [vm_compute; reflexivity|].
  destruct (dashboard_counts_are_consistent Reference.tokens None Sample.store
              Trial.bearer Sample.session 1000 0 sample_token_accepted
              ltac:(vm_compute; discriminate))
    as (total & active & banned_count & today & week
        & Hanswer & _ & Hsum & _ & Htoday & Hweek & _).
  exists total, active, banned_count, today, week. repeat split; assumption.
Defined.

(** X20 on the sample: the scoped route accepts the PIN of the banned
    profile, which the by-id route refuses with 403; and the PIN of the
    active profile sent as the number 12345 is accepted by the scoped
    route and refused with 401 by the by-id route. *)
Lemma verification_routes_agree_unless_banned_witness :
  Http.code (fst (post_verify
                    (verify_request None "" (Js.Text "20251001-0000-0002")
                       (Js.Text "54321")) 0 Sample.store)) = 403
  /\ Http.code (fst (post_verify_scoped
                       (verify_request None "bobbobbobbobbob2"
                          (Js.Text "20251001-0000-0002") (Js.Text "54321")) 0
                       Sample.store)) = 200
  /\ Http.code (fst (post_verify
                       (verify_request None "" (Js.Text "20251001-0000-0001")
                          (Js.Number "12345")) 0 Sample.store)) = 401
  /\ Http.code (fst (post_verify_scoped
                       (verify_request None "annannannannann1"
                          (Js.Text "20251001-0000-0001") (Js.Number "12345")) 0
                       Sample.store)) = 200.
Proof.
  pose proof (verification_routes_agree_unless_banned Sample.store Sample.bob
                (Js.Text "54321") 0
                sample_keys_unique (or_intror (or_introl eq_refl))
                ltac:(discriminate) eq_refl) as H.
  cbv zeta in H. destruct H as (Hscoped & _ & Hbanned & _).
  pose proof (verification_routes_agree_unless_banned Sample.store Sample.ann
                (Js.Number "12345") 0
                sample_keys_unique (or_introl eq_refl)
                ltac:(discriminate) eq_refl) as H.
  cbv zeta in H. destruct H as (Hnumber & _ & _ & _ & Hother).
  split; [exact (Hbanned eq_refl)|].
  split; [exact (proj2 Hscoped eq_refl)|].
  split; [apply (Hother eq_refl); intros text; discriminate|].
  exact (proj2 Hnumber eq_refl).
Defined.

(** X21 on the active sample profile: a rename sent twice, and a
    status of twenty-one characters sent twice. *)
Lemma owner_update_is_idempotent_witness :
  Supabase.profiles
    (snd (put_profile (update_request None "annannannannann1" (Sample.rename "Ann Other")) 9
            (snd (put_profile
                    (update_request None "annannannannann1" (Sample.rename "Ann Other")) 8
                    Sample.store))))
  = Supabase.profiles
      (snd (put_profile (update_request None "annannannannann1" (Sample.rename "Ann Other"))
              9 Sample.store))
  /\ Http.code
       (fst (put_profile (update_request None "annannannannann1" Sample.long_status) 9
               (snd (put_profile
                       (update_request None "annannannannann1" Sample.long_status) 8
                       Sample.store)))) = 400
  /\ Supabase.profiles
       (snd (put_profile (update_request None "annannannannann1" Sample.long_status) 9
               (snd (put_profile
                       (update_request None "annannannannann1" Sample.long_status) 8
                       Sample.store))))
     = Supabase.profiles Sample.store.
Proof.
  pose proof (owner_update_is_idempotent Sample.store Sample.ann None
                (Sample.rename "Ann Other") 8 9 sample_keys_unique (or_introl eq_refl)) as H.
  cbv zeta in H. destruct H as (Hsame & _).
  pose proof (owner_update_is_idempotent Sample.store Sample.ann None
                Sample.long_status 8 9 sample_keys_unique (or_introl eq_refl)) as H.
  cbv zeta in H. destruct H as (_ & _ & Hcode & Hkept).
  split; [exact Hsame|]. split; [exact Hcode|]. exact (Hkept eq_refl).
Defined.
